(** * Expense lifecycle and numbering of the expenses module

    A shallow embedding of [models.py] ([ExpenseSettings], [Supplier],
    [Expense], [RecurringExpense.get_next_date_after]) and of the views
    of [views.py] that write expenses and settings ([expense_create],
    [expense_edit], [expense_delete], [expense_approve],
    [expense_mark_paid], [settings_save]).

    Conventions of the embedding.
    - A [decimal.Decimal] is a coefficient and an exponent; arithmetic is
      exact.  The decimal context's precision (28 significant digits) is
      not reached by values of the declared column types
      ([max_digits=10], [max_digits=5]): their product has at most 15
      digits.  [quantize] rounds with the context's default mode,
      ROUND_HALF_EVEN.
    - A string is a sequence of code points below 256, ordered by code
      point (the order of [order_by] under a binary collation).
    - The database is a record of tables; a table maps primary keys to
      rows, and a row holds its amounts in whole hundredths, as columns
      of two decimal places do.  The clock is an argument of every
      operation that reads it.
    - An operation that can raise returns an [option], [None] being the
      exception, or a sum whose left side names the exception. *)

From Stdlib Require Import ZArith Lia Bool List Ascii String.
From stdpp Require Import base option list gmap strings.

Local Open Scope Z_scope.

(** ** Decimal numbers *)

Module Dec.

Record Decimal : Type := mkDecimal { coef : Z; expo : Z }.

#[global] Instance Decimal_eq_dec : EqDecision Decimal.
Proof. solve_decision. Defined.

(** [Decimal('0.00')] and [Decimal('0.01')]. *)
Definition zero2 : Decimal := mkDecimal 0 (-2).
Definition cent : Decimal := mkDecimal 1 (-2).

(** [bool(d)]: a Decimal is falsy exactly when it is zero. *)
Definition truthy (d : Decimal) : bool := negb (coef d =? 0).

(** The coefficient of [d] written at exponent [e], for [e <= expo d]. *)
Definition scaled (d : Decimal) (e : Z) : Z := coef d * 10 ^ (expo d - e).

Definition mul (a b : Decimal) : Decimal :=
  mkDecimal (coef a * coef b) (expo a + expo b).

Definition add (a b : Decimal) : Decimal :=
  let e := Z.min (expo a) (expo b) in
  mkDecimal (scaled a e + scaled b e) e.

(** [a / b] where [b] is a power of ten with coefficient 1 followed by
    zeros, the only divisor of the source ([Decimal('100')]): the quotient
    is exact and only the exponent moves. *)
Definition div100 (a : Decimal) : Decimal := mkDecimal (coef a) (expo a - 2).

Definition compare (a b : Decimal) : comparison :=
  let e := Z.min (expo a) (expo b) in
  scaled a e ?= scaled b e.

Definition eqb (a b : Decimal) : bool :=
  match compare a b with Eq => true | _ => false end.
Definition gtb (a b : Decimal) : bool :=
  match compare a b with Gt => true | _ => false end.

(** Nearest multiple of [m] to [c], counted in units of [m]; a tie goes to
    the even neighbour (ROUND_HALF_EVEN). *)
Definition round_half_even (c m : Z) : Z :=
  let q := c / m in
  let r := c mod m in
  match 2 * r ?= m with
  | Lt => q
  | Gt => q + 1
  | Eq => if Z.even q then q else q + 1
  end.

(** [d.quantize(q)]: [d] rounded to the exponent of [q]. *)
Definition quantize (d q : Decimal) : Decimal :=
  let e := expo q in
  if e <=? expo d then mkDecimal (scaled d e) e
  else mkDecimal (round_half_even (coef d) (10 ^ (e - expo d))) e.







End Dec.


(** ** Strings of the standard library of Python *)

Module Py.

Definition code (c : ascii) : Z := Z.of_N (N_of_ascii c).

Definition is_digit (c : ascii) : bool := (48 <=? code c) && (code c <=? 57).
Definition digit_val (c : ascii) : Z := code c - 48.

(** [str.isspace] on code points below 256. *)
Definition is_space (c : ascii) : bool :=
  let n := code c in
  ((9 <=? n) && (n <=? 13)) || ((28 <=? n) && (n <=? 32))
  || (n =? 133) || (n =? 160).

Fixpoint lstrip (s : string) : string :=
  match s with
  | String c s' => if is_space c then lstrip s' else s
  | EmptyString => EmptyString
  end.

(** [rstrip] keeps a character when it is not a space or when something
    that is kept follows it. *)
Fixpoint rstrip (s : string) : string :=
  match s with
  | String c s' =>
      match rstrip s' with
      | EmptyString => if is_space c then EmptyString else String c EmptyString
      | t => String c t
      end
  | EmptyString => EmptyString
  end.

Definition strip (s : string) : string := rstrip (lstrip s).

(** Decimal digits in which single underscores may separate digits, as
    [int] accepts them; [after_digit] tells whether the previous character
    was a digit. *)
Fixpoint digits (s : string) (acc : Z) (after_digit : bool) : option Z :=
  match s with
  | EmptyString => if after_digit then Some acc else None
  | String c s' =>
      if is_digit c then digits s' (10 * acc + digit_val c) true
      else if Ascii.eqb c "_" && after_digit then digits s' acc false
      else None
  end.

(** [int(s)]; [None] stands for [ValueError]. *)
Definition int (s : string) : option Z :=
  match strip s with
  | String "+" t => digits t 0 false
  | String "-" t => Z.opp <$> digits t 0 false
  | t => digits t 0 false
  end.

(** [s.split(sep)] for a separator of one character: never empty. *)
Fixpoint split (sep : ascii) (s : string) : list string :=
  match s with
  | EmptyString => [EmptyString]
  | String c s' =>
      if Ascii.eqb c sep then EmptyString :: split sep s'
      else match split sep s' with
           | seg :: segs => String c seg :: segs
           | [] => [String c EmptyString]
           end
  end.

(** [l[-1]]; [None] stands for [IndexError]. *)
Definition last_item {A} (l : list A) : option A := last l.

Definition digit_char (d : Z) : ascii := ascii_of_N (Z.to_N (48 + d)).

Fixpoint digits_of (fuel : nat) (n : Z) (acc : string) : string :=
  match fuel with
  | O => acc
  | S fuel' =>
      let acc' := String (digit_char (n mod 10)) acc in
      if n / 10 =? 0 then acc' else digits_of fuel' (n / 10) acc'
  end.

(** [str(n)] for [0 <= n]: a number has no more digits than bits. *)
Definition str_nat (n : Z) : string :=
  digits_of (S (Z.to_nat (Z.log2 n))) n EmptyString.

Fixpoint zeros (k : nat) : string :=
  match k with O => EmptyString | S k' => String "0" (zeros k') end.

(** [format(n, '0{width}d')]: the sign counts in the width. *)
Definition format_0d (width : nat) (n : Z) : string :=
  if n <? 0 then
    let d := str_nat (- n) in
    String "-" (zeros (width - 1 - String.length d) +:+ d)
  else
    let d := str_nat n in
    zeros (width - String.length d) +:+ d.

End Py.

(** ** Dates and the clock *)

Record date : Type := mkDate { year : Z; month : Z; day : Z }.

Record datetime : Type := mkDatetime { dt_date : date; dt_seconds : Z }.

#[global] Instance date_eq_dec : EqDecision date.
Proof. solve_decision. Defined.
#[global] Instance datetime_eq_dec : EqDecision datetime.
Proof. solve_decision. Defined.

Definition date_leb (a b : date) : bool :=
  match year a ?= year b with
  | Lt => true
  | Gt => false
  | Eq => match month a ?= month b with
          | Lt => true
          | Gt => false
          | Eq => day a <=? day b
          end
  end.

Definition date_max (a b : date) : date := if date_leb a b then b else a.

(** [d.strftime('%Y%m%d')]. *)
Definition strftime_Ymd (d : datetime) : string :=
  Py.format_0d 4 (year (dt_date d)) +:+ Py.format_0d 2 (month (dt_date d))
  +:+ Py.format_0d 2 (day (dt_date d)).

(** ** Data model

    Primary keys, tenants (hubs) and users are opaque identifiers.  The
    records are parametric in the type of their amounts: an object in
    memory holds [Dec.Decimal]s, a row of a table holds whole hundredths
    ([Z]), the content of a [DecimalField(decimal_places=2)] column. *)

Abbreviation ident := positive.

Inductive Status : Type := draft | pending | approved | paid | rejected.

#[global] Instance Status_eq_dec : EqDecision Status.
Proof. solve_decision. Defined.

Record ExpenseSettingsOf (num : Type) : Type := mkExpenseSettings {
  require_approval : bool;
  approval_threshold : num;
  default_tax_rate : num;
  auto_numbering : bool;
  number_prefix : string
}.
Arguments mkExpenseSettings {num}.
Arguments require_approval {num}.
Arguments approval_threshold {num}.
Arguments default_tax_rate {num}.
Arguments auto_numbering {num}.
Arguments number_prefix {num}.

Record SupplierOf (num : Type) : Type := mkSupplier {
  total_spent : num;
  last_purchase_date : option date
}.
Arguments mkSupplier {num}.
Arguments total_spent {num}.
Arguments last_purchase_date {num}.

Record ExpenseOf (num : Type) : Type := mkExpense {
  pk : option ident;
  hub_id : ident;
  is_deleted : bool;
  expense_number : string;
  supplier : option ident;
  amount : num;
  tax_rate : num;
  tax_amount : num;
  total_amount : num;
  expense_date : date;
  status : Status;
  approved_by : option ident;
  approved_at : option datetime;
  paid_at : option datetime
}.
Arguments mkExpense {num}.
Arguments pk {num}.
Arguments hub_id {num}.
Arguments is_deleted {num}.
Arguments expense_number {num}.
Arguments supplier {num}.
Arguments amount {num}.
Arguments tax_rate {num}.
Arguments tax_amount {num}.
Arguments total_amount {num}.
Arguments expense_date {num}.
Arguments status {num}.
Arguments approved_by {num}.
Arguments approved_at {num}.
Arguments paid_at {num}.

Abbreviation ExpenseSettings := (ExpenseSettingsOf Dec.Decimal).
Abbreviation Supplier := (SupplierOf Dec.Decimal).
Abbreviation Expense := (ExpenseOf Dec.Decimal).
Abbreviation ExpenseRow := (ExpenseOf Z).

(** Field assignments [self.f = v]. *)
Section Setters.
Context {num : Type}.
Implicit Type e : ExpenseOf num.

Definition set_pk (v : option ident) e : ExpenseOf num :=
  mkExpense v (hub_id e) (is_deleted e) (expense_number e) (supplier e)
    (amount e) (tax_rate e) (tax_amount e) (total_amount e) (expense_date e)
    (status e) (approved_by e) (approved_at e) (paid_at e).

Definition set_expense_number (v : string) e : ExpenseOf num :=
  mkExpense (pk e) (hub_id e) (is_deleted e) v (supplier e)
    (amount e) (tax_rate e) (tax_amount e) (total_amount e) (expense_date e)
    (status e) (approved_by e) (approved_at e) (paid_at e).

Definition set_amount (v : num) e : ExpenseOf num :=
  mkExpense (pk e) (hub_id e) (is_deleted e) (expense_number e) (supplier e)
    v (tax_rate e) (tax_amount e) (total_amount e) (expense_date e)
    (status e) (approved_by e) (approved_at e) (paid_at e).

Definition set_tax_amount (v : num) e : ExpenseOf num :=
  mkExpense (pk e) (hub_id e) (is_deleted e) (expense_number e) (supplier e)
    (amount e) (tax_rate e) v (total_amount e) (expense_date e)
    (status e) (approved_by e) (approved_at e) (paid_at e).

Definition set_total_amount (v : num) e : ExpenseOf num :=
  mkExpense (pk e) (hub_id e) (is_deleted e) (expense_number e) (supplier e)
    (amount e) (tax_rate e) (tax_amount e) v (expense_date e)
    (status e) (approved_by e) (approved_at e) (paid_at e).

Definition set_status (v : Status) e : ExpenseOf num :=
  mkExpense (pk e) (hub_id e) (is_deleted e) (expense_number e) (supplier e)
    (amount e) (tax_rate e) (tax_amount e) (total_amount e) (expense_date e)
    v (approved_by e) (approved_at e) (paid_at e).

Definition set_approved_by (v : option ident) e : ExpenseOf num :=
  mkExpense (pk e) (hub_id e) (is_deleted e) (expense_number e) (supplier e)
    (amount e) (tax_rate e) (tax_amount e) (total_amount e) (expense_date e)
    (status e) v (approved_at e) (paid_at e).

Definition set_approved_at (v : option datetime) e : ExpenseOf num :=
  mkExpense (pk e) (hub_id e) (is_deleted e) (expense_number e) (supplier e)
    (amount e) (tax_rate e) (tax_amount e) (total_amount e) (expense_date e)
    (status e) (approved_by e) v (paid_at e).

Definition set_paid_at (v : option datetime) e : ExpenseOf num :=
  mkExpense (pk e) (hub_id e) (is_deleted e) (expense_number e) (supplier e)
    (amount e) (tax_rate e) (tax_amount e) (total_amount e) (expense_date e)
    (status e) (approved_by e) (approved_at e) v.

End Setters.

(** *** Columns

    Writing a [Decimal] to a column of two decimal places keeps the
    hundredths of its value rounded to the column's scale; reading gives
    the [Decimal] of exponent -2. *)
Definition to_column (d : Dec.Decimal) : Z := Dec.coef (Dec.quantize d Dec.cent).
Definition of_column (c : Z) : Dec.Decimal := Dec.mkDecimal c (-2).

Definition map_amounts {A B} (f : A -> B) (e : ExpenseOf A) : ExpenseOf B :=
  mkExpense (pk e) (hub_id e) (is_deleted e) (expense_number e) (supplier e)
    (f (amount e)) (f (tax_rate e)) (f (tax_amount e)) (f (total_amount e))
    (expense_date e) (status e) (approved_by e) (approved_at e) (paid_at e).

Definition to_db (e : Expense) : ExpenseRow := map_amounts to_column e.
Definition from_db (r : ExpenseRow) : Expense := map_amounts of_column r.

Definition settings_from_db (r : ExpenseSettingsOf Z) : ExpenseSettings :=
  mkExpenseSettings (require_approval r) (of_column (approval_threshold r))
    (of_column (default_tax_rate r)) (auto_numbering r) (number_prefix r).

Definition supplier_from_db (r : SupplierOf Z) : Supplier :=
  mkSupplier (of_column (total_spent r)) (last_purchase_date r).

(** *** The database *)
Record DB : Type := mkDB {
  settings_tbl : gmap ident (ExpenseSettingsOf Z);
  suppliers_tbl : gmap ident (SupplierOf Z);
  expenses_tbl : gmap ident ExpenseRow
}.

Definition with_settings (t : gmap ident (ExpenseSettingsOf Z)) (db : DB) : DB :=
  mkDB t (suppliers_tbl db) (expenses_tbl db).
Definition with_suppliers (t : gmap ident (SupplierOf Z)) (db : DB) : DB :=
  mkDB (settings_tbl db) t (expenses_tbl db).
Definition with_expenses (t : gmap ident ExpenseRow) (db : DB) : DB :=
  mkDB (settings_tbl db) (suppliers_tbl db) t.

(** The field defaults of [ExpenseSettings]: no approval, threshold 0.00,
    tax rate 21.00, automatic numbering, prefix EXP. *)
Definition default_settings_row : ExpenseSettingsOf Z :=
  mkExpenseSettings false 0 2100 true "EXP".

(** [ExpenseSettings.get_settings]: [get_or_create(hub_id=hub_id)]. *)
Definition get_settings (db : DB) (hub : ident) : ExpenseSettings * DB :=
  match settings_tbl db !! hub with
  | Some r => (settings_from_db r, db)
  | None =>
      (settings_from_db default_settings_row,
       with_settings (<[hub := default_settings_row]> (settings_tbl db)) db)
  end.

(** ** Expense *)

(** [cls.all_objects.filter(hub_id=hub_id,
    expense_number__startswith=full_prefix)]: soft-deleted rows included.
    The prefix is matched in exact case, as PostgreSQL and MySQL match
    it; [numbered_under_on] below has the match of SQLite as well. *)
Definition numbered_under (db : DB) (hub : ident) (full_prefix : string)
  : list ExpenseRow :=
  filter (fun r => hub_id r = hub /\ String.prefix full_prefix (expense_number r) = true)
    (snd <$> map_to_list (expenses_tbl db)).

(** [.order_by('-expense_number').first()]: a row whose number is greatest
    in the order of strings, [None] on an empty query set. *)
Definition first_by_number_desc (rows : list ExpenseRow) : option ExpenseRow :=
  foldr (fun r best =>
           match best with
           | None => Some r
           | Some b =>
               if String.ltb (expense_number b) (expense_number r)
               then Some r else Some b
           end) None rows.

(** [Expense.generate_expense_number(hub_id, prefix)]; [now] is
    [timezone.now()]. *)
Definition generate_expense_number (now : datetime) (db : DB) (hub : ident)
  (prefix : string) : string :=
  let date_part := strftime_Ymd now in
  let full_prefix := prefix +:+ "-" +:+ date_part in
  let last_expense := first_by_number_desc (numbered_under db hub full_prefix) in
  let new_num :=
    match last_expense with
    | Some last =>
        match Py.last_item (Py.split "-" (expense_number last)) ≫= Py.int with
        | Some last_num => last_num + 1
        | None => 1
        end
    | None => 1
    end in
  full_prefix +:+ "-" +:+ Py.format_0d 4 new_num.

(** The columns that the views name in [update_fields]. *)
Inductive field : Type :=
  f_status | f_approved_by | f_approved_at | f_paid_at | f_updated_at.

(** One column of the object [o] written over the row [r]. *)
Definition write_field (o : ExpenseRow) (f : field) (r : ExpenseRow) : ExpenseRow :=
  match f with
  | f_status => set_status (status o) r
  | f_approved_by => set_approved_by (approved_by o) r
  | f_approved_at => set_approved_at (approved_at o) r
  | f_paid_at => set_paid_at (paid_at o) r
  | f_updated_at => r
  end.

(** [super().save(update_fields=...)]: without [update_fields] the row of
    the object is inserted (a new object gets a fresh key) or replaced;
    with [update_fields] only the named columns of the existing row are
    written.  [None] stands for the exception of an update that has no row
    to write. *)
Definition Model_save (db : DB) (update_fields : option (list field)) (e : Expense)
  : option (Expense * DB) :=
  match update_fields with
  | None =>
      let id := match pk e with
                | Some id => id
                | None => fresh (dom (expenses_tbl db))
                end in
      let e' := set_pk (Some id) e in
      Some (e', with_expenses (<[id := to_db e']> (expenses_tbl db)) db)
  | Some fields =>
      match pk e with
      | None => None
      | Some id =>
          match expenses_tbl db !! id with
          | None => None
          | Some r =>
              let r' := foldr (write_field (to_db e)) r fields in
              Some (e, with_expenses (<[id := r']> (expenses_tbl db)) db)
          end
      end
  end.

(** The first half of [Expense.save]: tax and total. *)
Definition calculate_amounts (e : Expense) : Expense :=
  if Dec.truthy (amount e) then
    let e1 :=
      set_tax_amount
        (Dec.quantize (Dec.div100 (Dec.mul (amount e) (tax_rate e))) Dec.cent) e in
    set_total_amount
      (Dec.quantize (Dec.add (amount e1) (tax_amount e1)) Dec.cent) e1
  else e.

(** [settings.number_prefix or 'EXP'] under [if settings.auto_numbering]. *)
Definition numbering_prefix (settings : ExpenseSettings) : string :=
  if auto_numbering settings then
    (if String.eqb (number_prefix settings) "" then "EXP" else number_prefix settings)
  else "EXP".

(** The second half of [Expense.save]: the number, when there is none. *)
Definition assign_number (now : datetime) (db : DB) (e : Expense) : Expense * DB :=
  if String.eqb (expense_number e) "" then
    let '(settings, db1) := get_settings db (hub_id e) in
    let prefix := numbering_prefix settings in
    (set_expense_number (generate_expense_number now db1 (hub_id e) prefix) e, db1)
  else (e, db).

(** [Expense.save(self, *args, **kwargs)]. *)
Definition Expense_save (now : datetime) (db : DB)
  (update_fields : option (list field)) (e : Expense) : option (Expense * DB) :=
  let e1 := calculate_amounts e in
  let '(e2, db1) := assign_number now db e1 in
  Model_save db1 update_fields e2.

(** ** Supplier *)

(** [self.expenses.filter(is_deleted=False, status='paid')]. *)
Definition paid_expenses (db : DB) (sid : ident) : list ExpenseRow :=
  filter (fun r => supplier r = Some sid /\ is_deleted r = false /\ status r = paid)
    (snd <$> map_to_list (expenses_tbl db)).

(** [Sum] and [Max]: [None] (NULL) over no rows. *)
Definition Sum (l : list Z) : option Dec.Decimal :=
  match l with
  | [] => None
  | _ => Some (of_column (foldr Z.add 0 l))
  end.

Definition Max (l : list date) : option date :=
  match l with
  | [] => None
  | d :: l' => Some (foldr date_max d l')
  end.

(** [agg['total'] or Decimal('0.00')]. *)
Definition or_zero (total : option Dec.Decimal) : Dec.Decimal :=
  match total with
  | Some d => if Dec.truthy d then d else Dec.zero2
  | None => Dec.zero2
  end.

(** [Supplier.update_totals(self)] for the supplier of key [sid]; the save
    writes [total_spent] and [last_purchase_date] only. *)
Definition update_totals (db : DB) (sid : ident) (self : Supplier) : Supplier * DB :=
  let rows := paid_expenses db sid in
  let total := Sum (total_amount <$> rows) in
  let last_date := Max (expense_date <$> rows) in
  let self' := mkSupplier (or_zero total) last_date in
  (self',
   with_suppliers
     (<[sid := mkSupplier (to_column (total_spent self')) (last_purchase_date self')]>
        (suppliers_tbl db)) db).

(** ** Views *)

(** A [JsonResponse]: success, a declined request ([success] false with a
    message), or the answer of the [except] clause (status 400). *)
Inductive JsonResponse : Type :=
  | JsonSuccess
  | JsonDeclined (error : string)
  | JsonError400.

(** [get_object_or_404(Expense, id=pk, hub_id=hub, is_deleted=False)]. *)
Definition get_expense (db : DB) (pk : ident) (hub : ident) : option Expense :=
  match expenses_tbl db !! pk with
  | Some r =>
      if decide (hub_id r = hub /\ is_deleted r = false)
      then Some (set_pk (Some pk) (from_db r)) else None
  | None => None
  end.

Definition msg_only_draft_or_pending : string :=
  "Only draft or pending expenses can be approved.".
Definition msg_requires_approval : string :=
  "This expense requires approval before it can be marked as paid.".

(** [expense_approve(request, pk)]; [hub] and [employee] come from the
    session. *)
Definition expense_approve (now : datetime) (db : DB) (hub : ident)
  (employee : option ident) (pk : ident) : JsonResponse * DB :=
  match get_expense db pk hub with
  | None => (JsonError400, db)
  | Some expense =>
      if negb (bool_decide (status expense ∈ [draft; pending])) then
        (JsonDeclined msg_only_draft_or_pending, db)
      else
        let expense := set_status approved expense in
        let expense := set_approved_by employee expense in
        let expense := set_approved_at (Some now) expense in
        match Expense_save now db
                (Some [f_status; f_approved_by; f_approved_at; f_updated_at])
                expense with
        | Some (_, db') => (JsonSuccess, db')
        | None => (JsonError400, db)
        end
  end.

(** The gate of [expense_mark_paid]: the two nested conditions. *)
Definition approval_missing (settings : ExpenseSettings) (expense : Expense) : bool :=
  if require_approval settings && negb (bool_decide (status expense ∈ [approved])) then
    if Dec.gtb (total_amount expense) (approval_threshold settings)
       || Dec.eqb (approval_threshold settings) Dec.zero2
    then true else false
  else false.

(** [expense_mark_paid(request, pk)]. *)
Definition expense_mark_paid (now : datetime) (db : DB) (hub : ident) (pk : ident)
  : JsonResponse * DB :=
  match get_expense db pk hub with
  | None => (JsonError400, db)
  | Some expense =>
      let '(settings, db1) := get_settings db hub in
      if approval_missing settings expense then
        (JsonDeclined msg_requires_approval, db1)
      else
        let expense := set_status paid expense in
        let expense := set_paid_at (Some now) expense in
        match Expense_save now db1 (Some [f_status; f_paid_at; f_updated_at])
                expense with
        | None => (JsonError400, db1)
        | Some (expense, db2) =>
            match supplier expense with
            | None => (JsonSuccess, db2)
            | Some sid =>
                match suppliers_tbl db2 !! sid with
                | None => (JsonError400, db2)
                | Some s =>
                    (JsonSuccess, snd (update_totals db2 sid (supplier_from_db s)))
                end
            end
        end
  end.

(** ** Specification-side definitions *)

(** [round(x, 2)] of a [Decimal]: [Decimal.__round__] quantizes to two
    places. *)
Definition round2 (x : Dec.Decimal) : Dec.Decimal := Dec.quantize x Dec.cent.

(** [amount * tax_rate / 100], not rounded. *)
Definition exact_tax (e : Expense) : Dec.Decimal :=
  Dec.div100 (Dec.mul (amount e) (tax_rate e)).

(** The invariant of the data model on the derived amounts. *)
Definition money_invariant (e : Expense) : Prop :=
  tax_amount e = round2 (exact_tax e) /\
  total_amount e = round2 (Dec.add (amount e) (tax_amount e)).

(** A value that fits a column of two decimal places as it is. *)
Definition two_places (d : Dec.Decimal) : Prop := Dec.expo d = -2.


(** The trailing integer of an expense number: what follows the final
    ['-'], read as an integer. *)
Definition trailing_sequence (number : string) : option Z :=
  Py.last_item (Py.split "-" number) ≫= Py.int.

(** The sequence that the specification asks for: one plus the highest
    trailing integer among the numbers under the key, 1 when there is
    none. *)
Definition spec_next_sequence (numbers : list string) : Z :=
  match omap trailing_sequence numbers with
  | [] => 1
  | n :: ns => foldr Z.max n ns + 1
  end.

(** The suffix of a generated number. *)
Definition suffix_of (number : string) : Z := default 0 (trailing_sequence number).

(** [Expense.objects.create(...)] of a draft expense: a new object, saved. *)
Definition new_expense (hub : ident) (sup : option ident) (amt rate : Dec.Decimal)
  (d : date) : Expense :=
  mkExpense None hub false "" sup amt rate Dec.zero2 Dec.zero2 d draft None None None.

Definition create (now : datetime) (db : DB) (hub : ident) (sup : option ident)
  (amt rate : Dec.Decimal) (d : date) : option (Expense * DB) :=
  Expense_save now db None (new_expense hub sup amt rate d).

(** The settings row of a hub, as [get_settings] reads or creates it. *)
Definition settings_row (db : DB) (hub : ident) : ExpenseSettingsOf Z :=
  default default_settings_row (settings_tbl db !! hub).

(** *** Sample data *)
Definition jan5 : date := mkDate 2026 1 5.
Definition noon : datetime := mkDatetime jan5 43200.
Definition empty_db : DB := mkDB ∅ ∅ ∅.
Definition d_100_00 : Dec.Decimal := Dec.mkDecimal 10000 (-2).
Definition d_21_00 : Dec.Decimal := Dec.mkDecimal 2100 (-2).
Definition d_0_50 : Dec.Decimal := Dec.mkDecimal 50 (-2).

(** A stored expense of hub 1 that carries the given number. *)
Definition numbered_row (number : string) : ExpenseRow :=
  mkExpense None 1%positive false number None 1000 2100 210 1210 jan5 draft
    None None None.

(** A hub whose day already has the numbers 9998 and 9999. *)
Definition busy_db : DB :=
  mkDB ∅ ∅
    (<[2%positive := numbered_row "EXP-20260105-9999"]>
       (<[1%positive := numbered_row "EXP-20260105-9998"]> ∅)).

(** Strings of decimal digits and the number they write. *)
Fixpoint all_digits (s : string) : bool :=
  match s with
  | EmptyString => true
  | String c s' => Py.is_digit c && all_digits s'
  end.

Fixpoint digits_value (s : string) : Z :=
  match s with
  | EmptyString => 0
  | String c s' => Py.digit_val c * 10 ^ Z.of_nat (String.length s') + digits_value s'
  end.

(** A number of the shape that the generator gives below 10000: the key,
    a dash and four digits. *)
Definition four_digit_number (key number : string) : Prop :=
  exists d, number = key +:+ "-" +:+ d /\ all_digits d = true /\ String.length d = 4%nat.

(** Every number of the hub under the key has that shape. *)
Definition four_digit_numbers (db : DB) (hub : ident) (key : string) : Prop :=
  forall k r, expenses_tbl db !! k = Some r -> hub_id r = hub ->
              String.prefix key (expense_number r) = true ->
              four_digit_number key (expense_number r).

(** The object is in the database as it stands in memory. *)
Definition persisted (db : DB) (e : Expense) : Prop :=
  exists id, pk e = Some id /\ expenses_tbl db !! id = Some (to_db e).

(** The approval policy on stored values (hundredths): when approval is
    required, an expense that is not approved is held back if its total
    exceeds the threshold or the threshold is zero. *)
Definition must_decline (s : ExpenseSettingsOf Z) (r : ExpenseRow) : Prop :=
  require_approval s = true /\ status r <> approved /\
  (approval_threshold s < total_amount r \/ approval_threshold s = 0).

(** The latest of the dates of [l], [None] when there is none. *)
Definition is_latest (o : option date) (l : list date) : Prop :=
  match o with
  | None => l = []
  | Some d => d ∈ l /\ forall d', d' ∈ l -> date_leb d' d = true
  end.

(** A hub that has switched automatic numbering off and configured its
    own prefix. *)
Definition manual_db : DB :=
  mkDB (<[1%positive := mkExpenseSettings false 0 2100 false "GASTO"]> ∅) ∅ ∅.

(** A hub that requires approval above 500.00, with one supplier and one
    draft expense of 100.00 at 21.00 percent linked to it. *)
Definition shop_db : DB :=
  mkDB (<[1%positive := mkExpenseSettings true 50000 2100 true "EXP"]> ∅)
       (<[7%positive := mkSupplier 0 None]> ∅)
       (<[3%positive :=
            mkExpense (Some 3%positive) 1%positive false "EXP-20260105-0001"
              (Some 7%positive) 10000 2100 2100 12100 jan5 draft None None None]> ∅).

(** ** The other views of an expense *)

Section MoreSetters.
Context {num : Type}.
Implicit Type e : ExpenseOf num.

Definition set_is_deleted (v : bool) e : ExpenseOf num :=
  mkExpense (pk e) (hub_id e) v (expense_number e) (supplier e)
    (amount e) (tax_rate e) (tax_amount e) (total_amount e) (expense_date e)
    (status e) (approved_by e) (approved_at e) (paid_at e).

Definition set_supplier (v : option ident) e : ExpenseOf num :=
  mkExpense (pk e) (hub_id e) (is_deleted e) (expense_number e) v
    (amount e) (tax_rate e) (tax_amount e) (total_amount e) (expense_date e)
    (status e) (approved_by e) (approved_at e) (paid_at e).

Definition set_tax_rate (v : num) e : ExpenseOf num :=
  mkExpense (pk e) (hub_id e) (is_deleted e) (expense_number e) (supplier e)
    (amount e) v (tax_amount e) (total_amount e) (expense_date e)
    (status e) (approved_by e) (approved_at e) (paid_at e).

Definition set_expense_date (v : date) e : ExpenseOf num :=
  mkExpense (pk e) (hub_id e) (is_deleted e) (expense_number e) (supplier e)
    (amount e) (tax_rate e) (tax_amount e) (total_amount e) v
    (status e) (approved_by e) (approved_at e) (paid_at e).

End MoreSetters.

(** Modelled from the spec: [HubBaseModel.delete], which the views call
    and which is not among the sources.  A delete is soft: it marks the
    record deleted and keeps it in storage (the tests of every model
    assert [is_deleted is True] and one row under [all_objects]).  [None]
    stands for the exception of a delete that has no row to mark. *)
Definition Model_delete (db : DB) (e : Expense) : option DB :=
  match pk e with
  | Some id =>
      match expenses_tbl db !! id with
      | Some r =>
          Some (with_expenses (<[id := set_is_deleted true r]> (expenses_tbl db)) db)
      | None => None
      end
  | None => None
  end.

(** The answer of a view: the page that [Http404] produces when
    [get_object_or_404] raises outside a [try], or a JSON body. *)
Inductive Response : Type :=
  | Http404
  | Json (body : JsonResponse).

(** [expense_delete(request, pk)]: the lookup is outside the [try]. *)
Definition expense_delete (db : DB) (hub : ident) (pk : ident) : Response * DB :=
  match get_expense db pk hub with
  | None => (Http404, db)
  | Some expense =>
      match Model_delete db expense with
      | Some db' => (Json JsonSuccess, db')
      | None => (Json JsonError400, db)
      end
  end.

(** The cleaned data of a valid [ExpenseForm], for the fields of the form
    that the model of an expense keeps. *)
Record ExpenseFormData : Type := mkExpenseFormData {
  form_supplier : option ident;
  form_amount : Dec.Decimal;
  form_tax_rate : Dec.Decimal;
  form_expense_date : date;
  form_status : Status
}.

(** [form.save(commit=False)] of a form without instance, followed by
    [expense.hub_id = hub]: the fields of the form, the defaults of the
    model for the others. *)
Definition form_new_instance (hub : ident) (form : ExpenseFormData) : Expense :=
  mkExpense None hub false "" (form_supplier form) (form_amount form)
    (form_tax_rate form) Dec.zero2 Dec.zero2 (form_expense_date form)
    (form_status form) None None None.

(** The fields of the form written over an instance
    ([ExpenseForm(request.POST, instance=expense)]). *)
Definition form_apply (form : ExpenseFormData) (expense : Expense) : Expense :=
  set_status (form_status form)
    (set_expense_date (form_expense_date form)
       (set_tax_rate (form_tax_rate form)
          (set_amount (form_amount form)
             (set_supplier (form_supplier form) expense)))).

(** The answer of a form view: not found, the redirect of a saved form to
    the page of the expense, the form rendered (a GET, or a POST that is
    not valid), or the error page of an exception. *)
Inductive PageResponse : Type :=
  | PageNotFound
  | HxRedirect (pk : option ident)
  | RenderForm
  | ServerError.

(** [expense_create(request)]; [post] is the cleaned data of a valid POST,
    [None] for a GET or a form that is not valid. *)
Definition expense_create (now : datetime) (db : DB) (hub : ident)
  (post : option ExpenseFormData) : PageResponse * DB :=
  let '(settings, db0) := get_settings db hub in
  match post with
  | Some form =>
      let expense := form_new_instance hub form in
      let expense :=
        if negb (Dec.truthy (tax_rate expense))
        then set_tax_rate (default_tax_rate settings) expense
        else expense in
      match Expense_save now db0 None expense with
      | Some (expense, db') => (HxRedirect (pk expense), db')
      | None => (ServerError, db0)
      end
  | None => (RenderForm, db0)
  end.

(** [expense_edit(request, pk)]. *)
Definition expense_edit (now : datetime) (db : DB) (hub : ident) (pk0 : ident)
  (post : option ExpenseFormData) : PageResponse * DB :=
  match get_expense db pk0 hub with
  | None => (PageNotFound, db)
  | Some expense =>
      match post with
      | Some form =>
          match Expense_save now db None (form_apply form expense) with
          | Some (expense, db') => (HxRedirect (pk expense), db')
          | None => (ServerError, db)
          end
      | None => (RenderForm, db)
      end
  end.

(** ** Recurring expenses *)

(** [dateutil.relativedelta] with the arguments that the source gives:
    years, months, and days ([weeks=1] is seven days). *)
Record relativedelta : Type := mkRelativedelta {
  rd_years : Z;
  rd_months : Z;
  rd_days : Z
}.

(** [calendar.isleap] and the length of a month ([calendar.monthrange]). *)
Definition isleap (y : Z) : bool :=
  (y mod 4 =? 0) && (negb (y mod 100 =? 0) || (y mod 400 =? 0)).

Definition days_in_month (y m : Z) : Z :=
  if m =? 2 then (if isleap y then 29 else 28)
  else if (m =? 4) || (m =? 6) || (m =? 9) || (m =? 11) then 30
  else 31.

(** The day after [d]. *)
Definition next_day (d : date) : date :=
  if day d <? days_in_month (year d) (month d) then
    mkDate (year d) (month d) (day d + 1)
  else if month d <? 12 then mkDate (year d) (month d + 1) 1
  else mkDate (year d + 1) 1 1.

(** The date [n] days after [d], on the calendar without an end. *)
Fixpoint add_days (n : nat) (d : date) : date :=
  match n with
  | O => d
  | S n' => add_days n' (next_day d)
  end.

(** [datetime.MINYEAR] and [datetime.MAXYEAR], the years that a
    [datetime.date] can hold. *)
Definition MINYEAR : Z := 1.
Definition MAXYEAR : Z := 9999.

(** The year, month and day that [relativedelta.__add__] hands to
    [dt.replace]: years and months first, the day cut to the length of the
    month reached. *)
Definition replaced (dt : date) (rd : relativedelta) : date :=
  let y := year dt + rd_years rd in
  let m := month dt in
  let '(y, m) :=
    if rd_months rd =? 0 then (y, m)
    else
      let m := m + rd_months rd in
      if 12 <? m then (y + 1, m - 12)
      else if m <? 1 then (y - 1, m + 12)
      else (y, m) in
  let d := Z.min (days_in_month y m) (day dt) in
  mkDate y m d.

(** The exceptions of [datetime.date] for a result outside its range. *)
Inductive DateError : Type := ValueError | OverflowError.

(** [dt + rd] of dateutil: [dt.replace(year=..., month=..., day=...)],
    which raises [ValueError] for a year that is not within [MINYEAR] and
    [MAXYEAR], then the days as a [timedelta], which raises
    [OverflowError] for a sum past the last day of [MAXYEAR]. *)
Definition add_relativedelta (dt : date) (rd : relativedelta) : DateError + date :=
  let repl := replaced dt rd in
  if (year repl <? MINYEAR) || (MAXYEAR <? year repl) then inl ValueError
  else
    let ret := add_days (Z.to_nat (rd_days rd)) repl in
    if MAXYEAR <? year ret then inl OverflowError else inr ret.

(** The dictionary [freq_map] of [get_next_date_after]. *)
Definition freq_map : gmap string relativedelta :=
  <["weekly" := mkRelativedelta 0 0 7]>
    (<["monthly" := mkRelativedelta 0 1 0]>
       (<["quarterly" := mkRelativedelta 0 3 0]>
          (<["yearly" := mkRelativedelta 1 0 0]> ∅))).

(** [RecurringExpense.get_next_date_after(self, current_date)];
    [frequency] is [self.frequency]. *)
Definition get_next_date_after (frequency : string) (current_date : date)
  : DateError + date :=
  let delta := default (mkRelativedelta 0 1 0) (freq_map !! frequency) in
  add_relativedelta current_date delta.

(** A date of the calendar, from year 1 on. *)
Definition calendar_date (d : date) : Prop :=
  1 <= year d /\ 1 <= month d <= 12 /\ 1 <= day d <= days_in_month (year d) (month d).

(** A value of [datetime.date]: a date of the calendar up to the year
    [MAXYEAR]. *)
Definition valid_date (d : date) : Prop := calendar_date d /\ year d <= MAXYEAR.

(** [date.max], the last day of [MAXYEAR]. *)
Definition last_date : date := mkDate MAXYEAR 12 31.

(** [date.toordinal]: the days from 0001-01-01, that day being 1. *)
Definition days_before_year (y : Z) : Z :=
  (y - 1) * 365 + (y - 1) / 4 - (y - 1) / 100 + (y - 1) / 400.

Definition days_before_month (y m : Z) : Z :=
  let leap := if isleap y then 1 else 0 in
  if m <=? 1 then 0
  else if m =? 2 then 31
  else if m =? 3 then 59 + leap
  else if m =? 4 then 90 + leap
  else if m =? 5 then 120 + leap
  else if m =? 6 then 151 + leap
  else if m =? 7 then 181 + leap
  else if m =? 8 then 212 + leap
  else if m =? 9 then 243 + leap
  else if m =? 10 then 273 + leap
  else if m =? 11 then 304 + leap
  else 334 + leap.

Definition toordinal (d : date) : Z :=
  days_before_year (year d) + days_before_month (year d) (month d) + day d.

(** The months counted from year 0. *)
Definition month_index (d : date) : Z := 12 * year d + (month d - 1).

(** The months that a frequency moves by; a frequency outside the
    choices counts as monthly. *)
Definition months_of (frequency : string) : Z :=
  if String.eqb frequency "quarterly" then 3
  else if String.eqb frequency "yearly" then 12
  else 1.

(** A string without the separator of expense numbers. *)
Fixpoint dash_free (s : string) : bool :=
  match s with
  | EmptyString => true
  | String c s' => negb (Ascii.eqb c "-") && dash_free s'
  end.

(** The numbers of a hub under a key, whatever rows carry them. *)
Definition numbers_under (db : DB) (hub : ident) (key : string) : list string :=
  expense_number <$> numbered_under db hub key.

(** A hub whose day has one number, 9998. *)
Definition late_db : DB :=
  mkDB ∅ ∅ (<[1%positive := numbered_row "EXP-20260105-9998"]> ∅).

(** A valid form for 100.00 with the tax rate left at zero. *)
Definition zero_rate_form : ExpenseFormData :=
  mkExpenseFormData (Some 7%positive) d_100_00 Dec.zero2 jan5 draft.

(** A valid form that sets the status to paid. *)
Definition paid_form : ExpenseFormData :=
  mkExpenseFormData (Some 7%positive) d_100_00 Dec.zero2 jan5 paid.

(** ** Settings *)

(** The body of a POST to [settings_save], parsed: a JSON object whose
    values have the types of the fields they go to ([None] for a key that
    the object does not have).  A number already stands as the [Decimal]
    that [Decimal(str(...))] makes of it. *)
Record SettingsBody : Type := mkSettingsBody {
  body_require_approval : option bool;
  body_approval_threshold : option Dec.Decimal;
  body_default_tax_rate : option Dec.Decimal;
  body_auto_numbering : option bool;
  body_number_prefix : option string
}.

Definition settings_to_db (s : ExpenseSettings) : ExpenseSettingsOf Z :=
  mkExpenseSettings (require_approval s) (to_column (approval_threshold s))
    (to_column (default_tax_rate s)) (auto_numbering s) (number_prefix s).

(** [settings_save(request)]; [body] is [None] when [json.loads] rejects
    the request body, which the view answers before it reads the
    settings. *)
Definition settings_save (db : DB) (hub : ident) (body : option SettingsBody)
  : JsonResponse * DB :=
  match body with
  | None => (JsonError400, db)
  | Some data =>
      let '(_, db1) := get_settings db hub in
      let settings :=
        mkExpenseSettings
          (default false (body_require_approval data))
          (default (Dec.mkDecimal 0 0) (body_approval_threshold data))
          (default (Dec.mkDecimal 21 0) (body_default_tax_rate data))
          (default true (body_auto_numbering data))
          (default "EXP" (body_number_prefix data)) in
      (JsonSuccess,
       with_settings (<[hub := settings_to_db settings]> (settings_tbl db1)) db1)
  end.

(** A body that only names a prefix. *)
Definition prefix_only_body : SettingsBody :=
  mkSettingsBody None None None None (Some "GASTO").




(** *** The supplier's totals, as the specification words them *)

(** An expense that counts for the totals of supplier [sid]: linked to
    that supplier, not deleted, with status paid. *)
Definition counts_for (sid : ident) (r : ExpenseRow) : bool :=
  bool_decide (supplier r = Some sid) && negb (is_deleted r)
  && bool_decide (status r = paid).

(** Modelled from the spec: the sum of [total_amount] over the supplier's
    non-deleted expenses with status paid, every row of the table
    contributing its total when it counts and nothing when it does not. *)
Definition sum_of_paid (tbl : gmap ident ExpenseRow) (sid : ident) : Z :=
  foldr Z.add 0
    ((fun kr : ident * ExpenseRow =>
        if counts_for sid (snd kr) then total_amount (snd kr) else 0)
       <$> map_to_list tbl).

(** A hub that requires approval above 500.00, with two suppliers.
    Supplier 7 has a draft expense of 121.00 dated 5 January, a paid
    expense of 30.00 that is deleted and an approved one of 10.00;
    supplier 8 has a paid expense of 50.00. *)
Definition ledger_db : DB :=
  mkDB (<[1%positive := mkExpenseSettings true 50000 2100 true "EXP"]> ∅)
       (<[7%positive := mkSupplier 0 None]>
          (<[8%positive := mkSupplier 5000 (Some (mkDate 2026 1 9))]> ∅))
       (<[3%positive :=
            mkExpense (Some 3%positive) 1%positive false "EXP-20260105-0001"
              (Some 7%positive) 10000 2100 2100 12100 jan5 draft None None None]>
          (<[4%positive :=
               mkExpense (Some 4%positive) 1%positive false "EXP-20260109-0001"
                 (Some 8%positive) 5000 0 0 5000 (mkDate 2026 1 9) paid
                 None None (Some noon)]>
             (<[5%positive :=
                  mkExpense (Some 5%positive) 1%positive true "EXP-20260120-0001"
                    (Some 7%positive) 3000 0 0 3000 (mkDate 2026 1 20) paid
                    None None (Some noon)]>
                (<[6%positive :=
                     mkExpense (Some 6%positive) 1%positive false "EXP-20260125-0001"
                       (Some 7%positive) 1000 0 0 1000 (mkDate 2026 1 25) approved
                       (Some 9%positive) (Some noon) None]> ∅)))).

(** Nine o'clock of the same day. *)
Definition jan5_morning : datetime := mkDatetime jan5 32400.

(** A hub whose default tax rate is 0.00. *)
Definition untaxed_db : DB :=
  mkDB (<[1%positive := mkExpenseSettings false 0 0 true "EXP"]> ∅)
       (<[7%positive := mkSupplier 0 None]> ∅) ∅.

(** ** The lookup by prefix on either kind of backend

    [expense_number__startswith=full_prefix] reaches the database as a
    [LIKE] with the prefix escaped.  PostgreSQL and MySQL compare in exact
    case, which is what [numbered_under] and the definitions built on it
    model.  SQLite's [LIKE] ignores the case of the ASCII letters; its
    [ORDER BY] still compares byte by byte.  The definitions of this
    section take the backend as an argument, [sqlite = true] for the
    match that ignores ASCII case, and are otherwise the ones above. *)

(** The lower-case form of an ASCII capital letter; any other character
    stands as it is. *)
Definition ascii_lower (c : ascii) : ascii :=
  if (65 <=? Py.code c) && (Py.code c <=? 90)
  then ascii_of_N (Z.to_N (Py.code c + 32)) else c.

Fixpoint lower (s : string) : string :=
  match s with
  | EmptyString => EmptyString
  | String c s' => String (ascii_lower c) (lower s')
  end.

(** [s LIKE 'prefix%'] as the backend evaluates it. *)
Definition startswith (sqlite : bool) (s prefix : string) : bool :=
  if sqlite then String.prefix (lower prefix) (lower s) else String.prefix prefix s.

Definition numbered_under_on (sqlite : bool) (db : DB) (hub : ident)
  (full_prefix : string) : list ExpenseRow :=
  filter (fun r => hub_id r = hub /\
                   startswith sqlite (expense_number r) full_prefix = true)
    (snd <$> map_to_list (expenses_tbl db)).

(** [Expense.generate_expense_number(hub_id, prefix)] on the backend. *)
Definition generate_expense_number_on (sqlite : bool) (now : datetime) (db : DB)
  (hub : ident) (prefix : string) : string :=
  let date_part := strftime_Ymd now in
  let full_prefix := prefix +:+ "-" +:+ date_part in
  let last_expense :=
    first_by_number_desc (numbered_under_on sqlite db hub full_prefix) in
  let new_num :=
    match last_expense with
    | Some last =>
        match Py.last_item (Py.split "-" (expense_number last)) ≫= Py.int with
        | Some last_num => last_num + 1
        | None => 1
        end
    | None => 1
    end in
  full_prefix +:+ "-" +:+ Py.format_0d 4 new_num.

Definition assign_number_on (sqlite : bool) (now : datetime) (db : DB) (e : Expense)
  : Expense * DB :=
  if String.eqb (expense_number e) "" then
    let '(settings, db1) := get_settings db (hub_id e) in
    let prefix := numbering_prefix settings in
    (set_expense_number
       (generate_expense_number_on sqlite now db1 (hub_id e) prefix) e, db1)
  else (e, db).

(** [Expense.save(self, *args, **kwargs)] on the backend. *)
Definition Expense_save_on (sqlite : bool) (now : datetime) (db : DB)
  (update_fields : option (list field)) (e : Expense) : option (Expense * DB) :=
  let e1 := calculate_amounts e in
  let '(e2, db1) := assign_number_on sqlite now db e1 in
  Model_save db1 update_fields e2.

Definition create_on (sqlite : bool) (now : datetime) (db : DB) (hub : ident)
  (sup : option ident) (amt rate : Dec.Decimal) (d : date) : option (Expense * DB) :=
  Expense_save_on sqlite now db None (new_expense hub sup amt rate d).

(** *** The match and the next sequence, as the specification words them *)

(** Two characters that a match ignoring ASCII case takes for the same:
    equal, or the capital and the small form of one ASCII letter. *)
Definition same_letter (a b : ascii) : Prop :=
  a = b \/
  (65 <= Py.code a <= 90 /\ Py.code b = Py.code a + 32) \/
  (65 <= Py.code b <= 90 /\ Py.code a = Py.code b + 32).

Fixpoint same_up_to_case (s t : string) : Prop :=
  match s, t with
  | EmptyString, EmptyString => True
  | String a s', String b t' => same_letter a b /\ same_up_to_case s' t'
  | _, _ => False
  end.

(** The number starts with the key: with the key itself on a backend that
    compares in exact case, with the key up to ASCII case on SQLite. *)
Definition matches_key (sqlite : bool) (key number : string) : Prop :=
  exists head tail,
    number = head +:+ tail /\
    if sqlite then same_up_to_case key head else head = key.

(** Modelled from the spec: the sequence is one plus the highest trailing
    sequence among the numbers of the hub that start with the key, and 1
    when there is none. *)
Definition next_after_highest (sqlite : bool) (db : DB) (hub : ident) (key : string)
  (n : Z) : Prop :=
  (n = 1 /\
   forall k r, expenses_tbl db !! k = Some r -> hub_id r = hub ->
               ~ matches_key sqlite key (expense_number r))
  \/
  (exists k last,
     expenses_tbl db !! k = Some last /\ hub_id last = hub /\
     matches_key sqlite key (expense_number last) /\
     n = suffix_of (expense_number last) + 1 /\
     forall k' r, expenses_tbl db !! k' = Some r -> hub_id r = hub ->
                  matches_key sqlite key (expense_number r) ->
                  suffix_of (expense_number r) <= suffix_of (expense_number last)).

(** A hub that holds a number under the key in small letters beside one
    in capitals. *)
Definition mixed_case_db : DB :=
  mkDB ∅ ∅
       (<[1%positive := numbered_row "exp-20260105-0002"]>
          (<[2%positive := numbered_row "EXP-20260105-0003"]> ∅)).


(** * Properties *)

(** ** Rounding *)

Lemma pow10_pos (k : Z) : 0 <= k -> 0 < 10 ^ k.
Proof. intros Hk. apply Z.pow_pos_nonneg; lia. Qed.



Lemma quantize_expo (d q : Dec.Decimal) : Dec.expo (Dec.quantize d q) = Dec.expo q.
Proof. unfold Dec.quantize. destruct (Dec.expo q <=? Dec.expo d); reflexivity. Qed.


(** ** Columns *)

Lemma to_column_of_column (c : Z) : to_column (of_column c) = c.
Proof.
  unfold to_column, of_column, Dec.quantize, Dec.scaled; simpl. lia.
Qed.

Lemma of_column_to_column (d : Dec.Decimal) :
  two_places d -> of_column (to_column d) = d.
Proof.
  destruct d as [c e]. unfold two_places; simpl. intros ->.
  unfold of_column, to_column, Dec.quantize, Dec.scaled; simpl.
  f_equal. lia.
Qed.

Lemma round2_two_places (x : Dec.Decimal) : two_places (round2 x).
Proof. unfold two_places, round2. apply quantize_expo. Qed.

Lemma gtb_of_column (a b : Z) : Dec.gtb (of_column a) (of_column b) = (a >? b).
Proof.
  unfold Dec.gtb, Dec.compare, of_column, Dec.scaled; simpl.
  rewrite !Z.mul_1_r. unfold Z.gtb. reflexivity.
Qed.

Lemma eqb_of_column_zero (a : Z) : Dec.eqb (of_column a) Dec.zero2 = (a =? 0).
Proof.
  unfold Dec.eqb, Dec.compare, of_column, Dec.zero2, Dec.scaled; simpl.
  rewrite Z.mul_1_r. unfold Z.eqb. destruct a; reflexivity.
Qed.

Lemma truthy_of_column (a : Z) : Dec.truthy (of_column a) = negb (a =? 0).
Proof. reflexivity. Qed.

(** ** [Expense.save] *)

Lemma get_settings_fst (db : DB) (hub : ident) :
  fst (get_settings db hub) = settings_from_db (settings_row db hub).
Proof.
  unfold get_settings, settings_row.
  destruct (settings_tbl db !! hub); reflexivity.
Qed.

Lemma get_settings_tables (db : DB) (hub : ident) :
  expenses_tbl (snd (get_settings db hub)) = expenses_tbl db /\
  suppliers_tbl (snd (get_settings db hub)) = suppliers_tbl db.
Proof.
  unfold get_settings. destruct (settings_tbl db !! hub); split; reflexivity.
Qed.

Lemma get_settings_again (db : DB) (hub : ident) :
  settings_row (snd (get_settings db hub)) hub = settings_row db hub.
Proof.
  unfold get_settings, settings_row.
  destruct (settings_tbl db !! hub) eqn:Hl; simpl.
  - rewrite Hl. reflexivity.
  - rewrite lookup_insert_eq. reflexivity.
Qed.

(** What [calculate_amounts] leaves alone. *)
Lemma calculate_amounts_frame (e : Expense) :
  let e' := calculate_amounts e in
  pk e' = pk e /\ hub_id e' = hub_id e /\ expense_number e' = expense_number e /\
  amount e' = amount e /\ tax_rate e' = tax_rate e /\ status e' = status e /\
  supplier e' = supplier e /\ approved_by e' = approved_by e /\
  approved_at e' = approved_at e /\ paid_at e' = paid_at e.
Proof.
  unfold calculate_amounts. destruct (Dec.truthy (amount e)); simpl; tauto.
Qed.


Lemma calculate_amounts_zero (e : Expense) :
  Dec.truthy (amount e) = false -> calculate_amounts e = e.
Proof. intros Ht. unfold calculate_amounts. rewrite Ht. reflexivity. Qed.

(** What [assign_number] leaves alone. *)
Lemma assign_number_frame (now : datetime) (db : DB) (e : Expense) :
  let e' := fst (assign_number now db e) in
  let db' := snd (assign_number now db e) in
  pk e' = pk e /\ hub_id e' = hub_id e /\
  amount e' = amount e /\ tax_rate e' = tax_rate e /\
  tax_amount e' = tax_amount e /\ total_amount e' = total_amount e /\
  status e' = status e /\ supplier e' = supplier e /\
  approved_by e' = approved_by e /\ approved_at e' = approved_at e /\
  paid_at e' = paid_at e /\
  expenses_tbl db' = expenses_tbl db /\ suppliers_tbl db' = suppliers_tbl db /\
  (forall h, settings_row db' h = settings_row db h).
Proof.
  unfold assign_number.
  destruct (String.eqb (expense_number e) "").
  - pose proof (get_settings_tables db (hub_id e)) as [Hx Hs].
    pose proof (get_settings_again db (hub_id e)) as Ha.
    destruct (get_settings db (hub_id e)) as [s db1] eqn:Hg; simpl in *.
    repeat split; try assumption.
    intros h. destruct (decide (h = hub_id e)) as [-> | Hne]; [exact Ha |].
    unfold get_settings in Hg. unfold settings_row.
    destruct (settings_tbl db !! hub_id e); inversion Hg; subst; simpl; [done |].
    rewrite lookup_insert_ne by congruence. reflexivity.
  - simpl. repeat split; reflexivity.
Qed.

Lemma assign_number_kept (now : datetime) (db : DB) (e : Expense) :
  expense_number e <> "" -> assign_number now db e = (e, db).
Proof.
  intros Hne. unfold assign_number.
  destruct (String.eqb_spec (expense_number e) ""); [contradiction | reflexivity].
Qed.

Lemma assign_number_fresh (now : datetime) (db : DB) (e : Expense) :
  expense_number e = "" ->
  expense_number (fst (assign_number now db e)) =
  generate_expense_number now (snd (get_settings db (hub_id e))) (hub_id e)
    (numbering_prefix (fst (get_settings db (hub_id e)))).
Proof.
  intros He. unfold assign_number. rewrite He. simpl.
  destruct (get_settings db (hub_id e)); reflexivity.
Qed.

Lemma append_nonempty (s t : string) : t <> "" -> s +:+ t <> "".
Proof. destruct s; simpl; [tauto | discriminate]. Qed.

Lemma generate_expense_number_nonempty now db hub prefix :
  generate_expense_number now db hub prefix <> "".
Proof.
  unfold generate_expense_number.
  apply append_nonempty. simpl. discriminate.
Qed.

Lemma assign_number_set (now : datetime) (db : DB) (e : Expense) :
  expense_number (fst (assign_number now db e)) <> "".
Proof.
  destruct (String.eqb_spec (expense_number e) "") as [He | Hne].
  - rewrite assign_number_fresh by exact He.
    apply generate_expense_number_nonempty.
  - rewrite assign_number_kept by exact Hne. exact Hne.
Qed.

(** A save without [update_fields] always goes through; the object it
    returns is the numbered, recalculated one under its key, and the row
    of that key holds its columns. *)
Lemma Expense_save_full (now : datetime) (db : DB) (e : Expense) :
  exists (id : ident) (db' : DB),
    let e2 := fst (assign_number now db (calculate_amounts e)) in
    Expense_save now db None e = Some (set_pk (Some id) e2, db') /\
    (forall k, pk e = Some k -> id = k) /\
    expenses_tbl db' !! id = Some (to_db (set_pk (Some id) e2)) /\
    (forall k, k <> id -> expenses_tbl db' !! k = expenses_tbl db !! k).
Proof.
  unfold Expense_save.
  pose proof (assign_number_frame now db (calculate_amounts e)) as Hf.
  pose proof (calculate_amounts_frame e) as Hc.
  destruct (assign_number now db (calculate_amounts e)) as [e2 db1] eqn:Ha.
  simpl in Hf, Hc. destruct Hf as (Hpk & _ & _ & _ & _ & _ & _ & _ & _ & _ & _ & Hx & _).
  destruct Hc as (Hpk' & _).
  unfold Model_save.
  eexists _, _. simpl. split; [reflexivity |]. split; [| split].
  - intros k Hk. rewrite Hpk, Hpk', Hk. reflexivity.
  - simpl. rewrite lookup_insert_eq. reflexivity.
  - intros k Hk. simpl. rewrite lookup_insert_ne by congruence.
    rewrite Hx. reflexivity.
Qed.

(** An object whose amounts all have two decimal places is read back from
    its row as it was written. *)
Lemma from_db_to_db (e : Expense) :
  two_places (amount e) -> two_places (tax_rate e) ->
  two_places (tax_amount e) -> two_places (total_amount e) ->
  from_db (to_db e) = e.
Proof.
  intros Ha Hr Ht Hs. destruct e; simpl in *.
  unfold from_db, to_db, map_amounts; simpl.
  rewrite !of_column_to_column by assumption. reflexivity.
Qed.

Lemma save_once (now : datetime) (db : DB) (e : Expense) :
  exists e' db',
    Expense_save now db None e = Some (e', db') /\
    persisted db' e' /\
    amount e' = amount e /\ tax_rate e' = tax_rate e /\
    tax_amount e' = tax_amount (calculate_amounts e) /\
    total_amount e' = total_amount (calculate_amounts e) /\
    expense_number e' = expense_number (fst (assign_number now db (calculate_amounts e))).
Proof.
  destruct (Expense_save_full now db e) as (id & db' & Hs & _ & Hrow & _).
  pose proof (assign_number_frame now db (calculate_amounts e)) as Hf.
  pose proof (calculate_amounts_frame e) as Hc.
  simpl in Hs, Hrow, Hf, Hc.
  eexists _, _. split; [exact Hs |].
  split; [exists id; split; [reflexivity | exact Hrow] |].
  simpl. destruct Hf as (_ & _ & Ha & Hr & Ht & Hto & _).
  destruct Hc as (_ & _ & _ & Ha' & Hr' & _).
  rewrite Ha, Hr, Ht, Hto, Ha', Hr'. repeat split; reflexivity.
Qed.






(** C9.  When the amount is zero a save leaves [tax_amount] and
    [total_amount] as they were: in the object, and in the row that the
    save writes, whose columns hold those very values.  In particular an
    object read from a row and saved with its amount set to 0.00 keeps the
    row's old tax and total. *)
Theorem save_zero_amount_keeps_totals (now : datetime) (db : DB) (e : Expense) :
  Dec.truthy (amount e) = false ->
  exists e' db' id r,
    Expense_save now db None e = Some (e', db') /\
    tax_amount e' = tax_amount e /\ total_amount e' = total_amount e /\
    pk e' = Some id /\ expenses_tbl db' !! id = Some r /\
    tax_amount r = to_column (tax_amount e) /\
    total_amount r = to_column (total_amount e) /\
    (forall r0 : ExpenseRow,
       tax_amount e = of_column (tax_amount r0) ->
       total_amount e = of_column (total_amount r0) ->
       tax_amount r = tax_amount r0 /\ total_amount r = total_amount r0).
Proof.
  intros Hz.
  destruct (save_once now db e) as (e' & db' & Hs & (id & Hpk & Hrow) & _ & _ & Hta & Hto & _).
  rewrite (calculate_amounts_zero e Hz) in Hta, Hto.
  exists e', db', id, (to_db e').
  split; [exact Hs |]. split; [exact Hta |]. split; [exact Hto |].
  split; [exact Hpk |]. split; [exact Hrow |].
  split; [simpl; rewrite Hta; reflexivity |].
  split; [simpl; rewrite Hto; reflexivity |].
  intros r0 Hr0t Hr0s. simpl. rewrite Hta, Hto, Hr0t, Hr0s.
  split; apply to_column_of_column.
Qed.

Lemma save_zero_amount_keeps_totals_witness :
  exists e' db' id r,
    Expense_save noon empty_db None
      (set_total_amount (Dec.mkDecimal 12100 (-2))
         (set_tax_amount d_21_00 (new_expense 1 None Dec.zero2 d_21_00 jan5)))
    = Some (e', db') /\
    tax_amount e' = d_21_00 /\ total_amount e' = Dec.mkDecimal 12100 (-2) /\
    pk e' = Some id /\ expenses_tbl db' !! id = Some r /\
    tax_amount r = 2100 /\ total_amount r = 12100.
Proof.
  destruct (save_zero_amount_keeps_totals noon empty_db
              (set_total_amount (Dec.mkDecimal 12100 (-2))
                 (set_tax_amount d_21_00 (new_expense 1 None Dec.zero2 d_21_00 jan5)))
              eq_refl)
    as (e' & db' & id & r & Hs & Hta & Hto & Hpk & Hrow & Hrt & Hrs & _).
  exists e', db', id, r. repeat split; assumption.
Defined.






(** *** Values of at most two decimal places *)










(** With an amount of zero a save keeps the stored tax and total: an
    expense created with amount 100.00 at 21.00 percent and then saved
    with its amount edited to 0.00 is persisted with tax 21.00 and total
    121.00, which are not the rounded values for an amount of zero. *)
Lemma save_zero_amount_breaks_invariant :
  exists e1 db1 e2 db2 r,
    create noon empty_db 1 None d_100_00 d_21_00 jan5 = Some (e1, db1) /\
    Expense_save noon db1 None (set_amount Dec.zero2 e1) = Some (e2, db2) /\
    pk e2 = Some 1%positive /\ expenses_tbl db2 !! 1%positive = Some r /\
    amount r = 0 /\ tax_amount r = 2100 /\ total_amount r = 12100 /\
    ~ money_invariant (from_db r).
Proof.
  destruct (create noon empty_db 1 None d_100_00 d_21_00 jan5)
    as [[e1 db1] |] eqn:H1; [| vm_compute in H1; discriminate].
  destruct (Expense_save noon db1 None (set_amount Dec.zero2 e1))
    as [[e2 db2] |] eqn:H2.
  2: { vm_compute in H1. injection H1 as <- <-. vm_compute in H2. discriminate. }
  exists e1, db1, e2, db2.
  vm_compute in H1. injection H1 as <- <-.
  vm_compute in H2. injection H2 as <- <-.
  eexists. split; [reflexivity |]. split; [reflexivity |]. split; [reflexivity |].
  split; [vm_compute; reflexivity |].
  split; [reflexivity |]. split; [reflexivity |]. split; [reflexivity |].
  intros [Hta _]. vm_compute in Hta. discriminate.
Qed.


Lemma write_field_number (o r : ExpenseRow) (f : field) :
  expense_number (write_field o f r) = expense_number r.
Proof. destruct f; reflexivity. Qed.

Lemma write_fields_number (o r : ExpenseRow) (fields : list field) :
  expense_number (foldr (write_field o) r fields) = expense_number r.
Proof.
  induction fields as [| f fields IH]; simpl; [reflexivity |].
  rewrite write_field_number. exact IH.
Qed.

(** The number of the object that any save returns, and of the row that
    the save writes: the row takes the object's number on a full save and
    keeps its own when [update_fields] is given. *)
Lemma Expense_save_number now db update_fields e e' db' :
  Expense_save now db update_fields e = Some (e', db') ->
  expense_number e' = expense_number (fst (assign_number now db (calculate_amounts e))) /\
  exists id r,
    pk e' = Some id /\ expenses_tbl db' !! id = Some r /\
    match update_fields with
    | None => expense_number r = expense_number e'
    | Some _ => exists r0, expenses_tbl db !! id = Some r0 /\
                           expense_number r = expense_number r0
    end.
Proof.
  unfold Expense_save.
  pose proof (assign_number_frame now db (calculate_amounts e)) as Hf.
  destruct (assign_number now db (calculate_amounts e)) as [e2 db1].
  simpl in Hf. destruct Hf as (_ & _ & _ & _ & _ & _ & _ & _ & _ & _ & _ & Hx & _).
  unfold Model_save. destruct update_fields as [fields |].
  - destruct (pk e2) as [id |] eqn:Hpk; [| discriminate].
    destruct (expenses_tbl db1 !! id) as [r0 |] eqn:Hr0; [| discriminate].
    intros [= <- <-]. split; [reflexivity |].
    eexists id, _. split; [exact Hpk |]. simpl. rewrite lookup_insert_eq.
    split; [reflexivity |]. exists r0. rewrite <- Hx. split; [exact Hr0 |].
    apply write_fields_number.
  - intros [= <- <-]. split; [reflexivity |].
    eexists _, _. split; [reflexivity |]. simpl. rewrite lookup_insert_eq.
    split; reflexivity.
Qed.

(** C8.  A save without [update_fields] always goes through.  Whatever
    save goes through assigns a number exactly when the object has none
    (the empty string), and then it is the generated one; an object that
    has a number keeps it through the save, and so does its row.  After a
    save the number is set, so no later save changes it, whatever edit of
    the other fields comes in between and whichever columns the save
    writes. *)
Theorem save_assigns_number_only_when_unset now db update_fields e :
  (update_fields = None -> is_Some (Expense_save now db update_fields e)) /\
  forall e' db',
    Expense_save now db update_fields e = Some (e', db') ->
    (expense_number e <> "" -> expense_number e' = expense_number e) /\
    (expense_number e = "" ->
     expense_number e' =
     generate_expense_number now (snd (get_settings db (hub_id e))) (hub_id e)
       (numbering_prefix (fst (get_settings db (hub_id e))))) /\
    expense_number e' <> "" /\
    (exists id r,
       pk e' = Some id /\ expenses_tbl db' !! id = Some r /\
       match update_fields with
       | None => expense_number r = expense_number e'
       | Some _ => exists r0, expenses_tbl db !! id = Some r0 /\
                              expense_number r = expense_number r0
       end) /\
    (forall (edit : Expense -> Expense) now2 db2 update_fields2 e'' db'',
       expense_number (edit e') = expense_number e' ->
       Expense_save now2 db2 update_fields2 (edit e') = Some (e'', db'') ->
       expense_number e'' = expense_number e').
Proof.
  split.
  { intros ->. destruct (save_once now db e) as (e' & db' & Hs & _).
    rewrite Hs. eauto. }
  intros e' db' Hs. apply Expense_save_number in Hs as [Hn Hrow].
  pose proof (calculate_amounts_frame e) as Hc. simpl in Hc.
  destruct Hc as (_ & Hh & Hnum & _).
  assert (Hset : expense_number e' <> "").
  { rewrite Hn. apply assign_number_set. }
  split; [| split; [| split; [exact Hset | split; [exact Hrow |]]]].
  - intros Hne. rewrite Hn, assign_number_kept by congruence. exact Hnum.
  - intros He. rewrite Hn, assign_number_fresh by congruence.
    rewrite Hh. reflexivity.
  - intros edit now2 db2 uf2 e'' db'' Hedit Hs2.
    apply Expense_save_number in Hs2 as [Hn2 _].
    pose proof (calculate_amounts_frame (edit e')) as Hc2. simpl in Hc2.
    destruct Hc2 as (_ & _ & Hnum2 & _).
    rewrite Hn2, assign_number_kept by congruence. simpl. congruence.
Qed.

Lemma save_assigns_number_only_when_unset_witness :
  exists e' db',
    Expense_save noon empty_db None (new_expense 1 None d_100_00 d_21_00 jan5)
    = Some (e', db') /\
    expense_number e' = "EXP-20260105-0001" /\
    (forall now2 db2 update_fields2 e'' db'',
       Expense_save now2 db2 update_fields2 (set_amount d_0_50 e') = Some (e'', db'') ->
       expense_number e'' = "EXP-20260105-0001").
Proof.
  destruct (save_assigns_number_only_when_unset noon empty_db None
              (new_expense 1 None d_100_00 d_21_00 jan5)) as [Htotal Hprops].
  destruct (Htotal eq_refl) as [[e' db'] Hs].
  exists e', db'. split; [exact Hs |].
  destruct (Hprops e' db' Hs) as (_ & Hgen & _ & _ & Hlater).
  assert (Hnum : expense_number e' = "EXP-20260105-0001").
  { rewrite Hgen by reflexivity. vm_compute. reflexivity. }
  split; [exact Hnum |].
  intros now2 db2 uf2 e'' db'' Hs2. rewrite <- Hnum.
  apply (Hlater (set_amount d_0_50) now2 db2 uf2 e'' db''); [reflexivity | exact Hs2].
Defined.

Lemma prefix_append (s t : string) : String.prefix s (s +:+ t) = true.
Proof.
  induction s as [| c s IH]; simpl.
  - destruct t; reflexivity.
  - destruct (ascii_dec c c) as [_ | Hne]; [exact IH | contradiction].
Qed.

Lemma append_assoc (s t u : string) : (s +:+ t) +:+ u = s +:+ (t +:+ u).
Proof.
  induction s as [| c s IH]; [reflexivity |].
  change (String c ((s +:+ t) +:+ u) = String c (s +:+ (t +:+ u))).
  rewrite IH. reflexivity.
Qed.

(** C10.  An expense saved without a number gets one also when the
    tenant's [auto_numbering] is off: the number is generated under the
    prefix EXP, whatever [number_prefix] is configured, and reads
    EXP-YYYYMMDD-sequence. *)
Theorem save_numbers_without_auto_numbering (now : datetime) (db : DB) (e : Expense) :
  expense_number e = "" ->
  auto_numbering (settings_row db (hub_id e)) = false ->
  exists e' db',
    Expense_save now db None e = Some (e', db') /\
    expense_number e' <> "" /\
    expense_number e' =
    generate_expense_number now (snd (get_settings db (hub_id e))) (hub_id e) "EXP" /\
    String.prefix ("EXP-" +:+ strftime_Ymd now +:+ "-") (expense_number e') = true.
Proof.
  intros He Hauto.
  destruct (save_once now db e) as (e' & db' & Hs & _ & _ & _ & _ & _ & Hn).
  pose proof (calculate_amounts_frame e) as Hc. simpl in Hc.
  destruct Hc as (_ & Hh & Hnum & _).
  rewrite assign_number_fresh in Hn by congruence.
  rewrite Hh, get_settings_fst in Hn.
  assert (Hp : numbering_prefix (settings_from_db (settings_row db (hub_id e))) = "EXP").
  { unfold numbering_prefix, settings_from_db. simpl. rewrite Hauto. reflexivity. }
  rewrite Hp in Hn.
  exists e', db'. split; [exact Hs |].
  split; [rewrite Hn; apply generate_expense_number_nonempty |].
  split; [exact Hn |].
  rewrite Hn. unfold generate_expense_number.
  change ("EXP" +:+ "-" +:+ strftime_Ymd now) with ("EXP-" +:+ strftime_Ymd now).
  rewrite <- !append_assoc. rewrite (append_assoc "EXP-").
  apply prefix_append.
Qed.

Lemma save_numbers_without_auto_numbering_witness :
  exists e' db',
    Expense_save noon manual_db None (new_expense 1 None d_100_00 d_21_00 jan5)
    = Some (e', db') /\
    expense_number e' = "EXP-20260105-0001".
Proof.
  destruct (save_numbers_without_auto_numbering noon manual_db
              (new_expense 1 None d_100_00 d_21_00 jan5) eq_refl eq_refl)
    as (e' & db' & Hs & _ & Hn & _).
  exists e', db'. split; [exact Hs |].
  rewrite Hn. vm_compute. reflexivity.
Defined.

(** With automatic numbering on, the configured prefix is the one used. *)
Lemma save_uses_configured_prefix (now : datetime) (db : DB) (e : Expense) :
  expense_number e = "" ->
  auto_numbering (settings_row db (hub_id e)) = true ->
  number_prefix (settings_row db (hub_id e)) <> "" ->
  exists e' db',
    Expense_save now db None e = Some (e', db') /\
    expense_number e' =
    generate_expense_number now (snd (get_settings db (hub_id e))) (hub_id e)
      (number_prefix (settings_row db (hub_id e))).
Proof.
  intros He Hauto Hp.
  destruct (save_once now db e) as (e' & db' & Hs & _ & _ & _ & _ & _ & Hn).
  pose proof (calculate_amounts_frame e) as Hc. simpl in Hc.
  destruct Hc as (_ & Hh & Hnum & _).
  rewrite assign_number_fresh in Hn by congruence.
  rewrite Hh, get_settings_fst in Hn.
  exists e', db'. split; [exact Hs |]. rewrite Hn. f_equal.
  unfold numbering_prefix, settings_from_db. simpl. rewrite Hauto.
  destruct (String.eqb_spec (number_prefix (settings_row db (hub_id e))) "");
    [contradiction | reflexivity].
Qed.

(** ** The views *)

Lemma get_expense_found (db : DB) (pk0 hub : ident) (r : ExpenseRow) :
  expenses_tbl db !! pk0 = Some r -> hub_id r = hub -> is_deleted r = false ->
  get_expense db pk0 hub = Some (set_pk (Some pk0) (from_db r)).
Proof.
  intros Hr Hh Hd. unfold get_expense. rewrite Hr.
  destruct (decide (hub_id r = hub /\ is_deleted r = false)) as [_ | Hn];
    [reflexivity | tauto].
Qed.

(** A save that names its columns, on an object that has a row: the row
    takes the named columns of the object and keeps the rest. *)
Lemma Expense_save_columns now db fields e id r :
  pk e = Some id -> expenses_tbl db !! id = Some r ->
  exists e2 db',
    Expense_save now db (Some fields) e = Some (e2, db') /\
    status e2 = status e /\ approved_by e2 = approved_by e /\
    approved_at e2 = approved_at e /\ paid_at e2 = paid_at e /\
    supplier e2 = supplier e /\
    expenses_tbl db' = <[id := foldr (write_field (to_db e2)) r fields]> (expenses_tbl db) /\
    suppliers_tbl db' = suppliers_tbl db /\
    (forall h, settings_row db' h = settings_row db h).
Proof.
  intros Hpk Hr. unfold Expense_save.
  pose proof (assign_number_frame now db (calculate_amounts e)) as Hf.
  pose proof (calculate_amounts_frame e) as Hc.
  destruct (assign_number now db (calculate_amounts e)) as [e2 db1].
  simpl in Hf, Hc.
  destruct Hf as (Hpk2 & _ & _ & _ & _ & _ & Hst & Hsu & Hab & Haa & Hpa & Hx & Hs & Hset).
  destruct Hc as (Hpk1 & _ & _ & _ & _ & Hst1 & Hsu1 & Hab1 & Haa1 & Hpa1).
  unfold Model_save. rewrite Hpk2, Hpk1, Hpk, Hx, Hr.
  eexists _, _. split; [reflexivity |]. simpl.
  repeat split; try congruence. exact Hset.
Qed.

Lemma status_in_approved (st : Status) :
  bool_decide (st ∈ [approved]) = match st with approved => true | _ => false end.
Proof. destruct st; reflexivity. Qed.

Lemma status_in_draft_pending (st : Status) :
  bool_decide (st ∈ [draft; pending]) =
  match st with draft | pending => true | _ => false end.
Proof. destruct st; reflexivity. Qed.

Lemma approval_missing_iff (s : ExpenseSettingsOf Z) (r : ExpenseRow) (k : option ident) :
  approval_missing (settings_from_db s) (set_pk k (from_db r)) = true <->
  must_decline s r.
Proof.
  unfold approval_missing, must_decline.
  change (require_approval (settings_from_db s)) with (require_approval s).
  change (approval_threshold (settings_from_db s))
    with (of_column (approval_threshold s)).
  change (status (set_pk k (from_db r))) with (status r).
  change (total_amount (set_pk k (from_db r))) with (of_column (total_amount r)).
  rewrite gtb_of_column, eqb_of_column_zero, status_in_approved.
  assert (Hcmp : (total_amount r >? approval_threshold s)
                 || (approval_threshold s =? 0) = true
                 <-> approval_threshold s < total_amount r \/ approval_threshold s = 0).
  { rewrite orb_true_iff, Z.gtb_ltb, Z.ltb_lt, Z.eqb_eq. tauto. }
  destruct (require_approval s); cbn [andb].
  2: { split; [discriminate | intros [Hf _]; discriminate]. }
  destruct (decide (status r = approved)) as [Ha | Hna].
  - rewrite Ha. cbn [negb]. split; [discriminate | intros (_ & Hn & _); congruence].
  - assert (Hm : match status r with approved => true | _ => false end = false)
      by (destruct (status r); congruence).
    rewrite Hm. cbn [negb].
    destruct ((total_amount r >? approval_threshold s) || (approval_threshold s =? 0)).
    + split; [intros _ | reflexivity].
      split; [reflexivity |]. split; [exact Hna |]. apply Hcmp. reflexivity.
    + split; [discriminate | intros (_ & _ & Hc)]. apply Hcmp in Hc. discriminate.
Qed.

(** C6.  For an expense of the tenant that is not deleted, [approve]
    succeeds exactly when its status is draft or pending; the row then
    holds status approved, the acting user as [approved_by] and the
    current time as [approved_at], and every other field of it is as
    before.  From approved, paid or rejected the answer is the reported
    refusal, not the fault answer, and the database is as before. *)
Theorem approve_policy (now : datetime) (db : DB) (hub : ident)
  (employee : option ident) (pk0 : ident) (r : ExpenseRow) :
  expenses_tbl db !! pk0 = Some r -> hub_id r = hub -> is_deleted r = false ->
  (fst (expense_approve now db hub employee pk0) = JsonSuccess <->
   status r = draft \/ status r = pending) /\
  (status r = draft \/ status r = pending ->
   exists row,
     expenses_tbl (snd (expense_approve now db hub employee pk0)) !! pk0 = Some row /\
     status row = approved /\ approved_by row = employee /\
     approved_at row = Some now /\
     pk row = pk r /\ hub_id row = hub_id r /\ is_deleted row = is_deleted r /\
     expense_number row = expense_number r /\ supplier row = supplier r /\
     amount row = amount r /\ tax_rate row = tax_rate r /\
     tax_amount row = tax_amount r /\ total_amount row = total_amount r /\
     expense_date row = expense_date r /\ paid_at row = paid_at r /\
     row = set_status approved
             (set_approved_by employee (set_approved_at (Some now) r))) /\
  (status r = approved \/ status r = paid \/ status r = rejected ->
   fst (expense_approve now db hub employee pk0) =
     JsonDeclined msg_only_draft_or_pending /\
   snd (expense_approve now db hub employee pk0) = db).
Proof.
  intros Hr Hh Hd. unfold expense_approve.
  rewrite (get_expense_found db pk0 hub r Hr Hh Hd).
  change (status (set_pk (Some pk0) (from_db r))) with (status r).
  rewrite status_in_draft_pending.
  destruct (Expense_save_columns now db
              [f_status; f_approved_by; f_approved_at; f_updated_at]
              (set_approved_at (Some now)
                 (set_approved_by employee
                    (set_status approved (set_pk (Some pk0) (from_db r)))))
              pk0 r eq_refl Hr)
    as (e2 & db' & Hs & Hst & Hab & Haa & _ & _ & Hx & _).
  assert (Hrow : exists row,
             expenses_tbl db' !! pk0 = Some row /\
             status row = approved /\ approved_by row = employee /\
             approved_at row = Some now /\
             pk row = pk r /\ hub_id row = hub_id r /\ is_deleted row = is_deleted r /\
             expense_number row = expense_number r /\ supplier row = supplier r /\
             amount row = amount r /\ tax_rate row = tax_rate r /\
             tax_amount row = tax_amount r /\ total_amount row = total_amount r /\
             expense_date row = expense_date r /\ paid_at row = paid_at r /\
             row = set_status approved
                     (set_approved_by employee (set_approved_at (Some now) r))).
  { eexists. split; [rewrite Hx; apply lookup_insert_eq |].
    cbn [foldr write_field to_db map_amounts status approved_by approved_at paid_at
         pk hub_id is_deleted expense_number supplier amount tax_rate tax_amount
         total_amount expense_date set_status set_approved_by set_approved_at].
    rewrite Hst, Hab, Haa.
    cbn [status approved_by approved_at set_status set_approved_by set_approved_at
         set_pk from_db map_amounts].
    repeat (split; [reflexivity |]). reflexivity. }
  destruct (status r) eqn:Hstatus; simpl negb; cbv iota; try rewrite Hs;
    cbn [fst snd];
    (split; [split; [tauto || discriminate | intros [? | ?]; congruence] |]);
    (split; [intros [? | ?]; (exact Hrow || discriminate) |]);
    try (intros _; split; reflexivity);
    intros [? | [? | ?]]; discriminate.
Qed.

Lemma approve_policy_witness :
  fst (expense_approve noon shop_db 1 (Some 9%positive) 3) = JsonSuccess /\
  exists row,
    expenses_tbl (snd (expense_approve noon shop_db 1 (Some 9%positive) 3))
      !! 3%positive = Some row /\
    status row = approved /\ approved_by row = Some 9%positive /\
    approved_at row = Some noon /\ paid_at row = None /\ total_amount row = 12100.
Proof.
  destruct (approve_policy noon shop_db 1 (Some 9%positive) 3
              (mkExpense (Some 3%positive) 1%positive false "EXP-20260105-0001"
                 (Some 7%positive) 10000 2100 2100 12100 jan5 draft None None None)
              eq_refl eq_refl eq_refl) as (Hiff & Hrow & _).
  split.
  - apply Hiff. left. reflexivity.
  - destruct Hrow as (row & Hl & Hst & Hby & Hat & _ & _ & _ & _ & _ & _ & _ & _
                      & Htot & _ & Hpaid & _); [left; reflexivity |].
    exists row. rewrite Hl, Hst, Hby, Hat, Hpaid, Htot. repeat split; reflexivity.
Defined.

(** What [expense_mark_paid] does on an expense of the tenant, by the
    verdict of the gate. *)
Lemma mark_paid_cases (now : datetime) (db : DB) (hub pk0 : ident) (r : ExpenseRow) :
  expenses_tbl db !! pk0 = Some r -> hub_id r = hub -> is_deleted r = false ->
  let res := expense_mark_paid now db hub pk0 in
  (must_decline (settings_row db hub) r /\
   fst res = JsonDeclined msg_requires_approval /\
   expenses_tbl (snd res) = expenses_tbl db /\
   suppliers_tbl (snd res) = suppliers_tbl db)
  \/
  (~ must_decline (settings_row db hub) r /\
   exists db2,
     expenses_tbl db2 =
       <[pk0 := set_status paid (set_paid_at (Some now) r)]> (expenses_tbl db) /\
     suppliers_tbl db2 = suppliers_tbl db /\
     match supplier r with
     | None => res = (JsonSuccess, db2)
     | Some sid =>
         match suppliers_tbl db !! sid with
         | None => res = (JsonError400, db2)
         | Some s =>
             res = (JsonSuccess, snd (update_totals db2 sid (supplier_from_db s)))
         end
     end).
Proof.
  intros Hr Hh Hd. unfold expense_mark_paid.
  rewrite (get_expense_found db pk0 hub r Hr Hh Hd).
  pose proof (get_settings_fst db hub) as Hset.
  pose proof (get_settings_tables db hub) as [Hx1 Hs1].
  destruct (get_settings db hub) as [settings db1]. simpl in Hset, Hx1, Hs1.
  subst settings.
  destruct (approval_missing (settings_from_db (settings_row db hub))
              (set_pk (Some pk0) (from_db r))) eqn:Hgate.
  - left. apply approval_missing_iff in Hgate. simpl. tauto.
  - right. split.
    { intros Hdec. apply approval_missing_iff with (k := Some pk0) in Hdec. congruence. }
    rewrite <- Hx1 in Hr.
    destruct (Expense_save_columns now db1 [f_status; f_paid_at; f_updated_at]
                (set_paid_at (Some now)
                   (set_status paid (set_pk (Some pk0) (from_db r))))
                pk0 r eq_refl Hr)
      as (e2 & db2 & Hs & Hst & _ & _ & Hpa & Hsu & Hx & Hsup & _).
    rewrite Hs. exists db2. simpl in Hx, Hst, Hpa, Hsu.
    split; [rewrite Hx, Hx1, Hst, Hpa; reflexivity |].
    split; [congruence |].
    rewrite Hsu. simpl. destruct (supplier r) as [sid |]; [| reflexivity].
    rewrite Hsup, Hs1. destruct (suppliers_tbl db !! sid); reflexivity.
Qed.

Lemma update_totals_tables (db : DB) (sid : ident) (self : Supplier) :
  expenses_tbl (snd (update_totals db sid self)) = expenses_tbl db.
Proof. reflexivity. Qed.

(** C1.  For an expense of the tenant that is not deleted: [mark_paid] is
    declined exactly when approval is required, the expense is not
    approved, and its total exceeds the threshold or the threshold is
    zero; so it is never declined when approval is not required, nor for
    a total within a positive threshold.  A call that is not declined
    stores status paid and the current time as [paid_at], nothing else of
    the expense changes, and it answers success when the expense has no
    supplier or its supplier exists. *)
Theorem mark_paid_policy (now : datetime) (db : DB) (hub pk0 : ident) (r : ExpenseRow) :
  expenses_tbl db !! pk0 = Some r -> hub_id r = hub -> is_deleted r = false ->
  let res := expense_mark_paid now db hub pk0 in
  let s := settings_row db hub in
  ((exists msg, fst res = JsonDeclined msg) <-> must_decline s r) /\
  (require_approval s = false -> ~ must_decline s r) /\
  (0 < approval_threshold s -> total_amount r <= approval_threshold s ->
   ~ must_decline s r) /\
  (must_decline s r -> expenses_tbl (snd res) = expenses_tbl db) /\
  (~ must_decline s r ->
   expenses_tbl (snd res) !! pk0 = Some (set_status paid (set_paid_at (Some now) r)) /\
   (match supplier r with
    | Some sid => is_Some (suppliers_tbl db !! sid)
    | None => True
    end -> fst res = JsonSuccess)).
Proof.
  intros Hr Hh Hd res s.
  destruct (mark_paid_cases now db hub pk0 r Hr Hh Hd)
    as [(Hdec & Hres & Hx & _) | (Hperm & db2 & Hx & _ & Hres)];
    fold res in Hres; fold s in Hdec || fold s in Hperm.
  - fold res in Hx. split; [split; [tauto | eauto] |].
    split; [unfold must_decline; intros Hf [Ht _]; congruence |].
    split; [unfold must_decline; intros Hp Hle (_ & _ & [Hgt | Hz]); lia |].
    split; [tauto | contradiction].
  - assert (Hnd : forall msg, fst res <> JsonDeclined msg).
    { intros msg. destruct (supplier r) as [sid |];
        [destruct (suppliers_tbl db !! sid) |]; rewrite Hres; discriminate. }
    split; [split; [intros [msg Hm]; destruct (Hnd msg Hm) | contradiction] |].
    split; [unfold must_decline; intros Hf [Ht _]; congruence |].
    split; [unfold must_decline; intros Hp Hle (_ & _ & [Hgt | Hz]); lia |].
    split; [contradiction |].
    intros _. split.
    + destruct (supplier r) as [sid |];
        [destruct (suppliers_tbl db !! sid) |]; rewrite Hres; simpl;
        rewrite Hx, lookup_insert_eq; reflexivity.
    + destruct (supplier r) as [sid |]; [| rewrite Hres; reflexivity].
      intros [s0 Hs0]. rewrite Hs0 in Hres. rewrite Hres. reflexivity.
Qed.

Lemma mark_paid_policy_witness :
  fst (expense_mark_paid noon shop_db 1 3) = JsonSuccess /\
  (status <$> expenses_tbl (snd (expense_mark_paid noon shop_db 1 3)) !! 3%positive)
  = Some paid /\
  (paid_at <$> expenses_tbl (snd (expense_mark_paid noon shop_db 1 3)) !! 3%positive)
  = Some (Some noon).
Proof.
  destruct (mark_paid_policy noon shop_db 1 3
              (mkExpense (Some 3%positive) 1%positive false "EXP-20260105-0001"
                 (Some 7%positive) 10000 2100 2100 12100 jan5 draft None None None)
              eq_refl eq_refl eq_refl) as (_ & _ & Hunder & _ & Hperm).
  assert (Hnd : ~ must_decline (settings_row shop_db 1)
                    (mkExpense (Some 3%positive) 1%positive false "EXP-20260105-0001"
                       (Some 7%positive) 10000 2100 2100 12100 jan5 draft None None None)).
  { apply Hunder; vm_compute; [reflexivity | discriminate]. }
  destruct (Hperm Hnd) as [Hrow Hok].
  split; [apply Hok; vm_compute; eauto |].
  rewrite Hrow. split; reflexivity.
Defined.

(** ** Supplier totals *)

Lemma date_leb_refl (d : date) : date_leb d d = true.
Proof.
  unfold date_leb. rewrite !Z.compare_refl. apply Z.leb_refl.
Qed.

Lemma date_leb_trans (a b c : date) :
  date_leb a b = true -> date_leb b c = true -> date_leb a c = true.
Proof.
  unfold date_leb.
  destruct (Z.compare_spec (year a) (year b)), (Z.compare_spec (year b) (year c)),
    (Z.compare_spec (year a) (year c)); try lia; try discriminate; try reflexivity;
  destruct (Z.compare_spec (month a) (month b)), (Z.compare_spec (month b) (month c)),
    (Z.compare_spec (month a) (month c)); try lia; try discriminate; try reflexivity.
Qed.

Lemma date_leb_total (a b : date) : date_leb a b = true \/ date_leb b a = true.
Proof.
  unfold date_leb.
  destruct (Z.compare_spec (year a) (year b)), (Z.compare_spec (year b) (year a));
    try lia; try tauto;
  destruct (Z.compare_spec (month a) (month b)), (Z.compare_spec (month b) (month a));
    try lia; try tauto.
Qed.

Lemma date_max_cases (a b : date) :
  (date_max a b = a \/ date_max a b = b) /\
  date_leb a (date_max a b) = true /\ date_leb b (date_max a b) = true.
Proof.
  unfold date_max. destruct (date_leb a b) eqn:Hab.
  - split; [tauto |]. split; [exact Hab | apply date_leb_refl].
  - split; [tauto |]. split; [apply date_leb_refl |].
    destruct (date_leb_total a b); congruence.
Qed.

Lemma foldr_date_max (d : date) (l : list date) :
  foldr date_max d l ∈ d :: l /\
  forall d', d' ∈ d :: l -> date_leb d' (foldr date_max d l) = true.
Proof.
  induction l as [| x l [IHin IHmax]]; simpl.
  - split; [apply list_elem_of_here |]. intros d' Hd'.
    apply elem_of_cons in Hd' as [-> | Hd']; [apply date_leb_refl | inversion Hd'].
  - destruct (date_max_cases x (foldr date_max d l)) as (Hm & Hx & Hf). split.
    + destruct Hm as [Hm | Hm]; rewrite Hm.
      * apply list_elem_of_further, list_elem_of_here.
      * apply elem_of_cons in IHin as [Hn | Hn];
          [rewrite Hn; apply list_elem_of_here |].
        do 2 apply list_elem_of_further. exact Hn.
    + intros d' Hd'. apply elem_of_cons in Hd' as [-> | Hd'].
      * eapply date_leb_trans; [apply IHmax, list_elem_of_here | exact Hf].
      * apply elem_of_cons in Hd' as [-> | Hd']; [exact Hx |].
        eapply date_leb_trans; [apply IHmax, list_elem_of_further, Hd' | exact Hf].
Qed.

Lemma Max_is_latest (l : list date) : is_latest (Max l) l.
Proof.
  destruct l as [| d l]; simpl; [reflexivity |]. apply foldr_date_max.
Qed.

Lemma Sum_or_zero (l : list Z) : to_column (or_zero (Sum l)) = foldr Z.add 0 l.
Proof.
  destruct l as [| x l]; [reflexivity |].
  unfold Sum, or_zero. rewrite truthy_of_column.
  destruct (Z.eqb_spec (foldr Z.add 0 (x :: l)) 0) as [Hz | Hnz]; simpl negb; cbv iota.
  - rewrite Hz. reflexivity.
  - apply to_column_of_column.
Qed.

(** [update_totals] on its own: the supplier's row gets the sum of the
    totals and the latest date of its paid, undeleted expenses; no other
    row of any table changes. *)
Lemma update_totals_spec (db : DB) (sid : ident) (self : Supplier) :
  let db' := snd (update_totals db sid self) in
  expenses_tbl db' = expenses_tbl db /\
  (forall k, k <> sid -> suppliers_tbl db' !! k = suppliers_tbl db !! k) /\
  exists s',
    suppliers_tbl db' !! sid = Some s' /\
    total_spent s' = foldr Z.add 0 (total_amount <$> paid_expenses db sid) /\
    is_latest (last_purchase_date s') (expense_date <$> paid_expenses db sid).
Proof.
  simpl. split; [reflexivity |]. split.
  - intros k Hk. rewrite lookup_insert_ne by congruence. reflexivity.
  - eexists. rewrite lookup_insert_eq. split; [reflexivity |]. simpl.
    split; [apply Sum_or_zero | apply Max_is_latest].
Qed.

Lemma paid_expenses_ext (db db' : DB) (sid : ident) :
  expenses_tbl db' = expenses_tbl db -> paid_expenses db' sid = paid_expenses db sid.
Proof. unfold paid_expenses. intros ->. reflexivity. Qed.

Lemma elem_of_paid_expenses (db : DB) (sid : ident) (r : ExpenseRow) :
  r ∈ paid_expenses db sid <->
  (exists k, expenses_tbl db !! k = Some r) /\
  supplier r = Some sid /\ is_deleted r = false /\ status r = paid.
Proof.
  unfold paid_expenses. rewrite list_elem_of_filter, list_elem_of_fmap. split.
  - intros [Hp ([k r0] & -> & Hin)]. apply elem_of_map_to_list in Hin. eauto.
  - intros [[k Hk] Hp]. split; [exact Hp |].
    exists (k, r). split; [reflexivity |]. apply elem_of_map_to_list. exact Hk.
Qed.

Lemma counts_for_spec (sid : ident) (r : ExpenseRow) :
  counts_for sid r = true <->
  supplier r = Some sid /\ is_deleted r = false /\ status r = paid.
Proof.
  unfold counts_for.
  rewrite !andb_true_iff, !bool_decide_eq_true, negb_true_iff. tauto.
Qed.

(** The sum that [update_totals] takes over its query is the sum over the
    table of the totals of the rows that count. *)
Lemma paid_sum_table (db : DB) (sid : ident) :
  foldr Z.add 0 (total_amount <$> paid_expenses db sid)
  = sum_of_paid (expenses_tbl db) sid.
Proof.
  unfold paid_expenses, sum_of_paid.
  induction (map_to_list (expenses_tbl db)) as [| [k r] l IH]; [reflexivity |].
  rewrite !fmap_cons, filter_cons. cbn [snd foldr].
  destruct (counts_for sid r) eqn:Hc.
  - rewrite decide_True by (apply counts_for_spec, Hc).
    rewrite fmap_cons. cbn [foldr]. rewrite IH. reflexivity.
  - rewrite decide_False; [rewrite IH; reflexivity |].
    intros Hp. apply counts_for_spec in Hp. congruence.
Qed.

(** The latest date over the query of [update_totals], read on the table. *)
Lemma latest_paid_date (db : DB) (sid : ident) (o : option date) :
  is_latest o (expense_date <$> paid_expenses db sid) ->
  match o with
  | Some d =>
      (exists k r, expenses_tbl db !! k = Some r /\ counts_for sid r = true /\
                   expense_date r = d) /\
      (forall k r, expenses_tbl db !! k = Some r -> counts_for sid r = true ->
                   date_leb (expense_date r) d = true)
  | None => forall k r, expenses_tbl db !! k = Some r -> counts_for sid r = false
  end.
Proof.
  destruct o as [d |]; cbn [is_latest].
  - intros [Hin Hmax]. split.
    + apply list_elem_of_fmap in Hin as (r & -> & Hr).
      apply elem_of_paid_expenses in Hr as [[k Hk] Hp].
      exists k, r. split; [exact Hk |]. split; [apply counts_for_spec, Hp | reflexivity].
    + intros k r Hk Hc. apply Hmax, list_elem_of_fmap. exists r.
      split; [reflexivity |]. apply elem_of_paid_expenses.
      split; [exists k; exact Hk | apply counts_for_spec, Hc].
  - intros Hnil k r Hk. destruct (counts_for sid r) eqn:Hc; [| reflexivity].
    assert (Hin : r ∈ paid_expenses db sid).
    { apply elem_of_paid_expenses. split; [exists k; exact Hk | apply counts_for_spec, Hc]. }
    apply (list_elem_of_fmap_2 expense_date) in Hin. rewrite Hnil in Hin. inversion Hin.
Qed.

Lemma sum_of_paid_none (l : list (ident * ExpenseRow)) (sid : ident) :
  (forall kr, kr ∈ l -> counts_for sid (snd kr) = false) ->
  foldr Z.add 0
    ((fun kr : ident * ExpenseRow =>
        if counts_for sid (snd kr) then total_amount (snd kr) else 0) <$> l) = 0.
Proof.
  induction l as [| kr l IH]; intros Hno; [reflexivity |].
  rewrite fmap_cons. cbn [foldr].
  rewrite (Hno kr) by apply list_elem_of_here.
  rewrite IH; [reflexivity |]. intros kr' Hin. apply Hno, list_elem_of_further, Hin.
Qed.

Lemma sum_of_paid_permutation (sid : ident) (l l' : list (ident * ExpenseRow)) :
  l ≡ₚ l' ->
  foldr Z.add 0
    ((fun kr : ident * ExpenseRow =>
        if counts_for sid (snd kr) then total_amount (snd kr) else 0) <$> l)
  = foldr Z.add 0
      ((fun kr : ident * ExpenseRow =>
          if counts_for sid (snd kr) then total_amount (snd kr) else 0) <$> l').
Proof.
  induction 1 as [| x l l' _ IH | x y l | l l' l'' _ IH1 _ IH2].
  - reflexivity.
  - rewrite !fmap_cons. cbn [foldr]. rewrite IH. reflexivity.
  - rewrite !fmap_cons. cbn [foldr]. lia.
  - rewrite IH1. exact IH2.
Qed.

(** Where no other row counts, the sum is the total of the one row. *)
Lemma sum_of_paid_only (tbl : gmap ident ExpenseRow) (sid pk0 : ident) (r : ExpenseRow) :
  counts_for sid r = true ->
  (forall k r', k <> pk0 -> tbl !! k = Some r' -> counts_for sid r' = false) ->
  sum_of_paid (<[pk0 := r]> tbl) sid = total_amount r.
Proof.
  intros Hc Hno. unfold sum_of_paid.
  rewrite <- (insert_delete_eq tbl).
  rewrite (sum_of_paid_permutation sid _ _
             (map_to_list_insert (delete pk0 tbl) pk0 r (lookup_delete_eq tbl pk0))).
  rewrite fmap_cons. cbn [foldr snd]. rewrite Hc.
  rewrite sum_of_paid_none; [lia |].
  intros [k r'] Hin. apply elem_of_map_to_list in Hin.
  apply lookup_delete_Some in Hin as [Hne Hk]. cbn [snd].
  apply (Hno k r'); [congruence | exact Hk].
Qed.

(** C7.  After a [mark_paid] that is not declined, on an expense linked to
    a supplier that exists, the call succeeds, the expense is stored as
    paid, and the supplier's row holds as [total_spent] the sum of
    [total_amount] over the rows of the expenses table that are linked to
    this supplier, not deleted and paid, and as [last_purchase_date] the
    date of one of those rows that none of them exceeds.  Where no other
    expense counts for the supplier (the first payment), [total_spent] is
    the total of the expense and [last_purchase_date] its date. *)
Theorem mark_paid_recomputes_supplier (now : datetime) (db : DB) (hub pk0 sid : ident)
  (r : ExpenseRow) (s : SupplierOf Z) :
  expenses_tbl db !! pk0 = Some r -> hub_id r = hub -> is_deleted r = false ->
  supplier r = Some sid -> suppliers_tbl db !! sid = Some s ->
  ~ must_decline (settings_row db hub) r ->
  let db' := snd (expense_mark_paid now db hub pk0) in
  fst (expense_mark_paid now db hub pk0) = JsonSuccess /\
  expenses_tbl db'
  = <[pk0 := set_status paid (set_paid_at (Some now) r)]> (expenses_tbl db) /\
  exists s' d,
    suppliers_tbl db' !! sid = Some s' /\
    total_spent s' = sum_of_paid (expenses_tbl db') sid /\
    last_purchase_date s' = Some d /\
    (exists k r', expenses_tbl db' !! k = Some r' /\
                  supplier r' = Some sid /\ is_deleted r' = false /\
                  status r' = paid /\ expense_date r' = d) /\
    (forall k r', expenses_tbl db' !! k = Some r' ->
                  supplier r' = Some sid -> is_deleted r' = false ->
                  status r' = paid -> date_leb (expense_date r') d = true) /\
    ((forall k r', k <> pk0 -> expenses_tbl db !! k = Some r' ->
                   ~ (supplier r' = Some sid /\ is_deleted r' = false /\
                      status r' = paid)) ->
     total_spent s' = total_amount r /\ d = expense_date r).
Proof.
  intros Hr Hh Hd Hsup Hs Hperm db'.
  destruct (mark_paid_cases now db hub pk0 r Hr Hh Hd)
    as [(Hdec & _) | (_ & db2 & Hx & _ & Hres)]; [contradiction |].
  rewrite Hsup, Hs in Hres. subst db'. rewrite Hres. cbn [fst snd].
  destruct (update_totals_spec db2 sid (supplier_from_db s))
    as (Hx' & _ & s' & Hrow & Htot & Hlast).
  rewrite Hx'. split; [reflexivity |]. split; [exact Hx |].
  set (r1 := set_status paid (set_paid_at (Some now) r)) in *.
  assert (Hc1 : counts_for sid r1 = true) by (apply counts_for_spec; cbn; tauto).
  assert (Hin : r1 ∈ paid_expenses db2 sid).
  { apply elem_of_paid_expenses. split; [| cbn; tauto].
    exists pk0. rewrite Hx, lookup_insert_eq. reflexivity. }
  destruct (last_purchase_date s') as [d |] eqn:Hd'.
  2: { cbn in Hlast. apply (list_elem_of_fmap_2 expense_date) in Hin.
       rewrite Hlast in Hin. inversion Hin. }
  apply latest_paid_date in Hlast. destruct Hlast as [(k & r' & Hk & Hc & Hdate) Hmax].
  exists s', d. split; [exact Hrow |].
  split; [rewrite Htot, paid_sum_table, Hx; reflexivity |].
  split; [exact Hd' |]. split; [| split].
  - exists k, r'. apply counts_for_spec in Hc. tauto.
  - intros k' r'' Hk' H1 H2 H3. apply (Hmax k' r'' Hk'), counts_for_spec. tauto.
  - intros Hfirst.
    assert (Hno : forall k0 r0, k0 <> pk0 -> expenses_tbl db !! k0 = Some r0 ->
                                counts_for sid r0 = false).
    { intros k0 r0 Hne Hk0. destruct (counts_for sid r0) eqn:Hc0; [| reflexivity].
      exfalso. apply (Hfirst k0 r0 Hne Hk0), counts_for_spec, Hc0. }
    split.
    + rewrite Htot, paid_sum_table, Hx. apply (sum_of_paid_only _ _ _ _ Hc1 Hno).
    + rewrite Hx in Hk. destruct (decide (k = pk0)) as [-> | Hne].
      * rewrite lookup_insert_eq in Hk. injection Hk as <-. rewrite <- Hdate. reflexivity.
      * rewrite lookup_insert_ne in Hk by congruence.
        rewrite (Hno k r' Hne Hk) in Hc. discriminate.
Qed.

Lemma mark_paid_recomputes_supplier_witness :
  exists s',
    suppliers_tbl (snd (expense_mark_paid noon ledger_db 1 3)) !! 7%positive = Some s' /\
    total_spent s' = 12100 /\ last_purchase_date s' = Some jan5.
Proof.
  destruct (mark_paid_recomputes_supplier noon ledger_db 1 3 7
              (mkExpense (Some 3%positive) 1%positive false "EXP-20260105-0001"
                 (Some 7%positive) 10000 2100 2100 12100 jan5 draft None None None)
              (mkSupplier 0 None) eq_refl eq_refl eq_refl eq_refl eq_refl)
    as (_ & _ & s' & d & Hrow & _ & Hd & _ & _ & Hfirst).
  { vm_compute. intros (_ & _ & [Hgt | Hz]); discriminate. }
  exists s'. split; [exact Hrow |]. rewrite Hd.
  destruct Hfirst as [Htot ->]; [| split; [exact Htot | reflexivity]].
  intros k r' Hne Hk. unfold ledger_db in Hk. cbn [expenses_tbl] in Hk.
  repeat (apply lookup_insert_Some in Hk as [[<- <-] | [_ Hk]];
          [first [congruence | cbn; intros (? & ? & ?); discriminate] |]).
  rewrite lookup_empty in Hk. discriminate.
Defined.

(** ** Numbering *)

(** C3, at the failing input.  A hub whose day holds the numbers 9998,
    9999 and 10000: the highest trailing sequence is 10000, so the
    specified next sequence is 10001; the code takes the number that is
    greatest as a string, 9999, and returns sequence 10000 again. *)
Theorem generate_expense_number_past_9999 :
  exists e1 db1,
    create noon busy_db 1 None d_100_00 d_21_00 jan5 = Some (e1, db1) /\
    expense_number e1 = "EXP-20260105-10000" /\
    (expense_number <$> first_by_number_desc (numbered_under db1 1 "EXP-20260105"))
      = Some "EXP-20260105-9999" /\
    spec_next_sequence (expense_number <$> numbered_under db1 1 "EXP-20260105") = 10001 /\
    generate_expense_number noon db1 1 "EXP" = "EXP-20260105-10000".
Proof.
  destruct (create noon busy_db 1 None d_100_00 d_21_00 jan5)
    as [[e1 db1] |] eqn:H1; [| vm_compute in H1; discriminate].
  exists e1, db1. split; [reflexivity |].
  vm_compute in H1. injection H1 as <- <-.
  split; [reflexivity |]. repeat split; vm_compute; reflexivity.
Qed.

(** C4, at the failing input.  Three expenses created one after the other
    on a day that already has the numbers 9998 and 9999: the first gets
    10000, five digits; the second and the third get 10000 again, so the
    suffixes do not grow by one and the numbers collide. *)
Theorem sequential_numbers_collide_past_9999 :
  exists e1 db1 e2 db2 e3 db3,
    create noon busy_db 1 None d_100_00 d_21_00 jan5 = Some (e1, db1) /\
    create noon db1 1 None d_100_00 d_21_00 jan5 = Some (e2, db2) /\
    create noon db2 1 None d_100_00 d_21_00 jan5 = Some (e3, db3) /\
    pk e1 <> pk e2 /\ pk e2 <> pk e3 /\
    suffix_of (expense_number e1) = 10000 /\
    suffix_of (expense_number e2) = 10000 /\
    suffix_of (expense_number e3) = 10000 /\
    expense_number e2 = expense_number e1 /\
    expense_number e3 = expense_number e2.
Proof.
  destruct (create noon busy_db 1 None d_100_00 d_21_00 jan5)
    as [[e1 db1] |] eqn:H1; [| vm_compute in H1; discriminate].
  destruct (create noon db1 1 None d_100_00 d_21_00 jan5)
    as [[e2 db2] |] eqn:H2.
  2: { vm_compute in H1. injection H1 as <- <-. vm_compute in H2. discriminate. }
  destruct (create noon db2 1 None d_100_00 d_21_00 jan5)
    as [[e3 db3] |] eqn:H3.
  2: { vm_compute in H1. injection H1 as <- <-.
       vm_compute in H2. injection H2 as <- <-. vm_compute in H3. discriminate. }
  exists e1, db1, e2, db2, e3, db3.
  vm_compute in H1. injection H1 as <- <-.
  vm_compute in H2. injection H2 as <- <-.
  vm_compute in H3. injection H3 as <- <-.
  repeat split; try discriminate; vm_compute; reflexivity.
Qed.

(** *** The order of strings *)

Lemma ascii_compare_refl (a : ascii) : Ascii.compare a a = Eq.
Proof. unfold Ascii.compare. apply N.compare_refl. Qed.

Lemma ascii_compare_lt_trans (a b c : ascii) :
  Ascii.compare a b = Lt -> Ascii.compare b c = Lt -> Ascii.compare a c = Lt.
Proof.
  unfold Ascii.compare. rewrite !N.compare_lt_iff. apply N.lt_trans.
Qed.

Lemma string_compare_refl (s : string) : String.compare s s = Eq.
Proof.
  induction s as [| c s IH]; simpl; [reflexivity |].
  rewrite ascii_compare_refl. exact IH.
Qed.

Lemma string_compare_lt_trans (s t u : string) :
  String.compare s t = Lt -> String.compare t u = Lt -> String.compare s u = Lt.
Proof.
  revert t u. induction s as [| a s IH]; intros [| b t] [| c u]; simpl;
    try discriminate; try reflexivity.
  destruct (Ascii.compare a b) eqn:Hab; try discriminate;
    destruct (Ascii.compare b c) eqn:Hbc; try discriminate; intros Hst Htu.
  - apply Ascii.compare_eq_iff in Hab, Hbc. subst.
    rewrite ascii_compare_refl. eapply IH; eassumption.
  - apply Ascii.compare_eq_iff in Hab. subst. rewrite Hbc. reflexivity.
  - apply Ascii.compare_eq_iff in Hbc. subst. rewrite Hab. reflexivity.
  - rewrite (ascii_compare_lt_trans a b c Hab Hbc). reflexivity.
Qed.

Lemma string_leb_refl (s : string) : String.leb s s = true.
Proof. unfold String.leb. rewrite string_compare_refl. reflexivity. Qed.

Lemma string_leb_ltb_trans (s t u : string) :
  String.leb s t = true -> String.ltb t u = true -> String.leb s u = true.
Proof.
  unfold String.leb, String.ltb.
  destruct (String.compare s t) eqn:Hst; try discriminate;
    destruct (String.compare t u) eqn:Htu; try discriminate; intros _ _.
  - apply String.compare_eq_iff in Hst. subst. rewrite Htu. reflexivity.
  - rewrite (string_compare_lt_trans s t u Hst Htu). reflexivity.
Qed.

Lemma string_not_ltb_leb (s t : string) :
  String.ltb s t = false -> String.leb t s = true.
Proof.
  unfold String.leb, String.ltb. rewrite (String.compare_antisym t s).
  destruct (String.compare s t); simpl; congruence.
Qed.

(** [first_by_number_desc] finds a row of the list whose number no other
    number of the list exceeds. *)
Lemma first_by_number_desc_spec (rows : list ExpenseRow) :
  match first_by_number_desc rows with
  | None => rows = []
  | Some last =>
      last ∈ rows /\
      forall r, r ∈ rows -> String.leb (expense_number r) (expense_number last) = true
  end.
Proof.
  induction rows as [| x rows IH]; simpl; [reflexivity |].
  destruct (first_by_number_desc rows) as [b |].
  - destruct IH as [Hin Hmax].
    destruct (String.ltb (expense_number b) (expense_number x)) eqn:Hlt.
    + split; [apply list_elem_of_here |].
      intros r Hr. apply elem_of_cons in Hr as [-> | Hr];
        [apply string_leb_refl |].
      eapply string_leb_ltb_trans; [apply Hmax, Hr | exact Hlt].
    + split; [apply list_elem_of_further, Hin |].
      intros r Hr. apply elem_of_cons in Hr as [-> | Hr];
        [apply string_not_ltb_leb, Hlt | apply Hmax, Hr].
  - subst rows. split; [apply list_elem_of_here |].
    intros r Hr. apply elem_of_cons in Hr as [-> | Hr];
      [apply string_leb_refl |]. inversion Hr.
Qed.

Lemma elem_of_numbered_under (db : DB) (hub : ident) (key : string) (r : ExpenseRow) :
  r ∈ numbered_under db hub key <->
  (exists k, expenses_tbl db !! k = Some r) /\
  hub_id r = hub /\ String.prefix key (expense_number r) = true.
Proof.
  unfold numbered_under. rewrite list_elem_of_filter, list_elem_of_fmap. split.
  - intros [Hp ([k r0] & -> & Hin)]. apply elem_of_map_to_list in Hin. eauto.
  - intros [[k Hk] Hp]. split; [exact Hp |].
    exists (k, r). split; [reflexivity |]. apply elem_of_map_to_list. exact Hk.
Qed.

(** What [generate_expense_number] returns, for every database: the key,
    a dash, and the sequence in at least four digits, where the sequence
    is 1 when the hub has no number under the key, and otherwise one more
    than the trailing integer of a number under the key that is greatest
    in the order of strings (1 when that trailing part is no integer). *)
Lemma generate_expense_number_spec (now : datetime) (db : DB) (hub : ident)
  (prefix : string) :
  let key := prefix +:+ "-" +:+ strftime_Ymd now in
  exists seq,
    generate_expense_number now db hub prefix = key +:+ "-" +:+ Py.format_0d 4 seq /\
    ((seq = 1 /\ forall k r, expenses_tbl db !! k = Some r -> hub_id r = hub ->
                             String.prefix key (expense_number r) = false)
     \/
     exists k last,
       expenses_tbl db !! k = Some last /\ hub_id last = hub /\
       String.prefix key (expense_number last) = true /\
       (forall k' r, expenses_tbl db !! k' = Some r -> hub_id r = hub ->
                     String.prefix key (expense_number r) = true ->
                     String.leb (expense_number r) (expense_number last) = true) /\
       seq = match trailing_sequence (expense_number last) with
             | Some n => n + 1
             | None => 1
             end).
Proof.
  intros key. unfold generate_expense_number. fold key.
  pose proof (first_by_number_desc_spec (numbered_under db hub key)) as Hspec.
  destruct (first_by_number_desc (numbered_under db hub key)) as [last |].
  - destruct Hspec as [Hin Hmax].
    apply elem_of_numbered_under in Hin as ([k Hk] & Hh & Hp).
    eexists. split; [reflexivity |]. right. exists k, last.
    repeat split; try assumption.
    intros k' r Hr Hhr Hpr. apply Hmax, elem_of_numbered_under. eauto.
  - exists 1. split; [reflexivity |]. left. split; [reflexivity |].
    intros k r Hr Hh. destruct (String.prefix key (expense_number r)) eqn:Hp;
      [| reflexivity].
    assert (Hin : r ∈ numbered_under db hub key)
      by (apply elem_of_numbered_under; eauto).
    rewrite Hspec in Hin. inversion Hin.
Qed.

(** *** Numbers of four digits *)

Lemma is_digit_code (c : ascii) :
  Py.is_digit c = true <-> 48 <= Py.code c <= 57.
Proof. unfold Py.is_digit. rewrite andb_true_iff, !Z.leb_le. tauto. Qed.

Lemma digit_not_space (c : ascii) : Py.is_digit c = true -> Py.is_space c = false.
Proof.
  intros Hd. apply is_digit_code in Hd. unfold Py.is_space.
  repeat match goal with
         | |- context [?a <=? ?b] => destruct (Z.leb_spec a b)
         | |- context [?a =? ?b] => destruct (Z.eqb_spec a b)
         end; simpl; try reflexivity; lia.
Qed.

Lemma digit_not_dash (c : ascii) : Py.is_digit c = true -> Ascii.eqb c "-" = false.
Proof.
  intros Hd. destruct (Ascii.eqb_spec c "-") as [-> | _]; [| reflexivity].
  vm_compute in Hd. discriminate.
Qed.

Lemma digits_value_bounds (s : string) :
  all_digits s = true -> 0 <= digits_value s < 10 ^ Z.of_nat (String.length s).
Proof.
  induction s as [| c s IH]; [simpl; lia |].
  cbn [all_digits digits_value String.length].
  rewrite andb_true_iff. intros [Hc Hs]. specialize (IH Hs).
  apply is_digit_code in Hc. unfold Py.digit_val.
  rewrite Nat2Z.inj_succ, Z.pow_succ_r by lia. nia.
Qed.

Lemma py_digits_value (s : string) :
  forall acc, all_digits s = true ->
    Py.digits s acc true = Some (acc * 10 ^ Z.of_nat (String.length s) + digits_value s).
Proof.
  induction s as [| c s IH]; intros acc.
  - intros _. simpl. f_equal. lia.
  - cbn [all_digits digits_value String.length Py.digits].
    rewrite andb_true_iff. intros [Hc Hs]. rewrite Hc, (IH _ Hs). f_equal.
    rewrite Nat2Z.inj_succ, Z.pow_succ_r by lia. lia.
Qed.

Lemma lstrip_digits (s : string) : all_digits s = true -> Py.lstrip s = s.
Proof.
  destruct s as [| c s]; simpl; [reflexivity |].
  rewrite andb_true_iff. intros [Hc _]. rewrite (digit_not_space c Hc). reflexivity.
Qed.

Lemma rstrip_digits (s : string) : all_digits s = true -> Py.rstrip s = s.
Proof.
  induction s as [| c s IH]; simpl; [reflexivity |].
  rewrite andb_true_iff. intros [Hc Hs]. rewrite (IH Hs), (digit_not_space c Hc).
  destruct s; reflexivity.
Qed.

Lemma py_int_digits (s : string) :
  all_digits s = true -> s <> "" -> Py.int s = Some (digits_value s).
Proof.
  intros Hs Hne. unfold Py.int, Py.strip.
  rewrite (lstrip_digits s Hs), (rstrip_digits s Hs).
  destruct s as [| c s]; [contradiction |].
  simpl in Hs. apply andb_true_iff in Hs as [Hc Hs].
  assert (Hd : Py.digits (String c s) 0 false = Some (digits_value (String c s))).
  { cbn [Py.digits digits_value]. rewrite Hc, (py_digits_value s _ Hs).
    f_equal; lia. }
  destruct c as [[] [] [] [] [] [] [] []]; try exact Hd; vm_compute in Hc; discriminate.
Qed.

Lemma split_digits (s : string) : all_digits s = true -> Py.split "-" s = [s].
Proof.
  induction s as [| c s IH]; simpl; [reflexivity |].
  rewrite andb_true_iff. intros [Hc Hs].
  rewrite (digit_not_dash c Hc), (IH Hs). reflexivity.
Qed.

Lemma split_append (sep : ascii) (s d : string) :
  exists front, front <> [] /\
    Py.split sep (s +:+ String sep d) = front ++ Py.split sep d.
Proof.
  induction s as [| c s (front & Hne & IH)].
  - exists [EmptyString]. split; [discriminate |]. simpl.
    rewrite Ascii.eqb_refl. reflexivity.
  - change (String c s +:+ String sep d) with (String c (s +:+ String sep d)).
    simpl. rewrite IH. destruct (Ascii.eqb c sep).
    + exists (EmptyString :: front). split; [discriminate | reflexivity].
    + destruct front as [| f front]; [contradiction |].
      exists (String c f :: front). split; [discriminate | reflexivity].
Qed.

(** The trailing integer of a key, a dash and digits is the number that
    the digits write. *)
Lemma trailing_sequence_digits (key d : string) :
  all_digits d = true -> d <> "" ->
  trailing_sequence (key +:+ "-" +:+ d) = Some (digits_value d).
Proof.
  intros Hd Hne. unfold trailing_sequence, Py.last_item.
  change ("-" +:+ d) with (String "-" d).
  destruct (split_append "-" key d) as (front & _ & ->).
  rewrite (split_digits d Hd), last_snoc. simpl.
  apply py_int_digits; assumption.
Qed.

Lemma ascii_compare_code (a b : ascii) :
  Ascii.compare a b = (Py.code a ?= Py.code b).
Proof. unfold Ascii.compare, Py.code. symmetry. apply N2Z.inj_compare. Qed.

(** On digit strings of one length the order of strings is the order of
    the numbers. *)
Lemma string_compare_digits (x : string) :
  forall y, all_digits x = true -> all_digits y = true ->
    String.length x = String.length y ->
    String.compare x y = (digits_value x ?= digits_value y).
Proof.
  induction x as [| a x IH]; intros [| b y]; try discriminate; [reflexivity |].
  cbn [all_digits digits_value String.length String.compare].
  rewrite !andb_true_iff. intros [Ha Hx] [Hb Hy] [= Hlen].
  pose proof (digits_value_bounds x Hx) as Bx.
  pose proof (digits_value_bounds y Hy) as By.
  rewrite Hlen in Bx |- *. rewrite ascii_compare_code. unfold Py.digit_val.
  set (P := 10 ^ Z.of_nat (String.length y)) in *.
  destruct (Z.compare_spec (Py.code a) (Py.code b)) as [He | Hl | Hg].
  - rewrite (IH y Hx Hy Hlen), He. symmetry. apply Z.add_compare_mono_l.
  - symmetry. apply Z.compare_lt_iff. nia.
  - symmetry. apply Z.compare_gt_iff. nia.
Qed.

Lemma string_compare_app (key x y : string) :
  String.compare (key +:+ x) (key +:+ y) = String.compare x y.
Proof.
  induction key as [| c key IH]; [reflexivity |].
  change (String.compare (String c (key +:+ x)) (String c (key +:+ y))
          = String.compare x y).
  cbn [String.compare]. rewrite ascii_compare_refl. exact IH.
Qed.

Lemma four_digit_leb (key dx dy : string) :
  all_digits dx = true -> all_digits dy = true ->
  String.length dx = String.length dy ->
  String.leb (key +:+ "-" +:+ dx) (key +:+ "-" +:+ dy) = true ->
  digits_value dx <= digits_value dy.
Proof.
  intros Hx Hy Hlen. unfold String.leb.
  rewrite string_compare_app.
  change (String.compare ("-" +:+ dx) ("-" +:+ dy))
    with (String.compare (String "-" dx) (String "-" dy)).
  cbn [String.compare]. rewrite ascii_compare_refl.
  rewrite (string_compare_digits dx dy Hx Hy Hlen).
  destruct (Z.compare_spec (digits_value dx) (digits_value dy));
    (lia || discriminate).
Qed.

Lemma foldr_Zmax (n : Z) (ns : list Z) :
  foldr Z.max n ns ∈ n :: ns /\ forall x, x ∈ n :: ns -> x <= foldr Z.max n ns.
Proof.
  induction ns as [| y ns [IHin IHmax]]; simpl.
  - split; [apply list_elem_of_here |]. intros x Hx.
    apply elem_of_cons in Hx as [-> | Hx]; [lia | inversion Hx].
  - split.
    + destruct (Z.max_spec y (foldr Z.max n ns)) as [[_ ->] | [_ ->]].
      * apply elem_of_cons in IHin as [Hn | Hn];
          [rewrite Hn; apply list_elem_of_here |].
        do 2 apply list_elem_of_further. exact Hn.
      * apply list_elem_of_further, list_elem_of_here.
    + intros x Hx. apply elem_of_cons in Hx as [-> | Hx].
      * specialize (IHmax n (list_elem_of_here _ _)). lia.
      * apply elem_of_cons in Hx as [-> | Hx]; [lia |].
        specialize (IHmax x (list_elem_of_further _ _ _ Hx)). lia.
Qed.

(** The specified sequence when [m] is the highest trailing integer. *)
Lemma spec_next_sequence_highest (numbers : list string) (m : Z) :
  (exists s, s ∈ numbers /\ trailing_sequence s = Some m) ->
  (forall s n, s ∈ numbers -> trailing_sequence s = Some n -> n <= m) ->
  spec_next_sequence numbers = m + 1.
Proof.
  intros Hm Hmax. unfold spec_next_sequence.
  assert (Hin : m ∈ omap trailing_sequence numbers)
    by (apply list_elem_of_omap; exact Hm).
  assert (Hle : forall n, n ∈ omap trailing_sequence numbers -> n <= m).
  { intros n Hn. apply list_elem_of_omap in Hn as (s & Hs & Ht). eauto. }
  destruct (omap trailing_sequence numbers) as [| n ns]; [inversion Hin |].
  destruct (foldr_Zmax n ns) as [Hfin Hfmax].
  specialize (Hle _ Hfin). specialize (Hfmax _ Hin). lia.
Qed.

(** In a hub whose numbers under the key all have four digits, the code
    and the specification agree: the generated sequence is one plus the
    highest trailing integer, and 1 when there is no number under the
    key.  This covers the step from 9999 to 10000; the failing inputs of
    C3 and C4 hold a number of five digits. *)
Lemma generate_expense_number_four_digits (now : datetime) (db : DB) (hub : ident)
  (prefix : string) :
  let key := prefix +:+ "-" +:+ strftime_Ymd now in
  four_digit_numbers db hub key ->
  generate_expense_number now db hub prefix =
  key +:+ "-" +:+
    Py.format_0d 4 (spec_next_sequence (expense_number <$> numbered_under db hub key)).
Proof.
  intros key Hwf. unfold generate_expense_number. fold key.
  pose proof (first_by_number_desc_spec (numbered_under db hub key)) as Hspec.
  destruct (first_by_number_desc (numbered_under db hub key)) as [last |].
  2: { rewrite Hspec. reflexivity. }
  destruct Hspec as [Hin Hmax].
  pose proof Hin as Hlast.
  apply elem_of_numbered_under in Hlast as ([k Hk] & Hh & Hp).
  destruct (Hwf k last Hk Hh Hp) as (dl & Hnl & Hdl & Hll).
  assert (Hdne : dl <> "") by (intros ->; discriminate).
  fold (trailing_sequence (expense_number last)).
  rewrite Hnl, (trailing_sequence_digits key dl Hdl Hdne).
  rewrite (spec_next_sequence_highest _ (digits_value dl)); [reflexivity | |].
  - exists (expense_number last). split; [apply list_elem_of_fmap_2, Hin |].
    rewrite Hnl. apply trailing_sequence_digits; assumption.
  - intros s n Hs Hn. apply list_elem_of_fmap in Hs as (r & -> & Hr).
    specialize (Hmax r Hr).
    apply elem_of_numbered_under in Hr as ([k' Hk'] & Hh' & Hp').
    destruct (Hwf k' r Hk' Hh' Hp') as (dr & Hnr & Hdr & Hlr).
    assert (Hrne : dr <> "") by (intros ->; discriminate).
    rewrite Hnr, (trailing_sequence_digits key dr Hdr Hrne) in Hn.
    injection Hn as <-. rewrite Hnr, Hnl in Hmax.
    apply (four_digit_leb key dr dl); congruence.
Qed.

(** *** Writing a number in decimal *)

Lemma digit_char_code (d : Z) : 0 <= d <= 9 -> Py.code (Py.digit_char d) = 48 + d.
Proof.
  intros Hd. unfold Py.code, Py.digit_char.
  rewrite N_ascii_embedding by lia. lia.
Qed.

Lemma digit_char_is_digit (d : Z) :
  0 <= d <= 9 -> Py.is_digit (Py.digit_char d) = true /\ Py.digit_val (Py.digit_char d) = d.
Proof.
  intros Hd. unfold Py.digit_val. rewrite is_digit_code, digit_char_code by exact Hd.
  lia.
Qed.

Lemma string_length_app (s t : string) :
  String.length (s +:+ t) = (String.length s + String.length t)%nat.
Proof.
  induction s as [| c s IH]; [reflexivity |].
  change (String.length (String c (s +:+ t))
          = S (String.length s + String.length t)).
  cbn [String.length]. rewrite IH. reflexivity.
Qed.

Lemma all_digits_app (s t : string) :
  all_digits (s +:+ t) = all_digits s && all_digits t.
Proof.
  induction s as [| c s IH]; [reflexivity |].
  change (all_digits (String c (s +:+ t)) = all_digits (String c s) && all_digits t).
  cbn [all_digits]. rewrite IH, andb_assoc. reflexivity.
Qed.

Lemma digits_value_app (s t : string) :
  digits_value (s +:+ t) =
  digits_value s * 10 ^ Z.of_nat (String.length t) + digits_value t.
Proof.
  induction s as [| c s IH].
  { change (digits_value t = 0 * 10 ^ Z.of_nat (String.length t) + digits_value t).
    lia. }
  change (digits_value (String c (s +:+ t))
          = digits_value (String c s) * 10 ^ Z.of_nat (String.length t)
            + digits_value t).
  cbn [digits_value]. rewrite IH, string_length_app, Nat2Z.inj_add, Z.pow_add_r by lia.
  lia.
Qed.

(** With fuel for every bit of [n], [digits_of] writes [n] in front of
    the accumulator, without a leading zero. *)
Lemma digits_of_spec (fuel : nat) :
  forall n acc, (0 < fuel)%nat -> 0 <= n < 2 ^ Z.of_nat fuel ->
    exists s,
      Py.digits_of fuel n acc = s +:+ acc /\
      all_digits s = true /\ s <> "" /\ digits_value s = n /\
      (n = 0 \/ 10 ^ (Z.of_nat (String.length s) - 1) <= n).
Proof.
  induction fuel as [| fuel IH]; intros n acc Hfuel Hn; [lia |].
  - cbn [Py.digits_of].
    pose proof (Z.div_mod n 10 ltac:(lia)) as Hdm.
    pose proof (Z.mod_pos_bound n 10 ltac:(lia)) as Hm.
    destruct (digit_char_is_digit (n mod 10) ltac:(lia)) as [Hdig Hval].
    destruct (Z.eqb_spec (n / 10) 0) as [Hq | Hq].
    + exists (String (Py.digit_char (n mod 10)) ""). split; [reflexivity |].
      cbn [all_digits digits_value String.length]. rewrite Hdig, Hval.
      split; [reflexivity |]. split; [discriminate |]. simpl. lia.
    + rewrite Nat2Z.inj_succ, Z.pow_succ_r in Hn by lia.
      assert (Hn10 : 0 <= n / 10 < 2 ^ Z.of_nat fuel).
      { split; [apply Z.div_pos; lia |].
        apply Z.div_lt_upper_bound; [lia |].
        pose proof (pow10_pos 0 ltac:(lia)).
        assert (0 < 2 ^ Z.of_nat fuel) by (apply Z.pow_pos_nonneg; lia). lia. }
      assert (Hfuel' : (0 < fuel)%nat).
      { destruct fuel; [simpl in Hn10; lia | lia]. }
      destruct (IH (n / 10) (String (Py.digit_char (n mod 10)) acc) Hfuel' Hn10)
        as (s & Hs & Had & Hne & Hv & Hlead).
      exists (s +:+ String (Py.digit_char (n mod 10)) ""). rewrite Hs.
      split; [rewrite append_assoc; reflexivity |].
      rewrite all_digits_app, digits_value_app, string_length_app.
      cbn [all_digits digits_value String.length]. rewrite Had, Hdig, Hval, Hv.
      split; [reflexivity |].
      split; [destruct s; [contradiction | discriminate] |].
      split; [simpl; lia |]. right.
      destruct Hlead as [Hz | Hlead]; [lia |].
      replace (Z.of_nat (String.length s + 1) - 1)
        with (Z.succ (Z.of_nat (String.length s) - 1)) by lia.
      assert (Hlen : 0 < Z.of_nat (String.length s))
        by (destruct s; [contradiction | simpl; lia]).
      rewrite Z.pow_succ_r by lia. lia.
Qed.

Lemma str_nat_spec (n : Z) :
  0 <= n ->
  all_digits (Py.str_nat n) = true /\ Py.str_nat n <> "" /\
  digits_value (Py.str_nat n) = n /\
  (n = 0 \/ 10 ^ (Z.of_nat (String.length (Py.str_nat n)) - 1) <= n).
Proof.
  intros Hn. unfold Py.str_nat.
  assert (Hfuel : 0 <= n < 2 ^ Z.of_nat (S (Z.to_nat (Z.log2 n)))).
  { split; [exact Hn |]. rewrite Nat2Z.inj_succ, Z2Nat.id by apply Z.log2_nonneg.
    destruct (Z.eq_dec n 0) as [-> | Hnz]; [simpl; lia |].
    apply Z.log2_spec. lia. }
  destruct (digits_of_spec _ n "" (Nat.lt_0_succ _) Hfuel)
    as (s & Hs & Had & Hne & Hv & Hlead).
  rewrite Hs.
  assert (Hnil : s +:+ "" = s).
  { clear. induction s as [| c s IH]; [reflexivity |].
    change (String c (s +:+ "") = String c s). rewrite IH. reflexivity. }
  rewrite Hnil. tauto.
Qed.

Lemma zeros_spec (k : nat) :
  all_digits (Py.zeros k) = true /\ digits_value (Py.zeros k) = 0 /\
  String.length (Py.zeros k) = k.
Proof.
  induction k as [| k (Ha & Hv & Hl)]; [repeat split |].
  cbn [Py.zeros all_digits digits_value String.length].
  rewrite Ha, Hv, Hl. repeat split.
Qed.

(** [format_0d] of a number that is not negative: digits only, never
    fewer than the width, never cut, and they write the number. *)
Lemma format_0d_spec (width : nat) (n : Z) :
  0 <= n ->
  all_digits (Py.format_0d width n) = true /\ Py.format_0d width n <> "" /\
  digits_value (Py.format_0d width n) = n /\
  String.length (Py.format_0d width n)
  = Nat.max width (String.length (Py.str_nat n)).
Proof.
  intros Hn. unfold Py.format_0d.
  destruct (Z.ltb_spec n 0) as [Hneg | _]; [lia |].
  destruct (str_nat_spec n Hn) as (Ha & Hne & Hv & _).
  destruct (zeros_spec (width - String.length (Py.str_nat n))) as (Hza & Hzv & Hzl).
  rewrite all_digits_app, digits_value_app, string_length_app, Ha, Hza, Hzv, Hzl, Hv.
  split; [reflexivity |]. split; [| split; lia].
  apply append_nonempty. exact Hne.
Qed.

Lemma format_0d_4_length (n : Z) :
  0 <= n <= 9999 -> String.length (Py.format_0d 4 n) = 4%nat.
Proof.
  intros Hn. destruct (format_0d_spec 4 n ltac:(lia)) as (_ & _ & _ & ->).
  destruct (str_nat_spec n ltac:(lia)) as (_ & _ & _ & [-> | Hlead]); [reflexivity |].
  assert (Hlen : Z.of_nat (String.length (Py.str_nat n)) - 1 < 4).
  { apply (Z.pow_lt_mono_r_iff 10); lia. }
  lia.
Qed.

(** The suffix of a number made of a key, a dash and a formatted
    sequence is that sequence, whatever its size. *)
Lemma trailing_sequence_format (key : string) (n : Z) :
  0 <= n -> trailing_sequence (key +:+ "-" +:+ Py.format_0d 4 n) = Some n.
Proof.
  intros Hn. destruct (format_0d_spec 4 n Hn) as (Ha & Hne & Hv & _).
  rewrite (trailing_sequence_digits key _ Ha Hne), Hv. reflexivity.
Qed.

Lemma four_digit_number_format (key : string) (n : Z) :
  0 <= n <= 9999 -> four_digit_number key (key +:+ "-" +:+ Py.format_0d 4 n).
Proof.
  intros Hn. exists (Py.format_0d 4 n). split; [reflexivity |].
  split; [apply format_0d_spec; lia | apply format_0d_4_length, Hn].
Qed.

Lemma spec_next_sequence_bound (numbers : list string) (s : string) (x : Z) :
  s ∈ numbers -> trailing_sequence s = Some x -> x < spec_next_sequence numbers.
Proof.
  intros Hs Hx. unfold spec_next_sequence.
  assert (Hin : x ∈ omap trailing_sequence numbers)
    by (apply list_elem_of_omap; eauto).
  destruct (omap trailing_sequence numbers) as [| n ns]; [inversion Hin |].
  destruct (foldr_Zmax n ns) as [_ Hmax]. specialize (Hmax x Hin). lia.
Qed.

Lemma spec_next_sequence_pos (numbers : list string) :
  (forall s x, s ∈ numbers -> trailing_sequence s = Some x -> 0 <= x) ->
  1 <= spec_next_sequence numbers.
Proof.
  intros Hpos. unfold spec_next_sequence.
  assert (Hall : forall x, x ∈ omap trailing_sequence numbers -> 0 <= x).
  { intros x Hx. apply list_elem_of_omap in Hx as (s & Hs & Ht). eauto. }
  destruct (omap trailing_sequence numbers) as [| n ns]; [lia |].
  destruct (foldr_Zmax n ns) as [_ Hmax].
  specialize (Hmax n (list_elem_of_here _ _)).
  specialize (Hall n (list_elem_of_here _ _)). lia.
Qed.

Lemma four_digit_numbers_pos (db : DB) (hub : ident) (key : string) :
  four_digit_numbers db hub key ->
  1 <= spec_next_sequence (expense_number <$> numbered_under db hub key).
Proof.
  intros Hwf. apply spec_next_sequence_pos. intros s x Hs Hx.
  apply list_elem_of_fmap in Hs as (r & -> & Hr).
  apply elem_of_numbered_under in Hr as ([k Hk] & Hh & Hp).
  destruct (Hwf k r Hk Hh Hp) as (d & Hn & Hd & Hl).
  assert (Hne : d <> "") by (intros ->; discriminate).
  rewrite Hn, (trailing_sequence_digits key d Hd Hne) in Hx. injection Hx as <-.
  apply digits_value_bounds, Hd.
Qed.

Lemma numbered_under_ext (db db' : DB) (hub : ident) (key : string) :
  expenses_tbl db' = expenses_tbl db ->
  numbered_under db' hub key = numbered_under db hub key.
Proof. unfold numbered_under. intros ->. reflexivity. Qed.

Lemma four_digit_numbers_ext (db db' : DB) (hub : ident) (key : string) :
  expenses_tbl db' = expenses_tbl db ->
  four_digit_numbers db hub key -> four_digit_numbers db' hub key.
Proof. unfold four_digit_numbers. intros ->. tauto. Qed.

(** Creating an expense in a hub whose numbers under the day's key have
    four digits: the new row takes a fresh primary key and the number of
    the specified sequence; no other row changes. *)
Lemma create_four_digits (now : datetime) (db : DB) (hub : ident)
  (sup : option ident) (amt rate : Dec.Decimal) (d : date) :
  let key := numbering_prefix (settings_from_db (settings_row db hub))
             +:+ "-" +:+ strftime_Ymd now in
  let n := spec_next_sequence (expense_number <$> numbered_under db hub key) in
  four_digit_numbers db hub key ->
  exists e1 db1 id1,
    create now db hub sup amt rate d = Some (e1, db1) /\
    expense_number e1 = key +:+ "-" +:+ Py.format_0d 4 n /\
    hub_id e1 = hub /\ pk e1 = Some id1 /\
    expenses_tbl db !! id1 = None /\
    expenses_tbl db1 = <[id1 := to_db e1]> (expenses_tbl db) /\
    (forall h, settings_row db1 h = settings_row db h).
Proof.
  intros key n Hwf. unfold create, Expense_save.
  set (e0 := calculate_amounts (new_expense hub sup amt rate d)).
  pose proof (calculate_amounts_frame (new_expense hub sup amt rate d)) as Hc.
  cbv zeta in Hc. fold e0 in Hc. destruct Hc as (Hpk0 & Hh0 & Hn0 & _).
  change (pk (new_expense hub sup amt rate d)) with (@None ident) in Hpk0.
  change (hub_id (new_expense hub sup amt rate d)) with hub in Hh0.
  change (expense_number (new_expense hub sup amt rate d)) with EmptyString in Hn0.
  pose proof (assign_number_frame now db e0) as Hf.
  pose proof (assign_number_fresh now db e0 Hn0) as Hnum.
  destruct (assign_number now db e0) as [e2 db2]. cbn [fst snd] in Hf, Hnum.
  cbv zeta in Hf.
  destruct Hf as (Hpk & Hh & _ & _ & _ & _ & _ & _ & _ & _ & _ & Hx & _ & Hset).
  rewrite Hpk0 in Hpk. rewrite Hh0 in Hh, Hnum. rewrite get_settings_fst in Hnum.
  destruct (get_settings_tables db hub) as [Hxs _].
  rewrite generate_expense_number_four_digits in Hnum
    by (apply (four_digit_numbers_ext db); assumption).
  rewrite (numbered_under_ext db _ hub _ Hxs) in Hnum. fold key n in Hnum.
  unfold Model_save. rewrite Hpk.
  eexists _, _, (fresh (dom (expenses_tbl db2))).
  split; [reflexivity |]. cbn [expense_number hub_id pk set_pk].
  split; [exact Hnum |]. split; [exact Hh |]. split; [reflexivity |].
  split; [rewrite Hx; apply not_elem_of_dom, is_fresh |].
  split; [cbn; rewrite Hx; reflexivity | exact Hset].
Qed.

(** Two expenses created one after the other, the same tenant, day and
    prefix, in a hub whose numbers under the key have four digits and
    whose next sequence [n] has four digits too: the first gets [n], the
    second [n + 1] (which may be 10000), and the numbers differ. *)
Lemma sequential_numbers_four_digits (now : datetime) (db : DB) (hub : ident)
  (sup1 sup2 : option ident) (amt1 rate1 amt2 rate2 : Dec.Decimal) (d1 d2 : date) :
  let key := numbering_prefix (settings_from_db (settings_row db hub))
             +:+ "-" +:+ strftime_Ymd now in
  let n := spec_next_sequence (expense_number <$> numbered_under db hub key) in
  four_digit_numbers db hub key -> n <= 9999 ->
  exists e1 db1 e2 db2,
    create now db hub sup1 amt1 rate1 d1 = Some (e1, db1) /\
    create now db1 hub sup2 amt2 rate2 d2 = Some (e2, db2) /\
    expense_number e1 = key +:+ "-" +:+ Py.format_0d 4 n /\
    expense_number e2 = key +:+ "-" +:+ Py.format_0d 4 (n + 1) /\
    suffix_of (expense_number e1) = n /\
    suffix_of (expense_number e2) = n + 1 /\
    expense_number e1 <> expense_number e2.
Proof.
  intros key n Hwf Hn.
  pose proof (four_digit_numbers_pos db hub key Hwf) as Hpos. fold n in Hpos.
  destruct (create_four_digits now db hub sup1 amt1 rate1 d1 Hwf)
    as (e1 & db1 & id1 & Hc1 & Hn1 & Hh1 & Hpk1 & Hfresh & Hx1 & Hset1).
  fold key n in Hn1.
  assert (Hrows : forall k r, expenses_tbl db1 !! k = Some r ->
                    r = to_db e1 \/ expenses_tbl db !! k = Some r).
  { intros k r. rewrite Hx1, lookup_insert_Some. intros [[_ <-] | [_ Hr]]; tauto. }
  assert (Hwf1 : four_digit_numbers db1 hub key).
  { intros k r Hr Hh Hp. destruct (Hrows k r Hr) as [-> | Hold].
    - change (expense_number (to_db e1)) with (expense_number e1). rewrite Hn1.
      apply four_digit_number_format. lia.
    - exact (Hwf k r Hold Hh Hp). }
  assert (Hnext : spec_next_sequence (expense_number <$> numbered_under db1 hub key)
                  = n + 1).
  { apply spec_next_sequence_highest.
    - exists (expense_number e1). split.
      + apply (list_elem_of_fmap_2' expense_number _ (to_db e1)); [| reflexivity].
        apply elem_of_numbered_under. split; [exists id1 |].
        * rewrite Hx1. apply lookup_insert_eq.
        * split; [exact Hh1 |].
          change (expense_number (to_db e1)) with (expense_number e1).
          rewrite Hn1. apply prefix_append.
      + rewrite Hn1. apply trailing_sequence_format. lia.
    - intros s x Hs Hx. apply list_elem_of_fmap in Hs as (r & -> & Hr).
      apply elem_of_numbered_under in Hr as ([k Hk] & Hh & Hp).
      destruct (Hrows k r Hk) as [-> | Hold].
      + change (expense_number (to_db e1)) with (expense_number e1) in Hx.
        rewrite Hn1, trailing_sequence_format in Hx by lia. injection Hx as <-. lia.
      + assert (Hlt : x < n); [| lia].
        apply (spec_next_sequence_bound _ (expense_number r)); [| exact Hx].
        apply list_elem_of_fmap_2, elem_of_numbered_under. eauto. }
  pose proof (create_four_digits now db1 hub sup2 amt2 rate2 d2) as Hc2.
  cbv zeta in Hc2. rewrite (Hset1 hub) in Hc2. fold key in Hc2.
  rewrite Hnext in Hc2.
  destruct (Hc2 Hwf1) as (e2 & db2 & id2 & Hc2' & Hn2 & _).
  exists e1, db1, e2, db2.
  assert (Hs1 : suffix_of (expense_number e1) = n).
  { unfold suffix_of. rewrite Hn1, trailing_sequence_format by lia. reflexivity. }
  assert (Hs2 : suffix_of (expense_number e2) = n + 1).
  { unfold suffix_of. rewrite Hn2, trailing_sequence_format by lia. reflexivity. }
  repeat split; try assumption.
  intros Heq. rewrite Heq in Hs1. lia.
Qed.

(** * Further properties *)

(** ** Numbers that read back *)

Lemma digits_nonneg (s : string) :
  forall acc b n, 0 <= acc -> Py.digits s acc b = Some n -> 0 <= n.
Proof.
  induction s as [| c s IH]; intros acc b n Hacc; cbn [Py.digits].
  - destruct b; [intros [= <-]; exact Hacc | discriminate].
  - destruct (Py.is_digit c) eqn:Hd.
    + apply is_digit_code in Hd. apply IH. unfold Py.digit_val. lia.
    + destruct (Ascii.eqb c "_" && b); [apply IH; exact Hacc | discriminate].
Qed.

Lemma lstrip_dash_free (s : string) :
  dash_free s = true -> dash_free (Py.lstrip s) = true.
Proof.
  induction s as [| c s IH]; [reflexivity |].
  cbn [Py.lstrip]. destruct (Py.is_space c); [| tauto].
  cbn [dash_free]. rewrite andb_true_iff. intros [_ Hs]. apply IH, Hs.
Qed.

Lemma rstrip_dash_free (s : string) :
  dash_free s = true -> dash_free (Py.rstrip s) = true.
Proof.
  induction s as [| c s IH]; [reflexivity |].
  cbn [dash_free Py.rstrip]. rewrite andb_true_iff. intros [Hc Hs].
  specialize (IH Hs). destruct (Py.rstrip s) as [| c' t].
  - destruct (Py.is_space c); [reflexivity |]. cbn [dash_free]. rewrite Hc. reflexivity.
  - change (dash_free (String c (String c' t)))
      with (negb (Ascii.eqb c "-") && dash_free (String c' t)).
    rewrite Hc, IH. reflexivity.
Qed.

(** [int] of a string without a dash has no minus sign to read. *)
Lemma py_int_nonneg (s : string) (n : Z) :
  dash_free s = true -> Py.int s = Some n -> 0 <= n.
Proof.
  intros Hs. unfold Py.int, Py.strip.
  pose proof (rstrip_dash_free _ (lstrip_dash_free s Hs)) as Hd.
  destruct (Py.rstrip (Py.lstrip s)) as [| c t]; [discriminate |].
  cbn [dash_free] in Hd. apply andb_true_iff in Hd as [Hc _].
  destruct c as [[] [] [] [] [] [] [] []];
    try (vm_compute in Hc; discriminate); apply digits_nonneg; lia.
Qed.

Lemma split_dash_free (s : string) :
  forall seg, seg ∈ Py.split "-" s -> dash_free seg = true.
Proof.
  induction s as [| c s IH]; intros seg; cbn [Py.split].
  - intros Hin. apply elem_of_cons in Hin as [-> | Hin]; [reflexivity | inversion Hin].
  - destruct (Ascii.eqb c "-") eqn:Hc.
    + intros Hin. apply elem_of_cons in Hin as [-> | Hin]; [reflexivity | apply IH, Hin].
    + destruct (Py.split "-" s) as [| seg0 segs].
      * intros Hin. apply elem_of_cons in Hin as [-> | Hin]; [| inversion Hin].
        cbn [dash_free]. rewrite Hc. reflexivity.
      * intros Hin. apply elem_of_cons in Hin as [-> | Hin].
        -- cbn [dash_free]. rewrite Hc. apply IH, list_elem_of_here.
        -- apply IH, list_elem_of_further, Hin.
Qed.

Lemma last_elem_of {A} (l : list A) (x : A) : last l = Some x -> x ∈ l.
Proof.
  induction l as [| y l IH]; [discriminate |].
  destruct l as [| z l]; [intros [= <-]; apply list_elem_of_here |].
  intros Hl. apply list_elem_of_further, IH. exact Hl.
Qed.

Lemma trailing_sequence_nonneg (number : string) (n : Z) :
  trailing_sequence number = Some n -> 0 <= n.
Proof.
  unfold trailing_sequence, Py.last_item.
  destruct (last (Py.split "-" number)) as [seg |] eqn:Hl; [| discriminate].
  apply last_elem_of, split_dash_free in Hl. simpl. apply py_int_nonneg, Hl.
Qed.

(** X1.  Whatever the database holds, the number that
    [generate_expense_number] returns is the key, a dash and a sequence of
    at least 1 written in digits, and the code's own reading of a number
    (the part after the last dash, as an integer) gives that sequence
    back: a generated number never sends the generator back to 1. *)
Theorem generated_number_reads_back (now : datetime) (db : DB) (hub : ident)
  (prefix : string) :
  exists seq,
    1 <= seq /\
    generate_expense_number now db hub prefix
    = (prefix +:+ "-" +:+ strftime_Ymd now) +:+ "-" +:+ Py.format_0d 4 seq /\
    all_digits (Py.format_0d 4 seq) = true /\
    (4 <= String.length (Py.format_0d 4 seq))%nat /\
    trailing_sequence (generate_expense_number now db hub prefix) = Some seq.
Proof.
  unfold generate_expense_number.
  set (key := prefix +:+ "-" +:+ strftime_Ymd now).
  match goal with
  | |- context [Py.format_0d 4 ?n] => set (seq := n)
  end.
  assert (Hseq : 1 <= seq).
  { subst seq. destruct (first_by_number_desc (numbered_under db hub key)) as [last |];
      [| lia].
    fold (trailing_sequence (expense_number last)).
    destruct (trailing_sequence (expense_number last)) as [n |] eqn:Ht; [| lia].
    apply trailing_sequence_nonneg in Ht. lia. }
  exists seq. split; [exact Hseq |]. split; [reflexivity |].
  destruct (format_0d_spec 4 seq ltac:(lia)) as (Ha & _ & _ & Hlen).
  split; [exact Ha |]. split; [rewrite Hlen; lia |].
  apply trailing_sequence_format. lia.
Qed.

(** *** The match of the lookup *)

Lemma code_inj (a b : ascii) : Py.code a = Py.code b -> a = b.
Proof.
  unfold Py.code. intros H. apply N2Z.inj in H.
  rewrite <- (ascii_N_embedding a), <- (ascii_N_embedding b), H. reflexivity.
Qed.

Lemma code_ascii_lower (c : ascii) :
  Py.code (ascii_lower c)
  = if (65 <=? Py.code c) && (Py.code c <=? 90) then Py.code c + 32 else Py.code c.
Proof.
  unfold ascii_lower.
  destruct ((65 <=? Py.code c) && (Py.code c <=? 90)) eqn:Hup; [| reflexivity].
  apply andb_true_iff in Hup as [H1 H2]. apply Z.leb_le in H1, H2.
  unfold Py.code at 1. rewrite N_ascii_embedding by lia. lia.
Qed.

Lemma ascii_lower_eq (a b : ascii) :
  ascii_lower a = ascii_lower b <-> same_letter a b.
Proof.
  unfold same_letter. split.
  - intros H. apply (f_equal Py.code) in H. rewrite !code_ascii_lower in H.
    destruct (Z.leb_spec 65 (Py.code a)), (Z.leb_spec (Py.code a) 90),
      (Z.leb_spec 65 (Py.code b)), (Z.leb_spec (Py.code b) 90);
      cbn [andb] in H;
      first [left; apply code_inj; lia | right; left; lia | right; right; lia].
  - intros H. apply code_inj. rewrite !code_ascii_lower.
    destruct H as [-> | [[Ha Hb] | [Hb Ha]]]; [reflexivity | |].
    + destruct (Z.leb_spec 65 (Py.code a)), (Z.leb_spec (Py.code a) 90),
        (Z.leb_spec 65 (Py.code b)), (Z.leb_spec (Py.code b) 90);
        cbn [andb]; lia.
    + destruct (Z.leb_spec 65 (Py.code a)), (Z.leb_spec (Py.code a) 90),
        (Z.leb_spec 65 (Py.code b)), (Z.leb_spec (Py.code b) 90);
        cbn [andb]; lia.
Qed.

Lemma same_up_to_case_refl (s : string) : same_up_to_case s s.
Proof.
  induction s as [| c s IH]; cbn [same_up_to_case]; [exact I |].
  split; [left; reflexivity | exact IH].
Qed.

Lemma prefix_iff (p : string) :
  forall s, String.prefix p s = true <-> exists tail, s = p +:+ tail.
Proof.
  induction p as [| a p IH]; intros s.
  - split; [intros _; exists s; reflexivity | intros _; destruct s; reflexivity].
  - destruct s as [| b s]; cbn [String.prefix].
    + split; [discriminate | intros [tail Ht]; discriminate].
    + destruct (ascii_dec a b) as [-> | Hne].
      * rewrite IH. split; intros [tail Ht]; exists tail.
        -- rewrite Ht. reflexivity.
        -- change (String b s = String b (p +:+ tail)) in Ht. congruence.
      * split; [discriminate | intros [tail Ht]].
        change (String b s = String a (p +:+ tail)) in Ht. congruence.
Qed.

Lemma prefix_lower_iff (p : string) :
  forall s, String.prefix (lower p) (lower s) = true <->
            exists head tail, s = head +:+ tail /\ same_up_to_case p head.
Proof.
  induction p as [| a p IH]; intros s.
  - split.
    + intros _. exists "", s. split; [reflexivity | exact I].
    + intros _. cbn [lower]. destruct (lower s); reflexivity.
  - destruct s as [| b s]; cbn [lower String.prefix].
    + split; [discriminate | intros (head & tail & Hs & Hsame)].
      destruct head; [destruct Hsame | discriminate].
    + destruct (ascii_dec (ascii_lower a) (ascii_lower b)) as [Heq | Hne].
      * rewrite IH. apply ascii_lower_eq in Heq. split.
        -- intros (head & tail & -> & Hsame). exists (String b head), tail.
           split; [reflexivity | split; assumption].
        -- intros (head & tail & Hs & Hsame). destruct head as [| b' head];
             [destruct Hsame |].
           change (String b s = String b' (head +:+ tail)) in Hs.
           injection Hs as <- ->. exists head, tail. split; [reflexivity | apply Hsame].
      * split; [discriminate | intros (head & tail & Hs & Hsame)].
        destruct head as [| b' head]; [destruct Hsame |].
        change (String b s = String b' (head +:+ tail)) in Hs.
        injection Hs as <- ->. destruct Hsame as [Hl _].
        apply ascii_lower_eq in Hl. contradiction.
Qed.

(** The match of the backend is the match of the specification. *)
Lemma startswith_spec (sqlite : bool) (s key : string) :
  startswith sqlite s key = true <-> matches_key sqlite key s.
Proof.
  unfold startswith, matches_key. destruct sqlite.
  - apply prefix_lower_iff.
  - rewrite prefix_iff. split.
    + intros [tail ->]. exists key, tail. split; reflexivity.
    + intros (head & tail & -> & ->). exists tail. reflexivity.
Qed.

(** What starts with the key in exact case matches on either backend. *)
Lemma prefix_startswith (sqlite : bool) (s key : string) :
  String.prefix key s = true -> startswith sqlite s key = true.
Proof.
  intros Hp. apply startswith_spec. apply prefix_iff in Hp as [tail ->].
  exists key, tail. split; [reflexivity |].
  destruct sqlite; [apply same_up_to_case_refl | reflexivity].
Qed.

Lemma elem_of_numbered_under_on (sqlite : bool) (db : DB) (hub : ident)
  (key : string) (r : ExpenseRow) :
  r ∈ numbered_under_on sqlite db hub key <->
  (exists k, expenses_tbl db !! k = Some r) /\
  hub_id r = hub /\ startswith sqlite (expense_number r) key = true.
Proof.
  unfold numbered_under_on. rewrite list_elem_of_filter, list_elem_of_fmap. split.
  - intros [Hp ([k r0] & -> & Hin)]. apply elem_of_map_to_list in Hin. eauto.
  - intros [[k Hk] Hp]. split; [exact Hp |].
    exists (k, r). split; [reflexivity |]. apply elem_of_map_to_list. exact Hk.
Qed.

(** On a backend that compares in exact case the definitions of this
    section are the ones of the model above. *)
Lemma generate_expense_number_on_exact_case (now : datetime) (db : DB) (hub : ident)
  (prefix : string) :
  generate_expense_number_on false now db hub prefix
  = generate_expense_number now db hub prefix.
Proof. reflexivity. Qed.

Lemma create_on_exact_case (now : datetime) (db : DB) (hub : ident)
  (sup : option ident) (amt rate : Dec.Decimal) (d : date) :
  create_on false now db hub sup amt rate d = create now db hub sup amt rate d.
Proof. reflexivity. Qed.

(** Where every number of the hub that the backend matches starts with
    the key in exact case, the lookup selects the same rows on either
    backend. *)
Lemma numbered_under_on_exact (sqlite : bool) (db : DB) (hub : ident) (key : string) :
  (forall k r, expenses_tbl db !! k = Some r -> hub_id r = hub ->
               startswith sqlite (expense_number r) key = true ->
               String.prefix key (expense_number r) = true) ->
  numbered_under_on sqlite db hub key = numbered_under db hub key.
Proof.
  intros Hexact. unfold numbered_under_on, numbered_under.
  assert (Hall : forall kr, kr ∈ map_to_list (expenses_tbl db) ->
                   hub_id (snd kr) = hub ->
                   (startswith sqlite (expense_number (snd kr)) key = true <->
                    String.prefix key (expense_number (snd kr)) = true)).
  { intros [k r] Hin Hh. apply elem_of_map_to_list in Hin. cbn [snd] in *.
    split; [apply (Hexact k r Hin Hh) | apply prefix_startswith]. }
  induction (map_to_list (expenses_tbl db)) as [| kr l IH]; [reflexivity |].
  rewrite fmap_cons, !filter_cons.
  rewrite IH by (intros kr' Hin; apply Hall, list_elem_of_further, Hin).
  pose proof (Hall kr (list_elem_of_here _ _)) as Hkr.
  repeat case_decide; try reflexivity; exfalso; tauto.
Qed.

Lemma generate_expense_number_on_exact (sqlite : bool) (now : datetime) (db : DB)
  (hub : ident) (prefix : string) :
  (forall k r, expenses_tbl db !! k = Some r -> hub_id r = hub ->
               startswith sqlite (expense_number r)
                 (prefix +:+ "-" +:+ strftime_Ymd now) = true ->
               String.prefix (prefix +:+ "-" +:+ strftime_Ymd now)
                 (expense_number r) = true) ->
  generate_expense_number_on sqlite now db hub prefix
  = generate_expense_number now db hub prefix.
Proof.
  intros Hexact. unfold generate_expense_number_on, generate_expense_number.
  rewrite (numbered_under_on_exact sqlite db hub _ Hexact). reflexivity.
Qed.

Lemma create_on_exact (sqlite : bool) (now : datetime) (db : DB) (hub : ident)
  (sup : option ident) (amt rate : Dec.Decimal) (d : date) :
  let key := numbering_prefix (settings_from_db (settings_row db hub))
             +:+ "-" +:+ strftime_Ymd now in
  (forall k r, expenses_tbl db !! k = Some r -> hub_id r = hub ->
               startswith sqlite (expense_number r) key = true ->
               String.prefix key (expense_number r) = true) ->
  create_on sqlite now db hub sup amt rate d = create now db hub sup amt rate d.
Proof.
  intros key Hexact. unfold create_on, create, Expense_save_on, Expense_save.
  assert (Ha : assign_number_on sqlite now db
                 (calculate_amounts (new_expense hub sup amt rate d))
               = assign_number now db
                   (calculate_amounts (new_expense hub sup amt rate d))).
  { unfold assign_number_on, assign_number.
    destruct (String.eqb _ ""); [| reflexivity].
    replace (hub_id (calculate_amounts (new_expense hub sup amt rate d))) with hub
      by (symmetry; apply calculate_amounts_frame).
    pose proof (get_settings_fst db hub) as Hfst.
    pose proof (get_settings_tables db hub) as [Hx _].
    destruct (get_settings db hub) as [settings db1]. cbn [fst snd] in Hfst, Hx.
    subst settings. rewrite generate_expense_number_on_exact; [reflexivity |].
    rewrite Hx. exact Hexact. }
  rewrite Ha. reflexivity.
Qed.

(** What [generate_expense_number] returns on either backend, in the
    terms of the backend's match. *)
Lemma generate_expense_number_on_spec (sqlite : bool) (now : datetime) (db : DB)
  (hub : ident) (prefix : string) :
  let key := prefix +:+ "-" +:+ strftime_Ymd now in
  exists seq,
    generate_expense_number_on sqlite now db hub prefix
    = key +:+ "-" +:+ Py.format_0d 4 seq /\
    ((seq = 1 /\ forall k r, expenses_tbl db !! k = Some r -> hub_id r = hub ->
                             startswith sqlite (expense_number r) key = false)
     \/
     exists k last,
       expenses_tbl db !! k = Some last /\ hub_id last = hub /\
       startswith sqlite (expense_number last) key = true /\
       (forall k' r, expenses_tbl db !! k' = Some r -> hub_id r = hub ->
                     startswith sqlite (expense_number r) key = true ->
                     String.leb (expense_number r) (expense_number last) = true) /\
       seq = match trailing_sequence (expense_number last) with
             | Some n => n + 1
             | None => 1
             end).
Proof.
  intros key. unfold generate_expense_number_on. fold key.
  pose proof (first_by_number_desc_spec (numbered_under_on sqlite db hub key)) as Hspec.
  destruct (first_by_number_desc (numbered_under_on sqlite db hub key)) as [last |].
  - destruct Hspec as [Hin Hmax].
    apply elem_of_numbered_under_on in Hin as ([k Hk] & Hh & Hp).
    eexists. split; [reflexivity |]. right. exists k, last.
    repeat split; try assumption.
    intros k' r Hr Hhr Hpr. apply Hmax, elem_of_numbered_under_on. eauto.
  - exists 1. split; [reflexivity |]. left. split; [reflexivity |].
    intros k r Hr Hh. destruct (startswith sqlite (expense_number r) key) eqn:Hp;
      [| reflexivity].
    assert (Hin : r ∈ numbered_under_on sqlite db hub key)
      by (apply elem_of_numbered_under_on; eauto).
    rewrite Hspec in Hin. inversion Hin.
Qed.

(** X2.  On either backend and for every database,
    [generate_expense_number] takes as the last number one that is
    greatest in the order of strings among the numbers of the hub that
    start with the key as the backend matches it (in exact case, or up
    to the case of ASCII letters on SQLite), deleted rows included, and
    returns one more than the integer after its last dash; it returns
    sequence 1 when that part is no integer or when the hub has no number
    that matches.  Numbers of other hubs play no part. *)
Theorem numbering_follows_greatest_string (sqlite : bool) (now : datetime) (db : DB)
  (hub : ident) (prefix : string) :
  let key := prefix +:+ "-" +:+ strftime_Ymd now in
  exists seq,
    generate_expense_number_on sqlite now db hub prefix
    = key +:+ "-" +:+ Py.format_0d 4 seq /\
    ((seq = 1 /\ forall k r, expenses_tbl db !! k = Some r -> hub_id r = hub ->
                             ~ matches_key sqlite key (expense_number r))
     \/
     exists k last,
       expenses_tbl db !! k = Some last /\ hub_id last = hub /\
       matches_key sqlite key (expense_number last) /\
       (forall k' r, expenses_tbl db !! k' = Some r -> hub_id r = hub ->
                     matches_key sqlite key (expense_number r) ->
                     String.leb (expense_number r) (expense_number last) = true) /\
       seq = match trailing_sequence (expense_number last) with
             | Some n => n + 1
             | None => 1
             end).
Proof.
  intros key.
  destruct (generate_expense_number_on_spec sqlite now db hub prefix)
    as (seq & Hgen & Hseq).
  fold key in Hgen, Hseq. exists seq. split; [exact Hgen |].
  destruct Hseq as [[-> Hnone] | (k & last & Hk & Hh & Hp & Hmax & ->)].
  - left. split; [reflexivity |]. intros k r Hk Hh Hm.
    apply startswith_spec in Hm. rewrite (Hnone k r Hk Hh) in Hm. discriminate.
  - right. exists k, last. split; [exact Hk |]. split; [exact Hh |].
    split; [apply startswith_spec, Hp |]. split; [| reflexivity].
    intros k' r Hk' Hh' Hm. apply (Hmax k' r Hk' Hh'), startswith_spec, Hm.
Qed.

(** The lookup of SQLite at work: in a hub that holds exp-20260105-0002
    and EXP-20260105-0003, a backend that compares in exact case numbers
    the next expense 0004, while SQLite also matches the number in small
    letters, which is greatest as a string, and gives 0003 again. *)
Lemma lookup_ignores_case_on_sqlite :
  generate_expense_number_on false noon mixed_case_db 1 "EXP" = "EXP-20260105-0004" /\
  generate_expense_number_on true noon mixed_case_db 1 "EXP" = "EXP-20260105-0003".
Proof. split; vm_compute; reflexivity. Qed.

Lemma suffix_of_four_digits (key number : string) :
  four_digit_number key number ->
  exists d, number = key +:+ "-" +:+ d /\ all_digits d = true /\
            String.length d = 4%nat /\
            trailing_sequence number = Some (digits_value d) /\
            suffix_of number = digits_value d /\ 0 <= digits_value d <= 9999.
Proof.
  intros (d & -> & Hd & Hl). exists d.
  assert (Hne : d <> "") by (intros ->; discriminate).
  pose proof (trailing_sequence_digits key d Hd Hne) as Ht.
  pose proof (digits_value_bounds d Hd) as Hb. rewrite Hl in Hb.
  change (10 ^ Z.of_nat 4) with 10000 in Hb.
  repeat split; try assumption; try lia.
  unfold suffix_of. rewrite Ht. reflexivity.
Qed.

(** Where the numbers that the backend matches all are the key, a dash
    and four digits, the generated sequence is one plus the highest of
    their trailing integers. *)
Lemma next_sequence_four_digits (sqlite : bool) (now : datetime) (db : DB)
  (hub : ident) (prefix : string) :
  let key := prefix +:+ "-" +:+ strftime_Ymd now in
  (forall k r, expenses_tbl db !! k = Some r -> hub_id r = hub ->
               matches_key sqlite key (expense_number r) ->
               four_digit_number key (expense_number r)) ->
  exists n,
    generate_expense_number_on sqlite now db hub prefix
    = key +:+ "-" +:+ Py.format_0d 4 n /\
    next_after_highest sqlite db hub key n /\ 1 <= n <= 10000.
Proof.
  intros key Hwf.
  destruct (generate_expense_number_on_spec sqlite now db hub prefix)
    as (seq & Hgen & Hseq).
  fold key in Hgen, Hseq. exists seq. split; [exact Hgen |].
  destruct Hseq as [[-> Hnone] | (k & last & Hk & Hh & Hp & Hmax & ->)].
  - split; [| lia]. left. split; [reflexivity |]. intros k r Hk Hh Hm.
    apply startswith_spec in Hm. rewrite (Hnone k r Hk Hh) in Hm. discriminate.
  - apply startswith_spec in Hp.
    destruct (suffix_of_four_digits key _ (Hwf k last Hk Hh Hp))
      as (dl & Hnl & Hdl & Hll & Htl & Hsl & Hbl).
    rewrite Htl. split; [| lia]. right. exists k, last.
    split; [exact Hk |]. split; [exact Hh |]. split; [exact Hp |].
    split; [rewrite Hsl; reflexivity |].
    intros k' r Hk' Hh' Hm.
    destruct (suffix_of_four_digits key _ (Hwf k' r Hk' Hh' Hm))
      as (dr & Hnr & Hdr & Hlr & _ & Hsr & _).
    rewrite Hsr, Hsl. apply (four_digit_leb key dr dl); try congruence.
    rewrite <- Hnr, <- Hnl. apply (Hmax k' r Hk' Hh'), startswith_spec, Hm.
Qed.

(** X3.  On either backend, in a hub whose numbers that match the day's
    key (on SQLite: up to the case of ASCII letters) all are the key
    itself, a dash and four digits, the generated sequence is one plus
    the highest trailing integer of those numbers, and 1 when there is
    none: there the order of strings and the order of numbers agree.
    The result may be 10000, after 9999. *)
Theorem numbering_four_digits_takes_highest (sqlite : bool) (now : datetime) (db : DB)
  (hub : ident) (prefix : string) :
  let key := prefix +:+ "-" +:+ strftime_Ymd now in
  (forall k r, expenses_tbl db !! k = Some r -> hub_id r = hub ->
               matches_key sqlite key (expense_number r) ->
               four_digit_number key (expense_number r)) ->
  exists n,
    generate_expense_number_on sqlite now db hub prefix
    = key +:+ "-" +:+ Py.format_0d 4 n /\
    1 <= n <= 10000 /\
    ((n = 1 /\
      forall k r, expenses_tbl db !! k = Some r -> hub_id r = hub ->
                  ~ matches_key sqlite key (expense_number r))
     \/
     (exists k last,
        expenses_tbl db !! k = Some last /\ hub_id last = hub /\
        matches_key sqlite key (expense_number last) /\
        n = suffix_of (expense_number last) + 1 /\
        forall k' r, expenses_tbl db !! k' = Some r -> hub_id r = hub ->
                     matches_key sqlite key (expense_number r) ->
                     suffix_of (expense_number r) <= suffix_of (expense_number last))).
Proof.
  intros key Hwf.
  destruct (next_sequence_four_digits sqlite now db hub prefix Hwf)
    as (n & Hgen & Hnext & Hb).
  exists n. split; [exact Hgen |]. split; [exact Hb | exact Hnext].
Qed.

Lemma busy_db_rows (k : ident) (r : ExpenseRow) :
  expenses_tbl busy_db !! k = Some r ->
  four_digit_number "EXP-20260105" (expense_number r) /\
  suffix_of (expense_number r) <= 9999.
Proof.
  intros Hr. unfold busy_db in Hr. cbn [expenses_tbl] in Hr.
  apply lookup_insert_Some in Hr as [[_ <-] | [_ Hr]].
  { split; [exists "9999"; repeat split | vm_compute; discriminate]. }
  apply lookup_insert_Some in Hr as [[_ <-] | [_ Hr]].
  { split; [exists "9998"; repeat split | vm_compute; discriminate]. }
  rewrite lookup_empty in Hr. discriminate.
Qed.

Lemma numbering_four_digits_takes_highest_witness :
  generate_expense_number_on true noon busy_db 1 "EXP" = "EXP-20260105-10000".
Proof.
  destruct (numbering_four_digits_takes_highest true noon busy_db 1 "EXP")
    as (n & Hgen & Hb & Hnext).
  { intros k r Hr _ _. apply (busy_db_rows k r Hr). }
  assert (Hn : n = 10000).
  { destruct Hnext as [[_ Hnone] | (k & last & Hk & _ & _ & -> & Hmax)].
    - exfalso. apply (Hnone 2%positive (numbered_row "EXP-20260105-9999"));
        [reflexivity | reflexivity |].
      apply startswith_spec. reflexivity.
    - assert (H9 : suffix_of "EXP-20260105-9999" <= suffix_of (expense_number last)).
      { apply (Hmax 2%positive (numbered_row "EXP-20260105-9999"));
          [reflexivity | reflexivity |].
        apply startswith_spec. reflexivity. }
      change (suffix_of "EXP-20260105-9999") with 9999 in H9.
      pose proof (busy_db_rows k last Hk) as [_ Hle]. lia. }
  rewrite Hgen, Hn. reflexivity.
Defined.

(** X4.  Two expenses created one after the other for the same tenant,
    day and prefix, on either backend, in a hub whose numbers that match
    the key (on SQLite: up to the case of ASCII letters) all are the key
    itself, a dash and four digits: the first gets the sequence [n] that
    is one plus the highest trailing integer of those numbers (1 when
    there is none), and when [n] is at most 9999 the second gets
    [n + 1], read from their numbers by the code's own parsing, and the
    two numbers differ. *)
Theorem creations_number_consecutively (sqlite : bool) (now : datetime) (db : DB)
  (hub : ident) (sup1 sup2 : option ident) (amt1 rate1 amt2 rate2 : Dec.Decimal)
  (d1 d2 : date) :
  let key := numbering_prefix (settings_from_db (settings_row db hub))
             +:+ "-" +:+ strftime_Ymd now in
  (forall k r, expenses_tbl db !! k = Some r -> hub_id r = hub ->
               matches_key sqlite key (expense_number r) ->
               four_digit_number key (expense_number r)) ->
  exists n e1 db1,
    next_after_highest sqlite db hub key n /\
    create_on sqlite now db hub sup1 amt1 rate1 d1 = Some (e1, db1) /\
    expense_number e1 = key +:+ "-" +:+ Py.format_0d 4 n /\
    suffix_of (expense_number e1) = n /\
    (n <= 9999 ->
     exists e2 db2,
       create_on sqlite now db1 hub sup2 amt2 rate2 d2 = Some (e2, db2) /\
       expense_number e2 = key +:+ "-" +:+ Py.format_0d 4 (n + 1) /\
       suffix_of (expense_number e2) = n + 1 /\
       expense_number e1 <> expense_number e2).
Proof.
  intros key Hwf.
  set (prefix := numbering_prefix (settings_from_db (settings_row db hub))) in *.
  assert (Hexact : forall k r, expenses_tbl db !! k = Some r -> hub_id r = hub ->
                     startswith sqlite (expense_number r) key = true ->
                     String.prefix key (expense_number r) = true).
  { intros k r Hk Hh Hm. apply startswith_spec in Hm.
    destruct (Hwf k r Hk Hh Hm) as (d & -> & _). apply prefix_append. }
  assert (Hwf0 : four_digit_numbers db hub key).
  { intros k r Hk Hh Hp. apply (Hwf k r Hk Hh), startswith_spec, prefix_startswith, Hp. }
  destruct (next_sequence_four_digits sqlite now db hub prefix Hwf)
    as (n & Hgen & Hnext & Hb).
  fold key in Hgen.
  rewrite (generate_expense_number_on_exact sqlite now db hub prefix Hexact) in Hgen.
  pose proof (generate_expense_number_four_digits now db hub prefix Hwf0) as Hgen0.
  cbv zeta in Hgen0. fold key in Hgen0.
  set (n0 := spec_next_sequence (expense_number <$> numbered_under db hub key)) in *.
  pose proof (four_digit_numbers_pos db hub key Hwf0) as Hpos0. fold n0 in Hpos0.
  assert (Hn : n0 = n).
  { rewrite Hgen0 in Hgen. apply (f_equal trailing_sequence) in Hgen.
    rewrite !trailing_sequence_format in Hgen by lia. congruence. }
  destruct (create_four_digits now db hub sup1 amt1 rate1 d1 Hwf0)
    as (e1 & db1 & id1 & Hc1 & Hn1 & Hh1 & Hpk1 & Hfree & Hx1 & Hset1).
  fold prefix in Hn1. fold key in Hn1. fold n0 in Hn1. rewrite Hn in Hn1.
  exists n, e1, db1. split; [exact Hnext |].
  split; [rewrite (create_on_exact sqlite now db hub sup1 amt1 rate1 d1 Hexact);
          exact Hc1 |].
  split; [exact Hn1 |].
  split; [unfold suffix_of; rewrite Hn1, trailing_sequence_format by lia; reflexivity |].
  intros Hle.
  destruct (sequential_numbers_four_digits now db hub sup1 sup2 amt1 rate1 amt2 rate2
              d1 d2 Hwf0) as (e1' & db1' & e2 & db2 & Hc1' & Hc2 & _ & Hn2 & _ & Hs2 & Hne).
  { fold prefix. fold key. fold n0. lia. }
  rewrite Hc1 in Hc1'. injection Hc1' as <- <-.
  fold prefix in Hn2, Hs2. fold key in Hn2, Hs2. fold n0 in Hn2, Hs2.
  rewrite Hn in Hn2, Hs2.
  exists e2, db2. split; [| split; [exact Hn2 | split; [exact Hs2 | exact Hne]]].
  rewrite <- Hc2. apply create_on_exact. rewrite Hset1. fold prefix. fold key.
  intros k r Hk Hh Hm. rewrite Hx1 in Hk.
  apply lookup_insert_Some in Hk as [[_ <-] | [_ Hk]]; [| exact (Hexact k r Hk Hh Hm)].
  change (expense_number (to_db e1)) with (expense_number e1).
  rewrite Hn1. apply prefix_append.
Qed.

Lemma late_db_rows (k : ident) (r : ExpenseRow) :
  expenses_tbl late_db !! k = Some r ->
  four_digit_number "EXP-20260105" (expense_number r) /\
  suffix_of (expense_number r) <= 9998.
Proof.
  intros Hr. unfold late_db in Hr. cbn [expenses_tbl] in Hr.
  apply lookup_insert_Some in Hr as [[_ <-] | [_ Hr]].
  { split; [exists "9998"; repeat split | vm_compute; discriminate]. }
  rewrite lookup_empty in Hr. discriminate.
Qed.

Lemma creations_number_consecutively_witness :
  exists e1 db1 e2 db2,
    create_on true noon late_db 1 None d_100_00 d_21_00 jan5 = Some (e1, db1) /\
    create_on true noon db1 1 None d_0_50 d_21_00 jan5 = Some (e2, db2) /\
    expense_number e1 = "EXP-20260105-9999" /\
    expense_number e2 = "EXP-20260105-10000".
Proof.
  destruct (creations_number_consecutively true noon late_db 1 None None
              d_100_00 d_21_00 d_0_50 d_21_00 jan5 jan5)
    as (n & e1 & db1 & _ & H1 & _ & Hs1 & Hsecond).
  { intros k r Hr _ _. apply (late_db_rows k r Hr). }
  assert (Hnum : expense_number e1 = "EXP-20260105-9999").
  { pose proof H1 as H1'. vm_compute in H1'. injection H1' as <- _. reflexivity. }
  assert (Hn : n = 9999).
  { rewrite Hnum in Hs1. rewrite <- Hs1. vm_compute. reflexivity. }
  destruct Hsecond as (e2 & db2 & H2 & Hn2 & _); [lia |].
  exists e1, db1, e2, db2. split; [exact H1 |]. split; [exact H2 |].
  split; [exact Hnum |]. rewrite Hn2, Hn. vm_compute. reflexivity.
Defined.

(** ** Deleting an expense *)

(** Two databases that hold the same numbers for a hub under a key give
    the same generated number. *)
Lemma generate_expense_number_ext (now : datetime) (db db' : DB) (hub : ident)
  (prefix : string) :
  (forall number,
     number ∈ numbers_under db hub (prefix +:+ "-" +:+ strftime_Ymd now) <->
     number ∈ numbers_under db' hub (prefix +:+ "-" +:+ strftime_Ymd now)) ->
  generate_expense_number now db hub prefix = generate_expense_number now db' hub prefix.
Proof.
  intros Hsame. unfold generate_expense_number.
  set (key := prefix +:+ "-" +:+ strftime_Ymd now) in *.
  pose proof (first_by_number_desc_spec (numbered_under db hub key)) as H1.
  pose proof (first_by_number_desc_spec (numbered_under db' hub key)) as H2.
  unfold numbers_under in Hsame.
  destruct (first_by_number_desc (numbered_under db hub key)) as [l1 |],
           (first_by_number_desc (numbered_under db' hub key)) as [l2 |].
  - destruct H1 as [Hin1 Hmax1], H2 as [Hin2 Hmax2].
    assert (Heq : expense_number l1 = expense_number l2).
    { apply String.leb_antisym.
      - assert (Hm : expense_number l1 ∈ expense_number <$> numbered_under db' hub key)
          by (apply Hsame, list_elem_of_fmap_2, Hin1).
        apply list_elem_of_fmap in Hm as (r & -> & Hr). apply Hmax2, Hr.
      - assert (Hm : expense_number l2 ∈ expense_number <$> numbered_under db hub key)
          by (apply Hsame, list_elem_of_fmap_2, Hin2).
        apply list_elem_of_fmap in Hm as (r & -> & Hr). apply Hmax1, Hr. }
    rewrite Heq. reflexivity.
  - destruct H1 as [Hin1 _].
    assert (Hm : expense_number l1 ∈ expense_number <$> numbered_under db' hub key)
      by (apply Hsame, list_elem_of_fmap_2, Hin1).
    rewrite H2 in Hm. inversion Hm.
  - destruct H2 as [Hin2 _].
    assert (Hm : expense_number l2 ∈ expense_number <$> numbered_under db hub key)
      by (apply Hsame, list_elem_of_fmap_2, Hin2).
    rewrite H1 in Hm. inversion Hm.
  - reflexivity.
Qed.

Lemma elem_of_numbers_under (db : DB) (hub : ident) (key number : string) :
  number ∈ numbers_under db hub key <->
  exists k r, expenses_tbl db !! k = Some r /\ expense_number r = number /\
              hub_id r = hub /\ String.prefix key number = true.
Proof.
  unfold numbers_under. rewrite list_elem_of_fmap. split.
  - intros (r & -> & Hr). apply elem_of_numbered_under in Hr as ([k Hk] & Hh & Hp).
    eauto 10.
  - intros (k & r & Hk & <- & Hh & Hp). exists r. split; [reflexivity |].
    apply elem_of_numbered_under. eauto.
Qed.

(** What [expense_delete] does to an expense of the tenant. *)
Lemma expense_delete_found (db : DB) (hub pk0 : ident) (r : ExpenseRow) :
  expenses_tbl db !! pk0 = Some r -> hub_id r = hub -> is_deleted r = false ->
  expense_delete db hub pk0 =
  (Json JsonSuccess,
   with_expenses (<[pk0 := set_is_deleted true r]> (expenses_tbl db)) db).
Proof.
  intros Hr Hh Hd. unfold expense_delete.
  rewrite (get_expense_found db pk0 hub r Hr Hh Hd).
  unfold Model_delete. cbn [pk set_pk]. rewrite Hr. reflexivity.
Qed.

Lemma get_expense_deleted (db : DB) (hub pk0 : ident) (r : ExpenseRow) :
  expenses_tbl db !! pk0 = Some r -> is_deleted r = true ->
  get_expense db pk0 hub = None.
Proof.
  intros Hr Hd. unfold get_expense. rewrite Hr.
  destruct (decide (hub_id r = hub /\ is_deleted r = false)) as [[_ Hf] | _];
    [congruence | reflexivity].
Qed.

(** X5.  Deleting an expense of the tenant succeeds, marks its row deleted
    and changes nothing else: the row stays in the table with all its
    other fields, and no other row, supplier or setting changes.
    Afterwards the views no longer find the expense: a second delete
    answers not found, [approve] and [mark_paid] answer their fault
    response, and none of them changes the database. *)
Theorem delete_hides_expense (now : datetime) (db : DB) (hub pk0 : ident)
  (employee : option ident) (r : ExpenseRow) :
  expenses_tbl db !! pk0 = Some r -> hub_id r = hub -> is_deleted r = false ->
  let db' := snd (expense_delete db hub pk0) in
  fst (expense_delete db hub pk0) = Json JsonSuccess /\
  expenses_tbl db' !! pk0 = Some (set_is_deleted true r) /\
  (forall k, k <> pk0 -> expenses_tbl db' !! k = expenses_tbl db !! k) /\
  suppliers_tbl db' = suppliers_tbl db /\ settings_tbl db' = settings_tbl db /\
  expense_delete db' hub pk0 = (Http404, db') /\
  expense_approve now db' hub employee pk0 = (JsonError400, db') /\
  expense_mark_paid now db' hub pk0 = (JsonError400, db').
Proof.
  intros Hr Hh Hd db'. subst db'.
  rewrite (expense_delete_found db hub pk0 r Hr Hh Hd). cbn [fst snd].
  set (db' := with_expenses (<[pk0 := set_is_deleted true r]> (expenses_tbl db)) db).
  assert (Hrow : expenses_tbl db' !! pk0 = Some (set_is_deleted true r))
    by apply lookup_insert_eq.
  assert (Hgone : get_expense db' pk0 hub = None)
    by (apply (get_expense_deleted db' hub pk0 _ Hrow); reflexivity).
  split; [reflexivity |]. split; [exact Hrow |].
  split; [intros k Hk; apply lookup_insert_ne; congruence |].
  split; [reflexivity |]. split; [reflexivity |].
  unfold expense_delete, expense_approve, expense_mark_paid. rewrite Hgone.
  repeat split.
Qed.

Lemma delete_hides_expense_witness :
  fst (expense_delete shop_db 1 3) = Json JsonSuccess /\
  expense_mark_paid noon (snd (expense_delete shop_db 1 3)) 1 3
  = (JsonError400, snd (expense_delete shop_db 1 3)).
Proof.
  destruct (delete_hides_expense noon shop_db 1 3 None
              (mkExpense (Some 3%positive) 1%positive false "EXP-20260105-0001"
                 (Some 7%positive) 10000 2100 2100 12100 jan5 draft None None None)
              eq_refl eq_refl eq_refl) as (Hok & _ & _ & _ & _ & _ & _ & Hpaid).
  split; [exact Hok | exact Hpaid].
Defined.

(** X6.  Deleting an expense does not free its number: the generator
    reads deleted rows too, so after the delete it returns, for every
    hub, prefix and day, the number it returned before. *)
Theorem delete_keeps_number_taken (now : datetime) (db : DB) (hub pk0 : ident)
  (r : ExpenseRow) (hub' : ident) (prefix : string) :
  expenses_tbl db !! pk0 = Some r -> hub_id r = hub -> is_deleted r = false ->
  generate_expense_number now (snd (expense_delete db hub pk0)) hub' prefix =
  generate_expense_number now db hub' prefix.
Proof.
  intros Hr Hh Hd. rewrite (expense_delete_found db hub pk0 r Hr Hh Hd). cbn [snd].
  apply generate_expense_number_ext. intros number.
  rewrite !elem_of_numbers_under. cbn [expenses_tbl with_expenses]. split.
  - intros (k & r0 & Hk & Hn & Hh0 & Hp).
    apply lookup_insert_Some in Hk as [[<- <-] | [Hne Hk]]; eauto 10.
  - intros (k & r0 & Hk & Hn & Hh0 & Hp).
    destruct (decide (pk0 = k)) as [<- | Hne].
    + exists pk0, (set_is_deleted true r). rewrite lookup_insert_eq.
      assert (r0 = r) by congruence. subst r0. eauto.
    + exists k, r0. rewrite lookup_insert_ne by exact Hne. eauto.
Qed.

Lemma delete_keeps_number_taken_witness :
  generate_expense_number noon (snd (expense_delete shop_db 1 3)) 1 "EXP"
  = "EXP-20260105-0002".
Proof.
  rewrite (delete_keeps_number_taken noon shop_db 1 3
             (mkExpense (Some 3%positive) 1%positive false "EXP-20260105-0001"
                (Some 7%positive) 10000 2100 2100 12100 jan5 draft None None None)
             1 "EXP" eq_refl eq_refl eq_refl).
  vm_compute. reflexivity.
Defined.

(** The sum of the totals of the rows of a list that count for a
    supplier does not depend on the order of the list. *)
Lemma paid_sum_permutation (sid : ident) (l l' : list (ident * ExpenseRow)) :
  l ≡ₚ l' ->
  foldr Z.add 0
    (total_amount <$>
       filter (fun r => supplier r = Some sid /\ is_deleted r = false /\ status r = paid)
         (snd <$> l))
  = foldr Z.add 0
      (total_amount <$>
         filter (fun r => supplier r = Some sid /\ is_deleted r = false /\ status r = paid)
           (snd <$> l')).
Proof.
  induction 1 as [| x l l' _ IH | x y l | l l' l'' _ IH1 _ IH2].
  - reflexivity.
  - rewrite !fmap_cons, !filter_cons. case_decide; [| exact IH].
    rewrite !fmap_cons. cbn [foldr]. rewrite IH. reflexivity.
  - rewrite !fmap_cons, !filter_cons.
    repeat case_decide; rewrite ?fmap_cons; cbn [foldr]; lia.
  - rewrite IH1. exact IH2.
Qed.

Lemma paid_sum_insert (db : DB) (sid pk0 : ident) (r r' : ExpenseRow) :
  expenses_tbl db !! pk0 = Some r ->
  exists rest,
    foldr Z.add 0 (total_amount <$> paid_expenses db sid)
    = (if decide (supplier r = Some sid /\ is_deleted r = false /\ status r = paid)
       then total_amount r else 0) + rest /\
    foldr Z.add 0
      (total_amount <$>
         paid_expenses (with_expenses (<[pk0 := r']> (expenses_tbl db)) db) sid)
    = (if decide (supplier r' = Some sid /\ is_deleted r' = false /\ status r' = paid)
       then total_amount r' else 0) + rest.
Proof.
  intros Hr. unfold paid_expenses. cbn [expenses_tbl with_expenses].
  set (m0 := delete pk0 (expenses_tbl db)).
  assert (Hnone : m0 !! pk0 = None) by apply lookup_delete_eq.
  assert (Hm : expenses_tbl db = <[pk0 := r]> m0).
  { unfold m0. rewrite insert_delete_eq. symmetry. apply insert_id, Hr. }
  assert (Hm' : <[pk0 := r']> (expenses_tbl db) = <[pk0 := r']> m0).
  { unfold m0. rewrite insert_delete_eq. reflexivity. }
  rewrite Hm' , Hm.
  rewrite (paid_sum_permutation sid _ _ (map_to_list_insert m0 pk0 r Hnone)).
  rewrite (paid_sum_permutation sid _ _ (map_to_list_insert m0 pk0 r' Hnone)).
  eexists. rewrite !fmap_cons, !filter_cons. cbn [snd].
  split; case_decide; rewrite ?fmap_cons; cbn [foldr]; reflexivity.
Qed.

(** X7.  Deleting a paid expense of a supplier leaves the supplier's row
    as it is: [total_spent] keeps counting the deleted expense.  The sum
    over the supplier's undeleted paid expenses drops by the total of the
    deleted one, and that lower sum is what a later [update_totals]
    stores. *)
Theorem delete_leaves_supplier_total_stale (db : DB) (hub pk0 sid : ident)
  (r : ExpenseRow) (self : Supplier) :
  expenses_tbl db !! pk0 = Some r -> hub_id r = hub -> is_deleted r = false ->
  supplier r = Some sid -> status r = paid ->
  let db' := snd (expense_delete db hub pk0) in
  suppliers_tbl db' = suppliers_tbl db /\
  foldr Z.add 0 (total_amount <$> paid_expenses db' sid) + total_amount r
  = foldr Z.add 0 (total_amount <$> paid_expenses db sid) /\
  (total_spent <$> suppliers_tbl (snd (update_totals db' sid self)) !! sid)
  = Some (foldr Z.add 0 (total_amount <$> paid_expenses db sid) - total_amount r).
Proof.
  intros Hr Hh Hd Hs Hp db'. subst db'.
  rewrite (expense_delete_found db hub pk0 r Hr Hh Hd). cbn [snd].
  destruct (paid_sum_insert db sid pk0 r (set_is_deleted true r) Hr)
    as (rest & Hbefore & Hafter).
  rewrite decide_True in Hbefore by tauto.
  rewrite decide_False in Hafter by (cbn; intros (_ & Hf & _); discriminate).
  split; [reflexivity |]. split; [lia |].
  destruct (update_totals_spec
              (with_expenses (<[pk0 := set_is_deleted true r]> (expenses_tbl db)) db)
              sid self) as (_ & _ & s' & Hrow & Htot & _).
  rewrite Hrow. cbn [fmap option_fmap option_map]. f_equal. lia.
Qed.

Lemma delete_leaves_supplier_total_stale_witness :
  let paid_db := snd (expense_mark_paid noon shop_db 1 3) in
  (total_spent <$> suppliers_tbl (snd (expense_delete paid_db 1 3)) !! 7%positive)
  = Some 12100 /\
  foldr Z.add 0 (total_amount <$> paid_expenses (snd (expense_delete paid_db 1 3)) 7) = 0.
Proof.
  set (paid_db := snd (expense_mark_paid noon shop_db 1 3)).
  destruct (delete_leaves_supplier_total_stale paid_db 1 3 7
              (mkExpense (Some 3%positive) 1%positive false "EXP-20260105-0001"
                 (Some 7%positive) 10000 2100 2100 12100 jan5 paid None None (Some noon))
              (mkSupplier Dec.zero2 None)) as (Hsup & Hsum & _);
    try (vm_compute; reflexivity).
  split.
  - rewrite Hsup. vm_compute. reflexivity.
  - assert (Hb : foldr Z.add 0 (total_amount <$> paid_expenses paid_db 7) = 12100)
      by (vm_compute; reflexivity).
    rewrite Hb in Hsum. cbn [total_amount] in Hsum. lia.
Defined.

(** ** Supplier totals and settings on their own *)

(** X8.  [update_totals], whenever it is called: the supplier's row gets
    as [total_spent] the sum of [total_amount] over the rows of the
    expenses table that are linked to this supplier, not deleted and paid
    (rows of other suppliers, deleted rows and rows of another status
    add nothing), and as [last_purchase_date] the date of one of those
    rows that none of them exceeds; where no row counts it gets 0.00 and
    no date.  What the row held before plays no part; no expense, no
    setting and no other supplier changes; and calling it a second time
    changes nothing. *)
Theorem update_totals_recomputes (db : DB) (sid : ident) (self self2 : Supplier) :
  let db' := snd (update_totals db sid self) in
  expenses_tbl db' = expenses_tbl db /\
  settings_tbl db' = settings_tbl db /\
  (forall k, k <> sid -> suppliers_tbl db' !! k = suppliers_tbl db !! k) /\
  (exists s',
     suppliers_tbl db' !! sid = Some s' /\
     total_spent s' = sum_of_paid (expenses_tbl db) sid /\
     match last_purchase_date s' with
     | Some d =>
         (exists k r, expenses_tbl db !! k = Some r /\
                      supplier r = Some sid /\ is_deleted r = false /\
                      status r = paid /\ expense_date r = d) /\
         (forall k r, expenses_tbl db !! k = Some r ->
                      supplier r = Some sid -> is_deleted r = false ->
                      status r = paid -> date_leb (expense_date r) d = true)
     | None =>
         forall k r, expenses_tbl db !! k = Some r ->
                     ~ (supplier r = Some sid /\ is_deleted r = false /\
                        status r = paid)
     end /\
     ((forall k r, expenses_tbl db !! k = Some r ->
                   ~ (supplier r = Some sid /\ is_deleted r = false /\
                      status r = paid)) ->
      s' = mkSupplier 0 None)) /\
  snd (update_totals db' sid self2) = db'.
Proof.
  destruct (update_totals_spec db sid self) as (Hx & Hother & s' & Hrow & Htot & Hlast).
  cbv zeta. split; [exact Hx |]. split; [reflexivity |]. split; [exact Hother |].
  split.
  - exists s'. split; [exact Hrow |].
    split; [rewrite Htot; apply paid_sum_table |].
    pose proof (latest_paid_date db sid _ Hlast) as Hl. split.
    + destruct (last_purchase_date s') as [d |].
      * destruct Hl as [(k & r & Hk & Hc & Hdate) Hmax]. split.
        -- exists k, r. apply counts_for_spec in Hc. tauto.
        -- intros k' r' Hk' H1 H2 H3. apply (Hmax k' r' Hk'), counts_for_spec. tauto.
      * intros k r Hk Hp. apply counts_for_spec in Hp.
        rewrite (Hl k r Hk) in Hp. discriminate.
    + intros Hnone.
      assert (Hempty : paid_expenses db sid = []).
      { destruct (paid_expenses db sid) as [| r l] eqn:Hp; [reflexivity |].
        assert (Hin : r ∈ paid_expenses db sid) by (rewrite Hp; apply list_elem_of_here).
        apply elem_of_paid_expenses in Hin as [[k Hk] Hc].
        destruct (Hnone k r Hk Hc). }
      rewrite Hempty in Htot, Hlast. destruct s' as [t d].
      cbn in Htot, Hlast. subst t. destruct d as [d |]; [| reflexivity].
      destruct Hlast as [Hin _]. inversion Hin.
  - unfold update_totals. cbn [snd].
    unfold with_suppliers, paid_expenses.
    cbn [settings_tbl suppliers_tbl expenses_tbl].
    rewrite insert_insert_eq. reflexivity.
Qed.

(** X9.  [get_settings] is a per-tenant get-or-create: the first access
    of a hub that has no settings stores and returns the defaults (no
    approval, threshold 0.00, tax rate 21.00, automatic numbering, prefix
    EXP); an access of a hub that has settings returns them and changes
    nothing; in both cases a second access returns the same settings and
    leaves the database as the first left it, and no other hub's
    settings, no expense and no supplier changes. *)
Theorem get_settings_get_or_create (db : DB) (hub : ident) :
  let s := fst (get_settings db hub) in
  let db' := snd (get_settings db hub) in
  get_settings db' hub = (s, db') /\
  (settings_tbl db !! hub = None ->
   s = mkExpenseSettings false Dec.zero2 (Dec.mkDecimal 2100 (-2)) true "EXP" /\
   settings_tbl db' !! hub = Some default_settings_row) /\
  (forall r, settings_tbl db !! hub = Some r -> s = settings_from_db r /\ db' = db) /\
  (forall h, h <> hub -> settings_tbl db' !! h = settings_tbl db !! h) /\
  expenses_tbl db' = expenses_tbl db /\ suppliers_tbl db' = suppliers_tbl db.
Proof.
  unfold get_settings. destruct (settings_tbl db !! hub) as [r |] eqn:Hl; cbn [fst snd].
  - rewrite Hl. repeat split; try discriminate; congruence.
  - cbn [settings_tbl with_settings]. rewrite lookup_insert_eq.
    split; [reflexivity |]. split; [intros _; split; reflexivity |].
    split; [discriminate |].
    split; [intros h Hh; apply lookup_insert_ne; congruence |].
    split; reflexivity.
Qed.

(** ** Creating and editing through the form *)

Lemma generate_expense_number_prefix (now : datetime) (db : DB) (hub : ident)
  (prefix : string) :
  String.prefix (prefix +:+ "-" +:+ strftime_Ymd now +:+ "-")
    (generate_expense_number now db hub prefix) = true.
Proof.
  unfold generate_expense_number. cbv zeta.
  match goal with
  | |- context [Py.format_0d 4 ?n] => generalize (Py.format_0d 4 n)
  end.
  intros fmt.
  assert (Heq : (prefix +:+ "-" +:+ strftime_Ymd now) +:+ "-" +:+ fmt
                = (prefix +:+ "-" +:+ strftime_Ymd now +:+ "-") +:+ fmt).
  { generalize (strftime_Ymd now). intros d.
    induction prefix as [| c p IH].
    - change (String "-" (d +:+ String "-" fmt) = String "-" ((d +:+ "-") +:+ fmt)).
      f_equal. rewrite append_assoc. reflexivity.
    - change (String c ((p +:+ "-" +:+ d) +:+ "-" +:+ fmt)
              = String c ((p +:+ "-" +:+ d +:+ "-") +:+ fmt)).
      rewrite IH. reflexivity. }
  rewrite Heq. apply prefix_append.
Qed.

(** A first save of an object that has no key and no number: one row is
    added under a fresh key. *)
Lemma Expense_save_insert (now : datetime) (db : DB) (e : Expense) :
  pk e = None -> expense_number e = "" ->
  exists id db',
    let e' := set_pk (Some id)
                (set_expense_number
                   (generate_expense_number now (snd (get_settings db (hub_id e)))
                      (hub_id e)
                      (numbering_prefix (settings_from_db (settings_row db (hub_id e)))))
                   (calculate_amounts e)) in
    Expense_save now db None e = Some (e', db') /\
    expenses_tbl db !! id = None /\
    expenses_tbl db' = <[id := to_db e']> (expenses_tbl db) /\
    suppliers_tbl db' = suppliers_tbl db /\
    (forall h, settings_row db' h = settings_row db h).
Proof.
  intros Hpk Hnum. unfold Expense_save.
  pose proof (calculate_amounts_frame e) as Hc. cbv zeta in Hc.
  destruct Hc as (Hpk0 & Hh0 & Hn0 & _).
  rewrite Hpk in Hpk0. rewrite Hnum in Hn0.
  pose proof (assign_number_frame now db (calculate_amounts e)) as Hf.
  cbv zeta in Hf.
  destruct Hf as (_ & _ & _ & _ & _ & _ & _ & _ & _ & _ & _ & Hx & Hs & Hset).
  unfold assign_number in *. rewrite Hn0 in *. cbn [String.eqb] in *.
  rewrite Hh0 in *. rewrite <- (get_settings_fst db (hub_id e)).
  destruct (get_settings db (hub_id e)) as [settings db1]. cbn [fst snd] in *.
  unfold Model_save. cbn [pk set_expense_number]. rewrite Hpk0.
  exists (fresh (dom (expenses_tbl db1))), 
    (with_expenses
       (<[fresh (dom (expenses_tbl db1)) :=
            to_db (set_pk (Some (fresh (dom (expenses_tbl db1))))
                     (set_expense_number
                        (generate_expense_number now db1 (hub_id e)
                           (numbering_prefix settings))
                        (calculate_amounts e)))]> (expenses_tbl db1)) db1).
  cbv zeta. split; [reflexivity |].
  split; [rewrite <- Hx; apply not_elem_of_dom, is_fresh |].
  cbn [expenses_tbl suppliers_tbl with_expenses]. rewrite Hx.
  split; [reflexivity |]. split; [exact Hs |]. exact Hset.
Qed.

(** The instance that [expense_create] saves. *)
Lemma expense_create_post (now : datetime) (db : DB) (hub : ident)
  (form : ExpenseFormData) :
  let rate := if Dec.truthy (form_tax_rate form) then form_tax_rate form
              else of_column (default_tax_rate (settings_row db hub)) in
  let e0 := set_tax_rate rate (form_new_instance hub form) in
  exists id db',
    let e' := set_pk (Some id)
                (set_expense_number
                   (generate_expense_number now
                      (snd (get_settings (snd (get_settings db hub)) hub)) hub
                      (numbering_prefix (settings_from_db (settings_row db hub))))
                   (calculate_amounts e0)) in
    expense_create now db hub (Some form) = (HxRedirect (Some id), db') /\
    expenses_tbl db !! id = None /\
    expenses_tbl db' = <[id := to_db e']> (expenses_tbl db) /\
    suppliers_tbl db' = suppliers_tbl db.
Proof.
  intros rate e0. unfold expense_create.
  pose proof (get_settings_fst db hub) as Hfst.
  pose proof (get_settings_tables db hub) as [Hx0 Hs0].
  pose proof (get_settings_again db hub) as Hagain.
  destruct (get_settings db hub) as [settings db0]. cbn [fst snd] in *.
  assert (He0 : (if negb (Dec.truthy (tax_rate (form_new_instance hub form)))
                 then set_tax_rate (default_tax_rate settings) (form_new_instance hub form)
                 else form_new_instance hub form) = e0).
  { subst e0 rate. cbn [tax_rate form_new_instance]. rewrite Hfst.
    destruct (Dec.truthy (form_tax_rate form)); reflexivity. }
  rewrite He0.
  destruct (Expense_save_insert now db0 e0 eq_refl eq_refl)
    as (id & db' & Hs & Hfresh & Hx & Hsup & _).
  cbv zeta in Hs, Hx. change (hub_id e0) with hub in Hs, Hx.
  rewrite Hagain in Hs, Hx.
  rewrite Hs. exists id, db'. cbv zeta. cbn [pk set_pk].
  split; [reflexivity |]. rewrite <- Hx0. split; [exact Hfresh |].
  split; [exact Hx | congruence].
Qed.

(** X10.  When the form gives the tax rate 0, [expense_create] stores the
    hub's default tax rate in its place: the rate of the new row is the
    default of the hub's settings (21.00 for a hub that had none), so it
    is zero exactly when that default is zero, and for an amount that is
    not zero tax and total are computed from the default rate. *)
Theorem create_replaces_zero_tax_rate (now : datetime) (db : DB) (hub : ident)
  (form : ExpenseFormData) :
  Dec.truthy (form_tax_rate form) = false ->
  exists id db' row,
    expense_create now db hub (Some form) = (HxRedirect (Some id), db') /\
    expenses_tbl db' !! id = Some row /\
    tax_rate row = default_tax_rate (settings_row db hub) /\
    (settings_tbl db !! hub = None -> tax_rate row = 2100) /\
    (tax_rate row = 0 <-> default_tax_rate (settings_row db hub) = 0) /\
    (Dec.truthy (form_amount form) = true ->
     of_column (tax_amount row)
     = round2 (Dec.div100
                 (Dec.mul (form_amount form)
                    (of_column (default_tax_rate (settings_row db hub))))) /\
     of_column (total_amount row)
     = round2 (Dec.add (form_amount form) (of_column (tax_amount row)))).
Proof.
  intros Hzero.
  destruct (expense_create_post now db hub form) as (id & db' & Hc & _ & Hx & _).
  cbv zeta in Hc, Hx. rewrite Hzero in Hx.
  match type of Hx with _ = <[_ := ?r]> _ => set (row := r) in * end.
  assert (Hrate : tax_rate row = default_tax_rate (settings_row db hub)).
  { unfold row. cbn [tax_rate to_db map_amounts set_pk set_expense_number].
    replace (tax_rate (calculate_amounts
                         (set_tax_rate (of_column (default_tax_rate (settings_row db hub)))
                            (form_new_instance hub form))))
      with (of_column (default_tax_rate (settings_row db hub)))
      by (symmetry; apply calculate_amounts_frame).
    apply to_column_of_column. }
  exists id, db', row. split; [exact Hc |].
  split; [rewrite Hx; apply lookup_insert_eq |].
  split; [exact Hrate |]. split; [| split].
  - intros Hnone. rewrite Hrate. unfold settings_row. rewrite Hnone. reflexivity.
  - rewrite Hrate. tauto.
  - intros Hamt. unfold row.
    cbn [tax_amount total_amount to_db map_amounts set_pk set_expense_number].
    unfold calculate_amounts.
    cbn [amount tax_rate set_tax_rate form_new_instance]. rewrite Hamt.
    cbn [tax_amount total_amount amount tax_rate set_tax_amount set_total_amount].
    rewrite !of_column_to_column by apply round2_two_places.
    split; reflexivity.
Qed.

Lemma create_replaces_zero_tax_rate_witness :
  (exists id db' row,
     expense_create noon shop_db 1 (Some zero_rate_form) = (HxRedirect (Some id), db') /\
     expenses_tbl db' !! id = Some row /\
     tax_rate row = 2100 /\ tax_amount row = 2100 /\ total_amount row = 12100) /\
  (exists id db' row,
     expense_create noon untaxed_db 1 (Some zero_rate_form)
     = (HxRedirect (Some id), db') /\
     expenses_tbl db' !! id = Some row /\ tax_rate row = 0).
Proof.
  split.
  - destruct (create_replaces_zero_tax_rate noon shop_db 1 zero_rate_form eq_refl)
      as (id & db' & row & Hc & Hrow & Hrate & _ & _ & Hamounts).
    destruct (Hamounts eq_refl) as [Htax Htotal].
    exists id, db', row. split; [exact Hc |]. split; [exact Hrow |].
    split; [rewrite Hrate; vm_compute; reflexivity |].
    assert (Ht : tax_amount row = 2100).
    { apply (f_equal Dec.coef) in Htax. cbn [Dec.coef of_column] in Htax.
      rewrite Htax. vm_compute. reflexivity. }
    split; [exact Ht |].
    apply (f_equal Dec.coef) in Htotal. cbn [Dec.coef of_column] in Htotal.
    rewrite Htotal, Ht. vm_compute. reflexivity.
  - destruct (create_replaces_zero_tax_rate noon untaxed_db 1 zero_rate_form eq_refl)
      as (id & db' & row & Hc & Hrow & _ & _ & Hiff & _).
    exists id, db', row. split; [exact Hc |]. split; [exact Hrow |].
    apply Hiff. vm_compute. reflexivity.
Defined.

Lemma calculate_amounts_frame_more (e : Expense) :
  is_deleted (calculate_amounts e) = is_deleted e /\
  expense_date (calculate_amounts e) = expense_date e.
Proof.
  unfold calculate_amounts. destruct (Dec.truthy (amount e)); split; reflexivity.
Qed.

(** X11.  A valid POST to [expense_create] adds exactly one expense: a row
    under a key that was free, for the hub of the session, not deleted,
    carrying the supplier, amount, date and status of the form (whatever
    status the form chose), a generated number under the hub's prefix and
    the day, and no approval or payment stamp.  No other expense and no
    supplier changes.  Without a valid POST the view renders the form and
    at most creates the hub's settings. *)
Theorem create_adds_one_expense (now : datetime) (db : DB) (hub : ident)
  (form : ExpenseFormData) :
  (exists id db' row,
     expense_create now db hub (Some form) = (HxRedirect (Some id), db') /\
     expenses_tbl db !! id = None /\
     expenses_tbl db' = <[id := row]> (expenses_tbl db) /\
     suppliers_tbl db' = suppliers_tbl db /\
     pk row = Some id /\ hub_id row = hub /\ is_deleted row = false /\
     status row = form_status form /\ supplier row = form_supplier form /\
     expense_date row = form_expense_date form /\
     amount row = to_column (form_amount form) /\
     approved_by row = None /\ approved_at row = None /\ paid_at row = None /\
     String.prefix
       (numbering_prefix (settings_from_db (settings_row db hub))
        +:+ "-" +:+ strftime_Ymd now +:+ "-")
       (expense_number row) = true) /\
  expense_create now db hub None = (RenderForm, snd (get_settings db hub)).
Proof.
  split.
  - destruct (expense_create_post now db hub form) as (id & db' & Hc & Hfresh & Hx & Hs).
    cbv zeta in Hc, Hx.
    match type of Hx with
    | _ = <[_ := to_db (set_pk _ (set_expense_number _ (calculate_amounts ?x)))]> _ =>
        set (e0 := x) in *
    end.
    pose proof (calculate_amounts_frame e0) as Hf. cbv zeta in Hf.
    destruct Hf as (_ & Hh & _ & Ha & _ & Hst & Hsu & Hab & Haa & Hpa).
    destruct (calculate_amounts_frame_more e0) as [Hd He].
    eexists id, db', _. split; [exact Hc |]. split; [exact Hfresh |].
    split; [exact Hx |]. split; [exact Hs |].
    cbn [pk hub_id is_deleted status supplier expense_date amount approved_by
         approved_at paid_at expense_number to_db map_amounts set_pk
         set_expense_number].
    rewrite Hh, Hd, Hst, Hsu, He, Ha, Hab, Haa, Hpa.
    repeat split. apply generate_expense_number_prefix.
  - unfold expense_create. destruct (get_settings db hub). reflexivity.
Qed.

(** X12.  A valid POST to [expense_edit] on an expense of the tenant that
    has its number rewrites that one row and nothing else: the supplier,
    amount, tax rate, date and status become those of the form (a status
    of paid or approved is stored without any gate and without a stamp; a
    tax rate of zero is stored as zero), while number, tenant and the
    approval and payment stamps stay.  Tax and total are recomputed from
    the form's values when the amount is not zero and keep the stored
    values when it is zero.  No supplier row and no setting changes. *)
Theorem edit_rewrites_form_fields_only (now : datetime) (db : DB) (hub pk0 : ident)
  (r : ExpenseRow) (form : ExpenseFormData) :
  expenses_tbl db !! pk0 = Some r -> hub_id r = hub -> is_deleted r = false ->
  expense_number r <> "" ->
  exists db' row,
    expense_edit now db hub pk0 (Some form) = (HxRedirect (Some pk0), db') /\
    expenses_tbl db' = <[pk0 := row]> (expenses_tbl db) /\
    suppliers_tbl db' = suppliers_tbl db /\ settings_tbl db' = settings_tbl db /\
    expense_number row = expense_number r /\ hub_id row = hub /\
    is_deleted row = false /\ approved_by row = approved_by r /\
    approved_at row = approved_at r /\ paid_at row = paid_at r /\
    status row = form_status form /\ supplier row = form_supplier form /\
    expense_date row = form_expense_date form /\
    amount row = to_column (form_amount form) /\
    tax_rate row = to_column (form_tax_rate form) /\
    (Dec.truthy (form_amount form) = true ->
     of_column (tax_amount row)
     = round2 (Dec.div100 (Dec.mul (form_amount form) (form_tax_rate form))) /\
     of_column (total_amount row)
     = round2 (Dec.add (form_amount form) (of_column (tax_amount row)))) /\
    (Dec.truthy (form_amount form) = false ->
     tax_amount row = tax_amount r /\ total_amount row = total_amount r).
Proof.
  intros Hr Hh Hd Hnum. unfold expense_edit.
  rewrite (get_expense_found db pk0 hub r Hr Hh Hd).
  set (e1 := form_apply form (set_pk (Some pk0) (from_db r))).
  unfold Expense_save.
  pose proof (calculate_amounts_frame e1) as Hf. cbv zeta in Hf.
  destruct Hf as (Hpk & Hhub & Hn & Ha & Hrate & Hst & Hsu & Hab & Haa & Hpa).
  destruct (calculate_amounts_frame_more e1) as [Hdel Hdate].
  rewrite (assign_number_kept now db (calculate_amounts e1))
    by (rewrite Hn; exact Hnum).
  unfold Model_save. rewrite Hpk. cbn [pk e1 form_apply set_status set_expense_date
    set_tax_rate set_amount set_supplier set_pk].
  eexists _, _. split; [reflexivity |].
  cbn [expenses_tbl suppliers_tbl settings_tbl with_expenses].
  split; [reflexivity |]. split; [reflexivity |]. split; [reflexivity |].
  cbn [pk hub_id is_deleted status supplier expense_date amount tax_rate tax_amount
       total_amount approved_by approved_at paid_at expense_number to_db map_amounts
       set_pk].
  rewrite Hn, Hhub, Hdel, Hab, Haa, Hpa, Hst, Hsu, Hdate, Ha, Hrate.
  split; [reflexivity |]. split; [exact Hh |]. split; [exact Hd |].
  do 8 (split; [reflexivity |]).
  unfold calculate_amounts.
  change (amount e1) with (form_amount form).
  change (tax_rate e1) with (form_tax_rate form).
  split; intros Hamt; rewrite Hamt.
  - cbn [tax_amount total_amount amount tax_rate set_tax_amount set_total_amount].
    rewrite !of_column_to_column by apply round2_two_places.
    split; reflexivity.
  - change (tax_amount e1) with (of_column (tax_amount r)).
    change (total_amount e1) with (of_column (total_amount r)).
    rewrite !to_column_of_column. split; reflexivity.
Qed.

Lemma edit_rewrites_form_fields_only_witness :
  exists db' row,
    expense_edit noon shop_db 1 3 (Some paid_form) = (HxRedirect (Some 3%positive), db') /\
    expenses_tbl db' !! 3%positive = Some row /\
    status row = paid /\ paid_at row = None /\ tax_rate row = 0 /\
    suppliers_tbl db' = suppliers_tbl shop_db.
Proof.
  destruct (edit_rewrites_form_fields_only noon shop_db 1 3
              (mkExpense (Some 3%positive) 1%positive false "EXP-20260105-0001"
                 (Some 7%positive) 10000 2100 2100 12100 jan5 draft None None None)
              paid_form eq_refl eq_refl eq_refl)
    as (db' & row & He & Hx & Hs & _ & _ & _ & _ & _ & _ & Hpa & Hst & _ & _ & _ & Hrate & _).
  { discriminate. }
  exists db', row. split; [exact He |].
  split; [rewrite Hx; apply lookup_insert_eq |].
  split; [exact Hst |]. split; [exact Hpa |].
  split; [rewrite Hrate; vm_compute; reflexivity | exact Hs].
Defined.

(** ** The workflow as a whole *)

Lemma get_expense_None (db : DB) (hub pk0 : ident) :
  (forall r, expenses_tbl db !! pk0 = Some r -> hub_id r <> hub \/ is_deleted r = true) ->
  get_expense db pk0 hub = None.
Proof.
  intros Hno. unfold get_expense.
  destruct (expenses_tbl db !! pk0) as [r |]; [| reflexivity].
  destruct (decide (hub_id r = hub /\ is_deleted r = false)) as [[Hh Hd] | _];
    [| reflexivity].
  destruct (Hno r eq_refl); congruence.
Qed.

Lemma get_expense_cases (db : DB) (hub pk0 : ident) :
  get_expense db pk0 hub = None \/
  exists r, expenses_tbl db !! pk0 = Some r /\ hub_id r = hub /\ is_deleted r = false.
Proof.
  unfold get_expense. destruct (expenses_tbl db !! pk0) as [r |]; [| tauto].
  destruct (decide (hub_id r = hub /\ is_deleted r = false)) as [[Hh Hd] | _];
    [right; eauto | tauto].
Qed.

(** X13.  The views of an expense are scoped to the tenant and to records
    that are not deleted: for a key that names no expense, an expense of
    another hub or a deleted one, [approve] and [mark_paid] answer their
    fault response, [delete] and [edit] answer not found, and none of
    them changes the database. *)
Theorem views_are_scoped_to_tenant (now : datetime) (db : DB) (hub pk0 : ident)
  (employee : option ident) (post : option ExpenseFormData) :
  (forall r, expenses_tbl db !! pk0 = Some r -> hub_id r <> hub \/ is_deleted r = true) ->
  expense_approve now db hub employee pk0 = (JsonError400, db) /\
  expense_mark_paid now db hub pk0 = (JsonError400, db) /\
  expense_delete db hub pk0 = (Http404, db) /\
  expense_edit now db hub pk0 post = (PageNotFound, db).
Proof.
  intros Hno. apply get_expense_None in Hno.
  unfold expense_approve, expense_mark_paid, expense_delete, expense_edit.
  rewrite Hno. repeat split.
Qed.

Lemma views_are_scoped_to_tenant_witness :
  expense_mark_paid noon shop_db 2 3 = (JsonError400, shop_db) /\
  expense_edit noon shop_db 2 3 (Some paid_form) = (PageNotFound, shop_db).
Proof.
  destruct (views_are_scoped_to_tenant noon shop_db 2 3 None (Some paid_form))
    as (_ & Hpaid & _ & Hedit).
  { intros r Hr. vm_compute in Hr. injection Hr as <-. left. discriminate. }
  split; [exact Hpaid | exact Hedit].
Defined.

(** What [expense_approve] does from draft or pending. *)
Lemma approve_effect (now : datetime) (db : DB) (hub pk0 : ident)
  (employee : option ident) (r : ExpenseRow) :
  expenses_tbl db !! pk0 = Some r -> hub_id r = hub -> is_deleted r = false ->
  status r = draft \/ status r = pending ->
  exists db1,
    expense_approve now db hub employee pk0 = (JsonSuccess, db1) /\
    expenses_tbl db1 =
      <[pk0 := set_status approved
                 (set_approved_by employee (set_approved_at (Some now) r))]>
        (expenses_tbl db) /\
    suppliers_tbl db1 = suppliers_tbl db /\
    (forall h, settings_row db1 h = settings_row db h).
Proof.
  intros Hr Hh Hd Hst. unfold expense_approve.
  rewrite (get_expense_found db pk0 hub r Hr Hh Hd).
  change (status (set_pk (Some pk0) (from_db r))) with (status r).
  rewrite status_in_draft_pending.
  destruct (Expense_save_columns now db
              [f_status; f_approved_by; f_approved_at; f_updated_at]
              (set_approved_at (Some now)
                 (set_approved_by employee
                    (set_status approved (set_pk (Some pk0) (from_db r)))))
              pk0 r eq_refl Hr)
    as (e2 & db' & Hs & Hst2 & Hab & Haa & _ & _ & Hx & Hsup & Hset).
  assert (Hin : match status r with draft | pending => true | _ => false end = true)
    by (destruct Hst as [-> | ->]; reflexivity).
  rewrite Hin. cbn [negb]. rewrite Hs. exists db'.
  split; [reflexivity |]. split; [| split; assumption].
  rewrite Hx. cbn [foldr write_field status approved_by approved_at to_db map_amounts].
  rewrite Hst2, Hab, Haa. reflexivity.
Qed.

(** X14.  Approve, then pay: after [approve] has gone through on a draft
    or pending expense, [mark_paid] is never declined, whatever the
    tenant's settings say about approval and threshold.  It answers
    success when the expense has no supplier or its supplier exists, and
    the row ends with status paid, the approver as [approved_by], the
    time of the approval as [approved_at] and the time of the payment as
    [paid_at]; number, supplier, amounts and date are as before. *)
Theorem approve_then_mark_paid (now1 now2 : datetime) (db : DB) (hub pk0 : ident)
  (employee : option ident) (r : ExpenseRow) :
  expenses_tbl db !! pk0 = Some r -> hub_id r = hub -> is_deleted r = false ->
  status r = draft \/ status r = pending ->
  match supplier r with
  | Some sid => is_Some (suppliers_tbl db !! sid)
  | None => True
  end ->
  let db1 := snd (expense_approve now1 db hub employee pk0) in
  fst (expense_approve now1 db hub employee pk0) = JsonSuccess /\
  fst (expense_mark_paid now2 db1 hub pk0) = JsonSuccess /\
  exists row,
    expenses_tbl (snd (expense_mark_paid now2 db1 hub pk0)) !! pk0 = Some row /\
    status row = paid /\ approved_by row = employee /\
    approved_at row = Some now1 /\ paid_at row = Some now2 /\
    expense_number row = expense_number r /\ supplier row = supplier r /\
    amount row = amount r /\ tax_rate row = tax_rate r /\
    tax_amount row = tax_amount r /\ total_amount row = total_amount r /\
    expense_date row = expense_date r /\ hub_id row = hub_id r /\
    is_deleted row = false.
Proof.
  intros Hr Hh Hd Hst Hsup db1. subst db1.
  destruct (approve_effect now1 db hub pk0 employee r Hr Hh Hd Hst)
    as (db1 & Ha & Hx1 & Hs1 & _).
  rewrite Ha. cbn [fst snd]. split; [reflexivity |].
  set (r1 := set_status approved
               (set_approved_by employee (set_approved_at (Some now1) r))) in *.
  assert (Hr1 : expenses_tbl db1 !! pk0 = Some r1)
    by (rewrite Hx1; apply lookup_insert_eq).
  destruct (mark_paid_cases now2 db1 hub pk0 r1 Hr1 Hh Hd)
    as [((_ & Hna & _) & _) | (_ & db2 & Hx2 & _ & Hres)].
  { exfalso. apply Hna. reflexivity. }
  cbv zeta in Hres. change (supplier r1) with (supplier r) in Hres.
  assert (Hrow : exists row,
             expenses_tbl db2 !! pk0 = Some row /\
             status row = paid /\ approved_by row = employee /\
             approved_at row = Some now1 /\ paid_at row = Some now2 /\
             expense_number row = expense_number r /\ supplier row = supplier r /\
             amount row = amount r /\ tax_rate row = tax_rate r /\
             tax_amount row = tax_amount r /\ total_amount row = total_amount r /\
             expense_date row = expense_date r /\ hub_id row = hub_id r /\
             is_deleted row = false).
  { eexists. split; [rewrite Hx2; apply lookup_insert_eq |].
    cbn. repeat (split; [reflexivity |]). exact Hd. }
  destruct (supplier r) as [sid |].
  - rewrite Hs1 in Hres. destruct Hsup as [s Hs]. rewrite Hs in Hres.
    rewrite Hres. cbn [fst snd]. split; [reflexivity |].
    rewrite update_totals_tables. exact Hrow.
  - rewrite Hres. cbn [fst snd]. split; [reflexivity | exact Hrow].
Qed.

Lemma approve_then_mark_paid_witness :
  fst (expense_mark_paid noon
         (snd (expense_approve jan5_morning shop_db 1 (Some 9%positive) 3)) 1 3)
  = JsonSuccess /\
  exists row,
    expenses_tbl
      (snd (expense_mark_paid noon
              (snd (expense_approve jan5_morning shop_db 1 (Some 9%positive) 3)) 1 3))
      !! 3%positive = Some row /\
    status row = paid /\ approved_by row = Some 9%positive /\
    approved_at row = Some jan5_morning /\ paid_at row = Some noon.
Proof.
  destruct (approve_then_mark_paid jan5_morning noon shop_db 1 3 (Some 9%positive)
              (mkExpense (Some 3%positive) 1%positive false "EXP-20260105-0001"
                 (Some 7%positive) 10000 2100 2100 12100 jan5 draft None None None)
              eq_refl eq_refl eq_refl)
    as (_ & Hpaid & row & Hl & Hst & Hby & Hat & Hpa & _).
  { left. reflexivity. }
  { vm_compute. eauto. }
  split; [exact Hpaid |]. exists row. repeat split; assumption.
Defined.

(** X15.  [approve] and [mark_paid] touch one expense: every other row of
    the expenses table is as before, whatever the call answers.
    [approve] changes no supplier; [mark_paid] changes no supplier other
    than the one the expense is linked to. *)
Theorem workflow_touches_one_expense (now : datetime) (db : DB) (hub pk0 : ident)
  (employee : option ident) :
  (forall k, k <> pk0 ->
     expenses_tbl (snd (expense_approve now db hub employee pk0)) !! k
     = expenses_tbl db !! k) /\
  suppliers_tbl (snd (expense_approve now db hub employee pk0)) = suppliers_tbl db /\
  (forall k, k <> pk0 ->
     expenses_tbl (snd (expense_mark_paid now db hub pk0)) !! k
     = expenses_tbl db !! k) /\
  (forall sid,
     (forall r, expenses_tbl db !! pk0 = Some r -> supplier r <> Some sid) ->
     suppliers_tbl (snd (expense_mark_paid now db hub pk0)) !! sid
     = suppliers_tbl db !! sid).
Proof.
  destruct (get_expense_cases db hub pk0) as [Hnone | (r & Hr & Hh & Hd)].
  { unfold expense_approve, expense_mark_paid. rewrite Hnone. cbn [snd].
    repeat split. }
  assert (Happrove :
    (forall k, k <> pk0 ->
       expenses_tbl (snd (expense_approve now db hub employee pk0)) !! k
       = expenses_tbl db !! k) /\
    suppliers_tbl (snd (expense_approve now db hub employee pk0)) = suppliers_tbl db).
  { destruct (decide (status r = draft \/ status r = pending)) as [Hst | Hst].
    - destruct (approve_effect now db hub pk0 employee r Hr Hh Hd Hst)
        as (db1 & Ha & Hx1 & Hs1 & _).
      rewrite Ha. cbn [snd]. split; [| exact Hs1].
      intros k Hk. rewrite Hx1. apply lookup_insert_ne. congruence.
    - unfold expense_approve. rewrite (get_expense_found db pk0 hub r Hr Hh Hd).
      change (status (set_pk (Some pk0) (from_db r))) with (status r).
      rewrite status_in_draft_pending.
      destruct (status r); try (exfalso; apply Hst; tauto); cbn [negb snd];
        split; reflexivity. }
  destruct Happrove as [Ha1 Ha2]. split; [exact Ha1 |]. split; [exact Ha2 |].
  destruct (mark_paid_cases now db hub pk0 r Hr Hh Hd)
    as [(_ & _ & Hx & Hs) | (_ & db2 & Hx2 & Hs2 & Hres)].
  { cbv zeta in Hx, Hs. rewrite Hx, Hs. split; reflexivity. }
  cbv zeta in Hres.
  assert (Hother : forall k, k <> pk0 -> expenses_tbl db2 !! k = expenses_tbl db !! k).
  { intros k Hk. rewrite Hx2. apply lookup_insert_ne. congruence. }
  destruct (supplier r) as [sid0 |] eqn:Hsup.
  - destruct (suppliers_tbl db !! sid0) as [s |] eqn:Hs0; rewrite Hres; cbn [snd].
    + rewrite update_totals_tables. split; [exact Hother |].
      intros sid Hsid.
      destruct (update_totals_spec db2 sid0 (supplier_from_db s)) as (_ & Hk & _).
      rewrite Hk, Hs2; [reflexivity |].
      intros ->. apply (Hsid r Hr). exact Hsup.
    + split; [exact Hother |]. intros sid _. rewrite Hs2. reflexivity.
  - rewrite Hres. cbn [snd]. split; [exact Hother |].
    intros sid _. rewrite Hs2. reflexivity.
Qed.

(** ** The next due date of a recurring expense *)

Lemma freq_map_cases (f : string) :
  (f = "weekly" /\ freq_map !! f = Some (mkRelativedelta 0 0 7)) \/
  (f = "monthly" /\ freq_map !! f = Some (mkRelativedelta 0 1 0)) \/
  (f = "quarterly" /\ freq_map !! f = Some (mkRelativedelta 0 3 0)) \/
  (f = "yearly" /\ freq_map !! f = Some (mkRelativedelta 1 0 0)) \/
  (f <> "weekly" /\ f <> "monthly" /\ f <> "quarterly" /\ f <> "yearly" /\
   freq_map !! f = None).
Proof.
  unfold freq_map.
  destruct (decide (f = "weekly")) as [-> | H1];
    [left; split; [reflexivity | apply lookup_insert_eq] |].
  rewrite lookup_insert_ne by congruence.
  destruct (decide (f = "monthly")) as [-> | H2];
    [right; left; split; [reflexivity | apply lookup_insert_eq] |].
  rewrite lookup_insert_ne by congruence.
  destruct (decide (f = "quarterly")) as [-> | H3];
    [right; right; left; split; [reflexivity | apply lookup_insert_eq] |].
  rewrite lookup_insert_ne by congruence.
  destruct (decide (f = "yearly")) as [-> | H4];
    [right; right; right; left; split; [reflexivity | apply lookup_insert_eq] |].
  rewrite lookup_insert_ne by congruence.
  right; right; right; right. rewrite lookup_empty. tauto.
Qed.

Lemma days_in_month_bounds (y m : Z) : 28 <= days_in_month y m <= 31.
Proof.
  unfold days_in_month.
  destruct (m =? 2); [destruct (isleap y); lia |].
  destruct ((m =? 4) || (m =? 6) || (m =? 9) || (m =? 11)); lia.
Qed.

Ltac each_month m :=
  let H := fresh in
  assert (H : m = 1 \/ m = 2 \/ m = 3 \/ m = 4 \/ m = 5 \/ m = 6 \/ m = 7 \/ m = 8
              \/ m = 9 \/ m = 10 \/ m = 11 \/ m = 12) by lia;
  destruct H as [-> | [-> | [-> | [-> | [-> | [-> | [-> | [-> | [-> | [-> | [-> | ->]]]]]]]]]]].

(** The first of the next month follows the last day of a month. *)
Lemma days_before_month_succ (y m : Z) :
  1 <= m <= 11 ->
  days_before_month y (m + 1) = days_before_month y m + days_in_month y m.
Proof.
  intros Hm. each_month m; try lia;
    unfold days_before_month, days_in_month; cbn; destruct (isleap y); reflexivity.
Qed.

Lemma days_before_year_succ (y : Z) :
  days_before_year (y + 1)
  = days_before_year y + 365 + (if isleap y then 1 else 0).
Proof.
  unfold days_before_year, isleap.
  replace (y + 1 - 1) with y by lia.
  destruct (Z.eqb_spec (y mod 4) 0), (Z.eqb_spec (y mod 100) 0),
    (Z.eqb_spec (y mod 400) 0); cbn [andb orb negb];
    Z.div_mod_to_equations; lia.
Qed.

Lemma days_before_year_mono (y y' : Z) :
  y <= y' -> days_before_year y <= days_before_year y'.
Proof.
  unfold days_before_year. intros Hy. Z.div_mod_to_equations. lia.
Qed.

Lemma next_day_spec (d : date) :
  calendar_date d ->
  calendar_date (next_day d) /\ toordinal (next_day d) = toordinal d + 1.
Proof.
  destruct d as [y m dd]. unfold calendar_date, next_day, toordinal. cbn [year month day].
  intros (Hy & Hm & Hd).
  pose proof (days_in_month_bounds y m) as Hb.
  destruct (Z.ltb_spec dd (days_in_month y m)) as [Hlt | Hge]; cbn [year month day].
  - split; lia.
  - destruct (Z.ltb_spec m 12) as [Hm12 | Hm12]; cbn [year month day].
    + pose proof (days_in_month_bounds y (m + 1)).
      rewrite days_before_month_succ by lia. split; lia.
    + assert (m = 12) by lia. subst m.
      pose proof (days_in_month_bounds (y + 1) 1).
      rewrite days_before_year_succ.
      unfold days_before_month, days_in_month in *. cbn in *.
      destruct (isleap y); split; lia.
Qed.

Lemma add_days_spec (n : nat) :
  forall d, calendar_date d ->
    calendar_date (add_days n d) /\ toordinal (add_days n d) = toordinal d + Z.of_nat n.
Proof.
  induction n as [| n IH]; intros d Hd; cbn [add_days].
  - split; [exact Hd | lia].
  - destruct (next_day_spec d Hd) as [Hv Ho].
    destruct (IH (next_day d) Hv) as [Hv' Ho'].
    split; [exact Hv' | lia].
Qed.

Lemma get_next_date_after_delta (f : string) (d : date) :
  get_next_date_after f d =
  add_relativedelta d
    match freq_map !! f with
    | Some rd => rd
    | None => mkRelativedelta 0 1 0
    end.
Proof. unfold get_next_date_after. destruct (freq_map !! f); reflexivity. Qed.

Lemma replaced_week (d : date) :
  calendar_date d -> replaced d (mkRelativedelta 0 0 7) = d.
Proof.
  destruct d as [y m dd]. intros (Hy & Hm & Hdd). cbn [year month day] in *.
  unfold replaced. cbn [rd_years rd_months rd_days year month day].
  change (0 =? 0) with true. cbv iota beta.
  replace (y + 0) with y by lia. rewrite Z.min_r by lia. reflexivity.
Qed.

Lemma days_before_month_bounds (y m : Z) :
  1 <= m <= 12 ->
  0 <= days_before_month y m /\
  days_before_month y m + days_in_month y m <= 365 + (if isleap y then 1 else 0).
Proof.
  intros Hm. each_month m; unfold days_before_month, days_in_month; cbn;
    destruct (isleap y); lia.
Qed.

(** The dates up to [MAXYEAR] are the dates up to [date.max]. *)
Lemma year_le_toordinal (r : date) :
  calendar_date r -> (year r <= MAXYEAR <-> toordinal r <= toordinal last_date).
Proof.
  assert (Hld : toordinal last_date = 3652059) by reflexivity. rewrite Hld.
  destruct r as [y m dd]. unfold calendar_date, toordinal. cbn [year month day].
  intros (Hy & Hm & Hdd).
  pose proof (days_before_month_bounds y m Hm) as Hb.
  pose proof (days_before_year_succ y) as Hsucc.
  assert (Hlast : days_before_year (MAXYEAR + 1) = 3652059) by reflexivity.
  split.
  - intros Hle.
    pose proof (days_before_year_mono (y + 1) (MAXYEAR + 1) ltac:(lia)). lia.
  - intros Hle. destruct (Z.le_gt_cases y MAXYEAR) as [Hok | Hover]; [exact Hok |].
    pose proof (days_before_year_mono (MAXYEAR + 1) y ltac:(lia)). lia.
Qed.

(** The weekly step by the calendar: seven days on, or no date when that
    day lies after [date.max]. *)
Lemma add_relativedelta_week (d : date) :
  valid_date d ->
  calendar_date (add_days 7 d) /\ toordinal (add_days 7 d) = toordinal d + 7 /\
  add_relativedelta d (mkRelativedelta 0 0 7)
  = if toordinal d + 7 <=? toordinal last_date then inr (add_days 7 d)
    else inl OverflowError.
Proof.
  intros [Hd Hmax]. destruct (add_days_spec 7 d Hd) as [Hv Ho].
  split; [exact Hv |]. split; [exact Ho |].
  unfold add_relativedelta. rewrite (replaced_week d Hd).
  cbn [rd_days]. change (Z.to_nat 7) with 7%nat.
  destruct Hd as (Hy & _). unfold MINYEAR.
  destruct (Z.ltb_spec (year d) 1) as [? | _]; [lia |].
  destruct (Z.ltb_spec MAXYEAR (year d)) as [? | _]; [lia |].
  cbn [orb]. cbv zeta.
  pose proof (year_le_toordinal (add_days 7 d) Hv) as Hiff. rewrite Ho in Hiff.
  destruct (Z.ltb_spec MAXYEAR (year (add_days 7 d))) as [Hover | Hok];
    destruct (Z.leb_spec (toordinal d + 7) (toordinal last_date)) as [Hle | Hgt];
    try reflexivity; [apply Hiff in Hle | apply Hiff in Hok]; lia.
Qed.

(** X16.  A weekly recurring expense is next due exactly seven days after
    the current date, counted in days of the calendar across the ends of
    months and years and through leap days, as long as that day is not
    after 9999-12-31, the last [datetime.date]; from one of the last
    seven days of year 9999 the call raises [OverflowError]. *)
Theorem weekly_is_seven_days_later (d : date) :
  valid_date d ->
  (toordinal d + 7 <= toordinal last_date ->
   exists r, get_next_date_after "weekly" d = inr r /\
             valid_date r /\ toordinal r = toordinal d + 7) /\
  (toordinal last_date < toordinal d + 7 ->
   get_next_date_after "weekly" d = inl OverflowError).
Proof.
  intros Hd. rewrite get_next_date_after_delta.
  destruct (freq_map_cases "weekly") as [[_ ->] | [[Hf _] | [[Hf _] | [[Hf _] | [Hf _]]]]];
    try discriminate; [| congruence].
  destruct (add_relativedelta_week d Hd) as (Hv & Ho & ->).
  split; intros Hle.
  - rewrite (proj2 (Z.leb_le _ _) Hle). exists (add_days 7 d).
    split; [reflexivity |]. split; [| exact Ho].
    split; [exact Hv |]. apply (year_le_toordinal _ Hv). lia.
  - destruct (Z.leb_spec (toordinal d + 7) (toordinal last_date)); [lia | reflexivity].
Qed.

Lemma weekly_is_seven_days_later_witness :
  get_next_date_after "weekly" (mkDate 2024 2 26) = inr (mkDate 2024 3 4) /\
  toordinal (mkDate 2024 3 4) = toordinal (mkDate 2024 2 26) + 7 /\
  get_next_date_after "weekly" (mkDate 9999 12 28) = inl OverflowError.
Proof.
  destruct (weekly_is_seven_days_later (mkDate 2024 2 26)) as [Hin _].
  { vm_compute. repeat split; discriminate. }
  destruct Hin as (r & Hr & _ & Ho); [vm_compute; discriminate |].
  assert (Heq : r = mkDate 2024 3 4) by (vm_compute in Hr; congruence).
  subst r. split; [exact Hr |]. split; [exact Ho |].
  destruct (weekly_is_seven_days_later (mkDate 9999 12 28)) as [_ Hout].
  { vm_compute. repeat split; discriminate. }
  apply Hout. vm_compute. reflexivity.
Defined.

Lemma days_before_month_mono (y m m' : Z) :
  1 <= m -> m < m' -> m' <= 12 ->
  days_before_month y m + days_in_month y m <= days_before_month y m'.
Proof.
  intros H1 Hlt H12.
  assert (Hm : 1 <= m <= 12) by lia. assert (Hm' : 1 <= m' <= 12) by lia.
  each_month m; each_month m'; try lia;
    unfold days_before_month, days_in_month; cbn; destruct (isleap y); lia.
Qed.

(** A date of a later month is a later day. *)
Lemma toordinal_month_mono (a b : date) :
  calendar_date a -> calendar_date b -> month_index a < month_index b ->
  toordinal a < toordinal b.
Proof.
  destruct a as [ya ma da], b as [yb mb db0].
  unfold calendar_date, month_index, toordinal. cbn [year month day].
  intros (Hya & Hma & Hda) (Hyb & Hmb & Hdb) Hidx.
  destruct (Z.eq_dec ya yb) as [-> | Hne].
  - pose proof (days_before_month_mono yb ma mb). lia.
  - assert (Hlt : ya + 1 <= yb) by lia.
    pose proof (days_before_year_mono (ya + 1) yb Hlt) as Hmono.
    rewrite days_before_year_succ in Hmono.
    pose proof (days_before_month_bounds ya ma Hma).
    pose proof (days_before_month_bounds yb mb Hmb). lia.
Qed.

(** The fields of a step of years and months. *)
Lemma replaced_months (d : date) (yrs mths : Z) :
  calendar_date d -> 0 <= yrs -> 0 <= mths <= 12 ->
  let r := replaced d (mkRelativedelta yrs mths 0) in
  calendar_date r /\
  month_index r = month_index d + 12 * yrs + mths /\
  day r = Z.min (days_in_month (year r) (month r)) (day d).
Proof.
  destruct d as [y m dd]. intros (Hy & Hm & Hdd) Hyrs Hmths.
  cbn [year month day] in *.
  unfold replaced. cbn [rd_years rd_months rd_days year month day].
  unfold calendar_date, month_index.
  destruct (Z.eqb_spec mths 0) as [-> | Hnz]; cbv zeta beta iota; cbn [year month day].
  - pose proof (days_in_month_bounds (y + yrs) m). lia.
  - destruct (Z.ltb_spec 12 (m + mths)) as [Hover | Hin]; cbv iota beta;
      cbn [year month day].
    + pose proof (days_in_month_bounds (y + yrs + 1) (m + mths - 12)). lia.
    + destruct (Z.ltb_spec (m + mths) 1) as [Hunder | _]; [lia |].
      cbv iota beta. cbn [year month day].
      pose proof (days_in_month_bounds (y + yrs) (m + mths)). lia.
Qed.

(** The step of a frequency that is not weekly: the replaced date, or no
    date when its year is after [MAXYEAR]. *)
Lemma add_relativedelta_months (d : date) (yrs mths : Z) :
  calendar_date d -> 0 <= yrs -> 0 <= mths <= 12 ->
  let r := replaced d (mkRelativedelta yrs mths 0) in
  add_relativedelta d (mkRelativedelta yrs mths 0)
  = if month_index r <=? month_index last_date then inr r else inl ValueError.
Proof.
  intros Hd Hyrs Hmths r.
  destruct (replaced_months d yrs mths Hd Hyrs Hmths) as ((Hy & Hm & _) & _ & _).
  fold r in Hy, Hm.
  unfold add_relativedelta. fold r. cbn [rd_days].
  change (Z.to_nat 0) with 0%nat. cbn [add_days]. unfold MINYEAR.
  destruct (Z.ltb_spec (year r) 1) as [? | _]; [lia |]. cbn [orb].
  unfold month_index, last_date. cbn [year month day].
  destruct (Z.ltb_spec MAXYEAR (year r)) as [Hover | Hok];
    destruct (Z.leb_spec (12 * year r + (month r - 1)) (12 * MAXYEAR + (12 - 1)))
      as [Hle | Hgt]; try reflexivity; lia.
Qed.

Lemma get_next_date_after_months (f : string) (d : date) :
  f <> "weekly" ->
  exists yrs mths,
    get_next_date_after f d = add_relativedelta d (mkRelativedelta yrs mths 0) /\
    0 <= yrs /\ 0 <= mths <= 12 /\ 12 * yrs + mths = months_of f.
Proof.
  intros Hw. rewrite get_next_date_after_delta. unfold months_of.
  destruct (freq_map_cases f)
    as [[Hf _] | [[-> ->] | [[-> ->] | [[-> ->] | (_ & _ & Hq & Hy & ->)]]]].
  - contradiction.
  - exists 0, 1. cbn. repeat split; lia.
  - exists 0, 3. cbn. repeat split; lia.
  - exists 1, 0. cbn. repeat split; lia.
  - exists 0, 1. split; [reflexivity |].
    destruct (String.eqb_spec f "quarterly"); [contradiction |].
    destruct (String.eqb_spec f "yearly"); [contradiction |]. lia.
Qed.

Lemma months_of_pos (f : string) : 1 <= months_of f <= 12.
Proof.
  unfold months_of. destruct (String.eqb f "quarterly"); [lia |].
  destruct (String.eqb f "yearly"); lia.
Qed.

(** X17.  For every frequency other than weekly the next due date lies a
    whole number of months ahead: three for quarterly, twelve for yearly,
    one for monthly and for any frequency that is not one of the four
    choices.  The day of the month is kept when the month reached has it
    and is otherwise the last day of that month, so it never grows and a
    day up to the 28th always stays.  Where the month reached lies after
    December 9999 the call raises [ValueError]. *)
Theorem next_due_date_moves_by_months (f : string) (d : date) :
  valid_date d -> f <> "weekly" ->
  (month_index d + months_of f <= month_index last_date ->
   exists r,
     get_next_date_after f d = inr r /\
     valid_date r /\
     month_index r = month_index d + months_of f /\
     day r <= day d /\
     (day d <= 28 -> day r = day d) /\
     (day r < day d -> day r = days_in_month (year r) (month r))) /\
  (month_index last_date < month_index d + months_of f ->
   get_next_date_after f d = inl ValueError).
Proof.
  intros [Hd Hmax] Hw.
  destruct (get_next_date_after_months f d Hw) as (yrs & mths & -> & Hy & Hm & Hsum).
  rewrite (add_relativedelta_months d yrs mths Hd Hy Hm).
  destruct (replaced_months d yrs mths Hd Hy Hm) as (Hv & Hidx & Hday).
  cbv zeta in *.
  set (r := replaced d (mkRelativedelta yrs mths 0)) in *.
  split; intros Hle.
  - rewrite (proj2 (Z.leb_le _ _)) by lia. exists r. split; [reflexivity |].
    pose proof (days_in_month_bounds (year r) (month r)).
    assert (Hyear : year r <= MAXYEAR).
    { destruct Hv as (_ & Hmr & _). unfold month_index, last_date in *.
      cbn [year month day] in *. lia. }
    repeat split; try apply Hv; try exact Hyear; lia.
  - destruct (Z.leb_spec (month_index r) (month_index last_date)); [lia | reflexivity].
Qed.

Lemma next_due_date_moves_by_months_witness :
  get_next_date_after "monthly" (mkDate 2026 1 31) = inr (mkDate 2026 2 28) /\
  get_next_date_after "every fortnight" (mkDate 2026 1 31) = inr (mkDate 2026 2 28) /\
  get_next_date_after "yearly" (mkDate 9999 6 1) = inl ValueError.
Proof.
  destruct (next_due_date_moves_by_months "monthly" (mkDate 2026 1 31)) as [Hin _].
  { vm_compute. repeat split; discriminate. }
  { discriminate. }
  destruct Hin as (r & Hr & _ & _ & _ & _ & Hlast); [vm_compute; discriminate |].
  assert (Heq : r = mkDate 2026 2 28).
  { destruct r as [y m dd]. vm_compute in Hr. injection Hr as <- <- <-. reflexivity. }
  subst r. split; [exact Hr |]. split; [reflexivity |].
  destruct (next_due_date_moves_by_months "yearly" (mkDate 9999 6 1)) as [_ Hout].
  { vm_compute. repeat split; discriminate. }
  { discriminate. }
  apply Hout. vm_compute. reflexivity.
Defined.

(** X18.  Whatever the frequency, one of the four choices or any other
    string: the next due date of a [datetime.date], where the call gives
    one, is a [datetime.date] strictly later than it; the call gives one
    for every date before the year 9999, and raises ([ValueError] or
    [OverflowError]) only for dates of that last year. *)
Theorem next_due_date_is_later (f : string) (d : date) :
  valid_date d ->
  match get_next_date_after f d with
  | inr r => valid_date r /\ toordinal d < toordinal r
  | inl _ => year d = MAXYEAR
  end /\
  (year d < MAXYEAR -> exists r, get_next_date_after f d = inr r).
Proof.
  intros Hd. pose proof Hd as [Hcal Hmax].
  assert (Hearly : year d < MAXYEAR ->
            toordinal d + 7 <= toordinal last_date /\
            month_index d + months_of f <= month_index last_date).
  { intros Hlt. pose proof (months_of_pos f).
    destruct Hcal as (Hy & Hm & Hdd).
    pose proof (days_before_month_bounds (year d) (month d) Hm).
    pose proof (days_before_year_succ (year d)).
    pose proof (days_before_year_mono (year d + 1) MAXYEAR ltac:(lia)).
    assert (Hl : toordinal last_date = days_before_year MAXYEAR + 365) by reflexivity.
    rewrite Hl. unfold toordinal, month_index, last_date. cbn [year month day].
    destruct (isleap (year d)); lia. }
  destruct (decide (f = "weekly")) as [-> | Hw].
  - rewrite get_next_date_after_delta.
    destruct (freq_map_cases "weekly")
      as [[_ ->] | [[Hf _] | [[Hf _] | [[Hf _] | [Hf _]]]]];
      try discriminate; [| congruence].
    destruct (add_relativedelta_week d Hd) as (Hv & Ho & ->).
    destruct (Z.leb_spec (toordinal d + 7) (toordinal last_date)) as [Hle | Hgt].
    + split; [| eauto]. split; [| lia].
      split; [exact Hv |]. apply (year_le_toordinal _ Hv). lia.
    + split; [lia |]. intros Hlt. destruct (Hearly Hlt). lia.
  - destruct (get_next_date_after_months f d Hw) as (yrs & mths & -> & Hy & Hm & Hsum).
    rewrite (add_relativedelta_months d yrs mths Hcal Hy Hm).
    destruct (replaced_months d yrs mths Hcal Hy Hm) as (Hv & Hidx & _).
    cbv zeta in *.
    set (r := replaced d (mkRelativedelta yrs mths 0)) in *.
    pose proof (months_of_pos f).
    destruct (Z.leb_spec (month_index r) (month_index last_date)) as [Hle | Hgt].
    + split; [| eauto]. split.
      * split; [exact Hv |]. destruct Hv as (_ & Hmr & _).
        unfold month_index, last_date in Hle. cbn [year month day] in Hle. lia.
      * apply toordinal_month_mono; [exact Hcal | exact Hv | lia].
    + split; [lia |]. intros Hlt. destruct (Hearly Hlt). lia.
Qed.

Lemma next_due_date_is_later_witness :
  get_next_date_after "yearly" (mkDate 2024 2 29) = inr (mkDate 2025 2 28) /\
  toordinal (mkDate 2024 2 29) < toordinal (mkDate 2025 2 28).
Proof.
  destruct (next_due_date_is_later "yearly" (mkDate 2024 2 29)) as [Hlater _].
  { vm_compute. repeat split; discriminate. }
  assert (Hr : get_next_date_after "yearly" (mkDate 2024 2 29) = inr (mkDate 2025 2 28))
    by (vm_compute; reflexivity).
  rewrite Hr in Hlater. split; [exact Hr | apply Hlater].
Defined.

(** ** Saving the settings *)

Lemma settings_save_effect (db : DB) (hub : ident) (data : SettingsBody) :
  let db' := snd (settings_save db hub (Some data)) in
  fst (settings_save db hub (Some data)) = JsonSuccess /\
  settings_row db' hub =
    mkExpenseSettings
      (default false (body_require_approval data))
      (to_column (default (Dec.mkDecimal 0 0) (body_approval_threshold data)))
      (to_column (default (Dec.mkDecimal 21 0) (body_default_tax_rate data)))
      (default true (body_auto_numbering data))
      (default "EXP" (body_number_prefix data)) /\
  (forall h, h <> hub -> settings_tbl db' !! h = settings_tbl db !! h) /\
  expenses_tbl db' = expenses_tbl db /\ suppliers_tbl db' = suppliers_tbl db.
Proof.
  assert (Hsave : exists row,
            row = mkExpenseSettings
                    (default false (body_require_approval data))
                    (to_column (default (Dec.mkDecimal 0 0) (body_approval_threshold data)))
                    (to_column (default (Dec.mkDecimal 21 0) (body_default_tax_rate data)))
                    (default true (body_auto_numbering data))
                    (default "EXP" (body_number_prefix data)) /\
            settings_save db hub (Some data)
            = (JsonSuccess,
               with_settings
                 (<[hub := row]> (settings_tbl (snd (get_settings db hub))))
                 (snd (get_settings db hub)))).
  { eexists. split; [reflexivity |]. unfold settings_save.
    destruct (get_settings db hub). reflexivity. }
  destruct Hsave as (row & Hrowdef & ->). cbv zeta. cbn [fst snd].
  pose proof (get_settings_tables db hub) as [Hx Hs].
  assert (Hother : forall h, h <> hub ->
            settings_tbl (snd (get_settings db hub)) !! h = settings_tbl db !! h).
  { intros h Hh. unfold get_settings. destruct (settings_tbl db !! hub); [reflexivity |].
    cbn [snd settings_tbl with_settings]. apply lookup_insert_ne. congruence. }
  cbn [settings_tbl expenses_tbl suppliers_tbl with_settings].
  split; [reflexivity |]. split.
  - unfold settings_row, with_settings. cbn [settings_tbl].
    rewrite lookup_insert_eq, Hrowdef. reflexivity.
  - split; [| split; assumption].
    intros h Hh. rewrite lookup_insert_ne by congruence. apply Hother, Hh.
Qed.

(** X19.  [settings_save] is no partial update: a key that the body leaves
    out goes back to its default, not to the stored value.  So after a
    save whose body does not name [require_approval], approval is off
    whatever was configured before, and [mark_paid] declines no expense
    of the tenant: it stores status paid and the time of the call. *)
Theorem settings_save_without_key_switches_approval_off (now : datetime) (db : DB)
  (hub pk0 : ident) (data : SettingsBody) (r : ExpenseRow) :
  body_require_approval data = None ->
  expenses_tbl db !! pk0 = Some r -> hub_id r = hub -> is_deleted r = false ->
  let db' := snd (settings_save db hub (Some data)) in
  require_approval (settings_row db' hub) = false /\
  (forall msg, fst (expense_mark_paid now db' hub pk0) <> JsonDeclined msg) /\
  expenses_tbl (snd (expense_mark_paid now db' hub pk0)) !! pk0
  = Some (set_status paid (set_paid_at (Some now) r)).
Proof.
  intros Hkey Hr Hh Hd db'.
  destruct (settings_save_effect db hub data) as (_ & Hrow & _ & Hx & Hs).
  fold db' in Hrow, Hx, Hs.
  assert (Hoff : require_approval (settings_row db' hub) = false)
    by (rewrite Hrow, Hkey; reflexivity).
  split; [exact Hoff |].
  assert (Hr' : expenses_tbl db' !! pk0 = Some r) by (rewrite Hx; exact Hr).
  destruct (mark_paid_cases now db' hub pk0 r Hr' Hh Hd)
    as [((Hreq & _) & _) | (_ & db2 & Hx2 & _ & Hres)]; [congruence |].
  cbv zeta in Hres.
  assert (Hrow2 : expenses_tbl db2 !! pk0 = Some (set_status paid (set_paid_at (Some now) r)))
    by (rewrite Hx2; apply lookup_insert_eq).
  destruct (supplier r) as [sid |];
    [destruct (suppliers_tbl db' !! sid) |]; rewrite Hres; cbn [fst snd];
    rewrite ?update_totals_tables; (split; [intros msg; discriminate | exact Hrow2]).
Qed.

Lemma settings_save_without_key_switches_approval_off_witness :
  require_approval (settings_row shop_db 1) = true /\
  require_approval (settings_row (snd (settings_save shop_db 1 (Some prefix_only_body))) 1)
  = false /\
  approval_threshold
    (settings_row (snd (settings_save shop_db 1 (Some prefix_only_body))) 1) = 0.
Proof.
  destruct (settings_save_without_key_switches_approval_off noon shop_db 1 3
              prefix_only_body
              (mkExpense (Some 3%positive) 1%positive false "EXP-20260105-0001"
                 (Some 7%positive) 10000 2100 2100 12100 jan5 draft None None None)
              eq_refl eq_refl eq_refl eq_refl) as (Hoff & _).
  split; [reflexivity |]. split; [exact Hoff |]. vm_compute. reflexivity.
Defined.

(** X20.  The prefix that [settings_save] stores is the prefix of the next
    expense created in the hub, on the day of the creation: the stored
    prefix when automatic numbering is on and the prefix is not empty,
    and EXP when the body switches automatic numbering off or stores an
    empty prefix. *)
Theorem saved_prefix_numbers_next_expense (now : datetime) (db : DB) (hub : ident)
  (data : SettingsBody) (form : ExpenseFormData) :
  let db1 := snd (settings_save db hub (Some data)) in
  let stored := default "EXP" (body_number_prefix data) in
  let prefix := if default true (body_auto_numbering data)
                then (if String.eqb stored "" then "EXP" else stored)
                else "EXP" in
  exists id db' row,
    expense_create now db1 hub (Some form) = (HxRedirect (Some id), db') /\
    expenses_tbl db' !! id = Some row /\
    String.prefix (prefix +:+ "-" +:+ strftime_Ymd now +:+ "-") (expense_number row)
    = true.
Proof.
  intros db1 stored prefix.
  destruct (settings_save_effect db hub data) as (_ & Hrow & _).
  fold db1 in Hrow.
  destruct (expense_create_post now db1 hub form) as (id & db' & Hc & _ & Hx & _).
  cbv zeta in Hc, Hx. eexists id, db', _. split; [exact Hc |].
  split; [rewrite Hx; apply lookup_insert_eq |].
  cbn [expense_number to_db map_amounts set_pk set_expense_number].
  rewrite Hrow. unfold numbering_prefix, settings_from_db.
  cbn [auto_numbering number_prefix].
  apply generate_expense_number_prefix.
Qed.

(** ** Saving again, paying again *)







